(** * ITBI Recife data-integration pipeline: ETL and ELT transform stages

    A shallow embedding of the transform logic of the repository
    (src/etl/transform.py, src/etl/load.py, src/etl/extract.py,
    src/elt/extract.py, src/elt/load_raw.py, src/elt/transform_db.py) and
    the properties its specification states about it.

    Conventions of the embedding.
    - A Python [str] and an SQLite TEXT value are a [string]: the UTF-8
      bytes of the text, so the literals below are the literals of the source.
    - A float is modelled by the exact rational it denotes ([Fin q]), plus
      the two infinities and NaN; binary rounding of IEEE doubles and the
      negative zero are not modelled.  Every rational is kept in lowest
      terms ([Qred]) so that equal values are equal terms.
    - A pandas DataFrame is a list of column names and a list of rows of
      dynamically typed cells.
    - An exception is a value of a result type; a [try/except] block is a
      [match] on it.
    - Console output is modelled only where a property speaks about it. *)

From Stdlib Require Import String Ascii List ZArith QArith Qround Bool Lia Lqa.
From Stdlib Require Import DecimalString.
Import ListNotations.

Open Scope string_scope.
Open Scope Z_scope.

(* ------------------------------------------------------------------ *)
(** ** Characters and strings *)

Module Str.

Definition code (c : ascii) : N := N_of_ascii c.

Definition is_digit (c : ascii) : bool :=
  (48 <=? code c)%N && (code c <=? 57)%N.

Definition digit_val (c : ascii) : Z := Z.of_N (code c) - 48.

(** Python's [str.isspace] on the ASCII range: TAB..CR, FS..US, SPACE. *)
Definition py_space (c : ascii) : bool :=
  ((9 <=? code c)%N && (code c <=? 13)%N)
  || ((28 <=? code c)%N && (code c <=? 32)%N).

(** SQLite's [sqlite3Isspace]: TAB..CR and SPACE. *)
Definition sql_space (c : ascii) : bool :=
  ((9 <=? code c)%N && (code c <=? 13)%N) || (code c =? 32)%N.

(** [replace s c r]: every occurrence of the one-character pattern [c] in
    [s] is replaced by [r].  Python's [s.replace(',', '.')] is
    [replace s "," "."]; SQL's [REPLACE(s, '.', '')] is [replace s "." ""]. *)
Fixpoint replace (s : string) (c : ascii) (r : string) : string :=
  match s with
  | EmptyString => EmptyString
  | String a s' =>
      if Ascii.eqb a c then r ++ replace s' c r else String a (replace s' c r)
  end.

Fixpoint lstrip (p : ascii -> bool) (s : string) : string :=
  match s with
  | EmptyString => EmptyString
  | String a s' => if p a then lstrip p s' else s
  end.

Fixpoint rstrip (p : ascii -> bool) (s : string) : string :=
  match s with
  | EmptyString => EmptyString
  | String a s' =>
      match rstrip p s' with
      | EmptyString => if p a then EmptyString else String a EmptyString
      | r => String a r
      end
  end.

Definition strip (p : ascii -> bool) (s : string) : string :=
  rstrip p (lstrip p s).

Fixpoint all_chars (p : ascii -> bool) (s : string) : bool :=
  match s with
  | EmptyString => true
  | String a s' => p a && all_chars p s'
  end.

Definition lower_char (c : ascii) : ascii :=
  if ((65 <=? code c)%N && (code c <=? 90)%N)
  then ascii_of_N (code c + 32) else c.

Fixpoint lower (s : string) : string :=
  match s with
  | EmptyString => EmptyString
  | String a s' => String (lower_char a) (lower s')
  end.

(** Value of a string of decimal digits, most significant first. *)
Fixpoint digits_acc (acc : Z) (s : string) : Z :=
  match s with
  | EmptyString => acc
  | String a s' => digits_acc (acc * 10 + digit_val a) s'
  end.

Definition digits_val (s : string) : Z := digits_acc 0 s.

(** Longest prefix of decimal digits, and what follows it. *)
Fixpoint span_digits (s : string) : string * string :=
  match s with
  | EmptyString => (EmptyString, EmptyString)
  | String a s' =>
      if is_digit a
      then let '(ds, r) := span_digits s' in (String a ds, r)
      else (EmptyString, s)
  end.

(** Python's [digitpart ::= digit (["_"] digit)*]: the longest such prefix
    with its underscores removed, and what follows it.  [after_digit] says
    that the previous character was a digit, so that one underscore may
    follow. *)
Fixpoint scan_digitpart (after_digit : bool) (s : string) : string * string :=
  match s with
  | EmptyString => (EmptyString, EmptyString)
  | String a s' =>
      if is_digit a
      then let '(ds, r) := scan_digitpart true s' in (String a ds, r)
      else if after_digit && Ascii.eqb a "_" then
        match s' with
        | String b _ =>
            if is_digit b then scan_digitpart false s' else (EmptyString, s)
        | EmptyString => (EmptyString, s)
        end
      else (EmptyString, s)
  end.

Definition Z_to_string (z : Z) : string :=
  NilEmpty.string_of_int (Z.to_int z).

End Str.

(* ------------------------------------------------------------------ *)
(** ** Numbers *)

(** A float: a finite value, an infinity, or NaN (pandas' missing-value
    marker for numeric data). *)
Inductive pyfloat : Type :=
| Fin (q : Q)
| PosInf
| NegInf
| NaN.

Module Num.

(** [m * 10^e] in lowest terms. *)
Definition scale10 (m : Z) (e : Z) : Q :=
  if 0 <=? e then Qred ((m * 10 ^ e) # 1)
  else Qred (m # Z.to_pos (10 ^ (- e))).

Definition signed (neg : bool) (m : Z) : Z := if neg then - m else m.

(** Decimal literal with integer digits [ip], fraction digits [fp] and
    decimal exponent [e]. *)
Definition decimal (neg : bool) (ip fp : string) (e : Z) : Q :=
  scale10 (signed neg (Str.digits_val (ip ++ fp)))
          (e - Z.of_nat (String.length fp)).

(** Rounding to two decimals.  numpy's [round] ties to even; SQLite's
    [ROUND] ties away from zero. *)
Definition round_half_even (x : Q) : Z :=
  let f := Qfloor x in
  let r := (x - inject_Z f)%Q in
  match (r ?= 1 # 2)%Q with
  | Lt => f
  | Gt => f + 1
  | Eq => if Z.even f then f else f + 1
  end.

Definition round_half_away (x : Q) : Z :=
  if Qle_bool 0 x then Qfloor (x + (1 # 2))%Q
  else - Qfloor ((- x) + (1 # 2))%Q.

Definition round2_even (x : Q) : Q :=
  Qred (round_half_even (x * 100)%Q # 100).

Definition round2_away (x : Q) : Q :=
  Qred (round_half_away (x * 100)%Q # 100).

End Num.

(* ------------------------------------------------------------------ *)
(** ** Python's [float(str)] *)

Module PyFloat.

Import Str.

(** Optional sign: [(negative, rest)]. *)
Definition take_sign (s : string) : bool * string :=
  match s with
  | String "-" s' => (true, s')
  | String "+" s' => (false, s')
  | _ => (false, s)
  end.

(** [exponent ::= ("e" | "E") [sign] digitpart], then end of input.
    [None]: malformed. *)
Definition parse_exponent (s : string) : option Z :=
  match s with
  | EmptyString => Some 0
  | String c s' =>
      if Ascii.eqb c "e" || Ascii.eqb c "E" then
        let '(neg, s1) := take_sign s' in
        match scan_digitpart false s1 with
        | (EmptyString, _) => None
        | (ds, EmptyString) => Some (Num.signed neg (digits_val ds))
        | (_, String _ _) => None
        end
      else None
  end.

(** [number ::= [digitpart] "." digitpart | digitpart ["."]] followed by an
    optional exponent. *)
Definition parse_number (neg : bool) (s : string) : option pyfloat :=
  let '(ip, r) := scan_digitpart false s in
  match r with
  | String "." r1 =>
      let '(fp, r2) := scan_digitpart false r1 in
      match ip, fp with
      | EmptyString, EmptyString => None
      | _, _ =>
          match parse_exponent r2 with
          | Some e => Some (Fin (Num.decimal neg ip fp e))
          | None => None
          end
      end
  | _ =>
      match ip with
      | EmptyString => None
      | _ =>
          match parse_exponent r with
          | Some e => Some (Fin (Num.decimal neg ip EmptyString e))
          | None => None
          end
      end
  end.

(** [float(s)]: surrounding whitespace is stripped; [None] is ValueError.
    Whitespace and digits outside ASCII, and magnitudes beyond the range of
    a double, are outside the model. *)
Definition py_float (s : string) : option pyfloat :=
  let t := strip py_space s in
  let '(neg, body) := take_sign t in
  let l := lower body in
  if String.eqb l "inf" || String.eqb l "infinity"
  then Some (if neg then NegInf else PosInf)
  else if String.eqb l "nan" then Some NaN
  else parse_number neg body.

End PyFloat.

(* ------------------------------------------------------------------ *)
(** ** SQLite's CAST of TEXT to REAL and to INTEGER *)

Module Sqlite.

Import Str.

(** Exponent of [sqlite3AtoF]: it counts only when at least one digit
    follows the [e]; otherwise it is ignored. *)
Definition atof_exponent (s : string) : Z :=
  match s with
  | String c s' =>
      if Ascii.eqb c "e" || Ascii.eqb c "E" then
        let '(neg, s1) := PyFloat.take_sign s' in
        match span_digits s1 with
        | (EmptyString, _) => 0
        | (ds, _) => Num.signed neg (digits_val ds)
        end
      else 0
  | EmptyString => 0
  end.

(** [CAST(s AS REAL)] for a TEXT [s]: the longest numeric prefix after
    leading whitespace; no digits at all gives 0.0; whatever follows the
    prefix is ignored. *)
Definition cast_real (s : string) : Q :=
  let '(neg, s1) := PyFloat.take_sign (lstrip sql_space s) in
  let '(ip, r) := span_digits s1 in
  match r with
  | String "." r1 =>
      let '(fp, r2) := span_digits r1 in
      match ip, fp with
      | EmptyString, EmptyString => Num.scale10 0 0
      | _, _ => Num.decimal neg ip fp (atof_exponent r2)
      end
  | _ =>
      match ip with
      | EmptyString => Num.scale10 0 0
      | _ => Num.decimal neg ip EmptyString (atof_exponent r)
      end
  end.

Definition int64_max : Z := 9223372036854775807.
Definition int64_min : Z := -9223372036854775808.

(** [CAST(s AS INTEGER)] for a TEXT [s]: the longest integer prefix after
    leading whitespace, clamped to 64 bits; no digits gives 0. *)
Definition cast_integer (s : string) : Z :=
  let '(neg, s1) := PyFloat.take_sign (lstrip sql_space s) in
  let '(ds, _) := span_digits s1 in
  Z.max int64_min (Z.min int64_max (Num.signed neg (digits_val ds))).

(** [TRIM(s)] removes spaces (only) from both ends. *)
Definition trim (s : string) : string := strip (fun c => Ascii.eqb c " ") s.

(** The conversion written in the INSERT ... SELECT of
    [transform_data_types_in_db]:
    [CAST(REPLACE(REPLACE(x, '.', ''), ',', '.') AS REAL)]; NULL stays NULL. *)
Definition normalise_br (x : string) : string :=
  replace (replace x "." "") "," ".".

Definition cast_br_real (x : option string) : option Q :=
  match x with
  | Some s => Some (cast_real (normalise_br s))
  | None => None
  end.

End Sqlite.

(* ------------------------------------------------------------------ *)
(** ** Calendar dates *)

Record date : Type := mkDate { d_year : Z; d_month : Z; d_day : Z }.

Module Cal.

Import Str.

Definition is_leap (y : Z) : bool :=
  ((y mod 4 =? 0) && negb (y mod 100 =? 0)) || (y mod 400 =? 0).

Definition days_in_month (y m : Z) : Z :=
  if m =? 2 then (if is_leap y then 29 else 28)
  else if (m =? 4) || (m =? 6) || (m =? 9) || (m =? 11) then 30
  else 31.

(** The text [YYYY-MM-DD] split into its three numbers, when it has exactly
    that shape. *)
Definition split_ymd (s : string) : option (Z * Z * Z) :=
  match s with
  | String y1 (String y2 (String y3 (String y4 (String "-"
      (String m1 (String m2 (String "-" (String d1 (String d2 rest))))))))) =>
      if all_chars is_digit
           (String y1 (String y2 (String y3 (String y4
             (String m1 (String m2 (String d1 (String d2 EmptyString))))))))
      then
        match rest with
        | EmptyString =>
            Some (digits_val (String y1 (String y2 (String y3 (String y4 EmptyString)))),
                  digits_val (String m1 (String m2 EmptyString)),
                  digits_val (String d1 (String d2 EmptyString)))
        | String _ _ => None
        end
      else None
  | _ => None
  end.

Definition pad2 (z : Z) : string :=
  if z <? 10 then "0" ++ Z_to_string z else Z_to_string z.

Definition pad4 (z : Z) : string :=
  if z <? 10 then "000" ++ Z_to_string z
  else if z <? 100 then "00" ++ Z_to_string z
  else if z <? 1000 then "0" ++ Z_to_string z
  else Z_to_string z.

Definition iso (d : date) : string :=
  pad4 (d_year d) ++ "-" ++ pad2 (d_month d) ++ "-" ++ pad2 (d_day d).

Definition quarter_of_month (m : Z) : Z := (m - 1) / 3 + 1.

End Cal.

(* ------------------------------------------------------------------ *)
(** ** Exceptions *)

Inductive exn : Type :=
| KeyError (what : string)
| ValueError (what : string)
| TypeError (what : string)
| AttributeError (what : string)
| IOError (what : string)
| OperationalError (what : string)
| IntegrityError (what : string).

Inductive result (A : Type) : Type :=
| Ok (a : A)
| Raise (e : exn).

Arguments Ok {A} a.
Arguments Raise {A} e.

Definition bind {A B : Type} (r : result A) (k : A -> result B) : result B :=
  match r with
  | Ok a => k a
  | Raise e => Raise e
  end.

Notation "x <- r ;; k" := (bind r (fun x => k))
  (at level 61, r at next level, right associativity).

(** All elements convert, or the first failure. *)
Fixpoint mapM {A B : Type} (f : A -> result B) (l : list A) : result (list B) :=
  match l with
  | [] => Ok []
  | a :: l' => b <- f a ;; bs <- mapM f l' ;; Ok (b :: bs)
  end.

(* ------------------------------------------------------------------ *)
(** ** Cells and frames *)

(** A cell of a DataFrame.  [CFloat NaN] is the missing-value marker that
    [pd.read_csv] produces; [CNone] is Python's [None]; [CNaT] is the
    missing timestamp. *)
Inductive cell : Type :=
| CNone
| CStr (s : string)
| CInt (z : Z)
| CFloat (x : pyfloat)
| CBool (b : bool)
| CTime (d : date)
| CNaT.

Record frame : Type := mkFrame {
  columns : list string;
  rows : list (list cell)
}.

Module Cell.

Import Str.

(** [pd.isna] on a scalar. *)
Definition isna (c : cell) : bool :=
  match c with
  | CNone | CFloat NaN | CNaT => true
  | _ => false
  end.

(** Fraction digits of [r / d], at most [fuel] of them. *)
Fixpoint frac_digits (fuel : nat) (r d : Z) : string :=
  match fuel with
  | O => EmptyString
  | S k =>
      if r =? 0 then EmptyString
      else String (ascii_of_N (Z.to_N (48 + (r * 10) / d)))
                  (frac_digits k ((r * 10) mod d) d)
  end.

(** [repr] of a float, in positional notation with at most 17 fraction
    digits (Python switches to exponent notation below 1e-4 and from 1e16
    on; such magnitudes are outside the model). *)
Definition repr_float (x : pyfloat) : string :=
  match x with
  | NaN => "nan"
  | PosInf => "inf"
  | NegInf => "-inf"
  | Fin q =>
      let n := Qnum q in
      let d := Zpos (Qden q) in
      let a := Z.abs n in
      let fr := frac_digits 17 (a mod d) d in
      (if n <? 0 then "-" else "")
        ++ Z_to_string (a / d) ++ "."
        ++ (match fr with EmptyString => "0" | _ => fr end)
  end.

(** Python's [str(value)]. *)
Definition py_str (c : cell) : string :=
  match c with
  | CNone => "None"
  | CStr s => s
  | CInt z => Z_to_string z
  | CFloat x => repr_float x
  | CBool true => "True"
  | CBool false => "False"
  | CTime d => Cal.iso d ++ " 00:00:00"
  | CNaT => "NaT"
  end.

(** The number a cell stands for in arithmetic and comparisons: missing
    values count as NaN, text and timestamps raise TypeError. *)
Definition as_number (c : cell) : result pyfloat :=
  match c with
  | CInt z => Ok (Fin (Qred (z # 1)))
  | CFloat x => Ok x
  | CBool b => Ok (Fin (if b then 1 # 1 else 0 # 1))
  | CNone | CNaT => Ok NaN
  | CStr _ => Raise (TypeError "unsupported operand type: str")
  | CTime _ => Raise (TypeError "unsupported operand type: Timestamp")
  end.

Definition is_int (c : cell) : bool :=
  match c with CInt _ => true | _ => false end.

End Cell.

Module Float.

Definition is_zero (q : Q) : bool := Qeq_bool q 0.
Definition is_neg (q : Q) : bool := negb (Qle_bool 0 q).

(** IEEE division as numpy performs it: a division by zero is an infinity
    (or NaN for 0/0), never an exception. *)
Definition div (x y : pyfloat) : pyfloat :=
  match x, y with
  | NaN, _ | _, NaN => NaN
  | Fin a, Fin b =>
      if is_zero b then
        (if is_zero a then NaN else if is_neg a then NegInf else PosInf)
      else Fin (Qred (a / b))
  | Fin _, (PosInf | NegInf) => Fin (0 # 1)
  | PosInf, Fin b => if is_neg b then NegInf else PosInf
  | NegInf, Fin b => if is_neg b then PosInf else NegInf
  | (PosInf | NegInf), (PosInf | NegInf) => NaN
  end.

Definition sub (x y : pyfloat) : pyfloat :=
  match x, y with
  | NaN, _ | _, NaN => NaN
  | Fin a, Fin b => Fin (Qred (a - b))
  | Fin _, PosInf => NegInf
  | Fin _, NegInf => PosInf
  | PosInf, NegInf | PosInf, Fin _ => PosInf
  | NegInf, PosInf | NegInf, Fin _ => NegInf
  | PosInf, PosInf | NegInf, NegInf => NaN
  end.

(** [Series.round(2)], on the exact quotient.  numpy rounds the binary
    double instead; the two can differ only when the exact quotient lies
    half-way between two hundredths, where the double that stands for it
    falls on one side or the other of the tie. *)
Definition round2 (x : pyfloat) : pyfloat :=
  match x with
  | Fin q => Fin (Num.round2_even q)
  | _ => x
  end.

(** [x <= k] and [x > k] against an integer literal; comparisons with NaN
    are false. *)
Definition le_int (x : pyfloat) (k : Z) : bool :=
  match x with
  | Fin q => Qle_bool q (k # 1)
  | NegInf => true
  | PosInf | NaN => false
  end.

Definition gt_int (x : pyfloat) (k : Z) : bool :=
  match x with
  | Fin q => negb (Qle_bool q (k # 1))
  | PosInf => true
  | NegInf | NaN => false
  end.

End Float.

Module Frame.

Definition has_column (df : frame) (name : string) : bool :=
  existsb (String.eqb name) (columns df).

Definition nrows (df : frame) : nat := List.length (rows df).

(** The cell of row [r] under column [name]. *)
Fixpoint cell_at (name : string) (cols : list string) (r : list cell)
  : option cell :=
  match cols, r with
  | c :: cols', x :: r' =>
      if String.eqb c name then Some x else cell_at name cols' r'
  | _, _ => None
  end.

Definition cell_or_none (name : string) (cols : list string) (r : list cell)
  : cell :=
  match cell_at name cols r with Some x => x | None => CNone end.

(** [df[name]]: KeyError when the column does not exist. *)
Definition column (df : frame) (name : string) : result (list cell) :=
  if has_column df name
  then Ok (map (cell_or_none name (columns df)) (rows df))
  else Raise (KeyError name).

(** [f] applied to the cell under column [name], the others kept. *)
Fixpoint apply_col (f : cell -> cell) (name : string)
         (cols : list string) (r : list cell) : list cell :=
  match cols, r with
  | c :: cols', x :: r' =>
      (if String.eqb c name then f x else x) :: apply_col f name cols' r'
  | _, _ => r
  end.

(** [df[name] = df[name].apply(f)] for an existing column. *)
Definition map_column (f : cell -> cell) (name : string) (df : frame) : frame :=
  mkFrame (columns df) (map (apply_col f name (columns df)) (rows df)).

(** [df[name] = vals]: overwrites the column, or appends a new one. *)
Definition assign (df : frame) (name : string) (vals : list cell) : frame :=
  if has_column df name
  then mkFrame (columns df)
         (map (fun rv => apply_col (fun _ => snd rv) name (columns df) (fst rv))
              (combine (rows df) vals))
  else mkFrame (columns df ++ [name])%list
         (map (fun rv => (fst rv ++ [snd rv])%list) (combine (rows df) vals)).

(** [df[name] = scalar]. *)
Definition assign_scalar (df : frame) (name : string) (v : cell) : frame :=
  assign df name (repeat v (nrows df)).

Definition rename_col (old new : string) (df : frame) : frame :=
  mkFrame (map (fun c => if String.eqb c old then new else c) (columns df))
          (rows df).

Fixpoint drop_row (names : list string) (cols : list string) (r : list cell)
  : list cell :=
  match cols, r with
  | c :: cols', x :: r' =>
      if existsb (String.eqb c) names then drop_row names cols' r'
      else x :: drop_row names cols' r'
  | _, _ => []
  end.

(** [df.drop(names, axis=1)]: KeyError when one of the names is absent. *)
Definition drop (names : list string) (df : frame) : result frame :=
  if forallb (has_column df) names
  then Ok (mkFrame
             (filter (fun c => negb (existsb (String.eqb c) names)) (columns df))
             (map (drop_row names (columns df)) (rows df)))
  else Raise (KeyError "not found in axis").

(** [df.empty]: some axis has length zero. *)
Definition empty (df : frame) : bool :=
  match columns df, rows df with
  | [], _ | _, [] => true
  | _, _ => false
  end.

End Frame.

(* ------------------------------------------------------------------ *)
(** ** Text re-encoding *)

Module Utf8.

Import Str.

Definition is_cont (b : N) : bool := ((128 <=? b) && (b <=? 191))%N.

(** Strict UTF-8 decoding (no overlong forms, no surrogates, at most
    U+10FFFF), as [bytes.decode('utf-8')] performs it; [None] is
    UnicodeDecodeError. *)
Fixpoint decode (s : string) : option (list N) :=
  match s with
  | EmptyString => Some []
  | String a s1 =>
      let b0 := code a in
      if (b0 <? 128)%N then option_map (cons b0) (decode s1)
      else if ((194 <=? b0) && (b0 <=? 223))%N then
        match s1 with
        | String b s2 =>
            let b1 := code b in
            if is_cont b1
            then option_map (cons ((b0 - 192) * 64 + (b1 - 128))%N) (decode s2)
            else None
        | _ => None
        end
      else if ((224 <=? b0) && (b0 <=? 239))%N then
        match s1 with
        | String b (String c s3) =>
            let b1 := code b in
            let b2 := code c in
            if is_cont b1 && is_cont b2
               && (negb (b0 =? 224)%N || (160 <=? b1)%N)
               && (negb (b0 =? 237)%N || (b1 <=? 159)%N)
            then option_map
                   (cons ((b0 - 224) * 4096 + (b1 - 128) * 64 + (b2 - 128))%N)
                   (decode s3)
            else None
        | _ => None
        end
      else if ((240 <=? b0) && (b0 <=? 244))%N then
        match s1 with
        | String b (String c (String d s4)) =>
            let b1 := code b in
            let b2 := code c in
            let b3 := code d in
            if is_cont b1 && is_cont b2 && is_cont b3
               && (negb (b0 =? 240)%N || (144 <=? b1)%N)
               && (negb (b0 =? 244)%N || (b1 <=? 143)%N)
            then option_map
                   (cons ((b0 - 240) * 262144 + (b1 - 128) * 4096
                          + (b2 - 128) * 64 + (b3 - 128))%N)
                   (decode s4)
            else None
        | _ => None
        end
      else None
  end.

(** [str.encode('latin1')]: one byte per code point; [None] is
    UnicodeEncodeError (a code point above 255). *)
Fixpoint encode_latin1 (cps : list N) : option string :=
  match cps with
  | [] => Some EmptyString
  | cp :: rest =>
      if (cp <=? 255)%N
      then option_map (String (ascii_of_N cp)) (encode_latin1 rest)
      else None
  end.

End Utf8.

(* ------------------------------------------------------------------ *)
(** ** In-process transform (src/etl/transform.py) *)

Module Etl.

Import Frame.

(** [text.encode('latin1').decode('utf-8')], the text unchanged when either
    step raises. *)
Definition fix_encoding_text (text : string) : string :=
  match Utf8.decode text with
  | Some cps =>
      match Utf8.encode_latin1 cps with
      | Some bytes =>
          match Utf8.decode bytes with
          | Some _ => bytes
          | None => text
          end
      | None => text
      end
  | None => text
  end.

Definition fix_encoding (text : cell) : cell :=
  match text with
  | CStr s => CStr (fix_encoding_text s)
  | _ => text
  end.

Definition convert_currency_format (value : cell) : cell :=
  if Cell.isna value then value
  else CStr (Str.replace (Cell.py_str value) "," ".").

Definition clean_column_names (df : frame) : result frame :=
  let df := rename_col "sfh" "valores_financiados_sfh" df in
  if has_column df "cidade" then drop ["cidade"; "uf"] df else Ok df.

(** [Series.fillna(v)]. *)
Definition fillna (v : cell) (c : cell) : cell :=
  if Cell.isna c then v else c.

Definition handle_missing_values (df : frame) : frame :=
  if has_column df "complemento"
  then map_column (fillna (CStr "Sem complemento")) "complemento" df
  else df.

(** [Series.astype(float)] on one element. *)
Definition to_float (c : cell) : result cell :=
  match c with
  | CStr s =>
      match PyFloat.py_float s with
      | Some x => Ok (CFloat x)
      | None => Raise (ValueError "could not convert string to float")
      end
  | CNone => Ok (CFloat NaN)
  | CInt z => Ok (CFloat (Fin (Qred (z # 1))))
  | CFloat _ => Ok c
  | CBool b => Ok (CFloat (Fin (if b then 1 # 1 else 0 # 1)))
  | CTime _ | CNaT => Raise (TypeError "float() argument must be a number")
  end.

Definition numeric_columns : list string :=
  ["valor_avaliacao"; "area_terreno"; "area_construida";
   "valores_financiados_sfh"; "fracao_ideal"].

(** Body of the loop of [fix_data_types] for one column: the first
    assignment stays in place when [astype(float)] raises. *)
Definition fix_numeric_column (df : frame) (col : string) : frame :=
  if has_column df col then
    let df1 := map_column convert_currency_format col df in
    match (cells <- column df1 col ;; mapM to_float cells) with
    | Ok vals => assign df1 col vals
    | Raise _ => df1
    end
  else df.

(** Timestamps span 1677-09-21 .. 2262-04-11. *)
Definition in_timestamp_range (y m d : Z) : bool :=
  let key := y * 10000 + m * 100 + d in
  (16770921 <=? key) && (key <=? 22620411).

(** A date text as [pd.to_datetime] reads it.  Only the ISO form
    [YYYY-MM-DD] of the source files is modelled; any other text counts as
    unparseable. *)
Definition parse_date (s : string) : option date :=
  match Cal.split_ymd s with
  | Some (y, m, d) =>
      if (1 <=? m) && (m <=? 12) && (1 <=? d) && (d <=? Cal.days_in_month y m)
         && in_timestamp_range y m d
      then Some (mkDate y m d) else None
  | None => None
  end.

(** [pd.to_datetime] on one element of a column read from CSV (text or
    missing); numeric cells are outside the model and reported as a
    failure. *)
Definition to_timestamp (c : cell) : result cell :=
  match c with
  | CStr s =>
      match parse_date s with
      | Some d => Ok (CTime d)
      | None => Raise (ValueError "Unknown datetime string format")
      end
  | CTime _ => Ok c
  | CNone | CFloat NaN | CNaT => Ok CNaT
  | _ => Raise (TypeError "not a date text")
  end.

Definition fix_date_column (df : frame) : frame :=
  if has_column df "data_transacao" then
    match (cells <- column df "data_transacao" ;; mapM to_timestamp cells) with
    | Ok vals => assign df "data_transacao" vals
    | Raise _ => df
    end
  else df.

Definition fix_data_types (df : frame) : frame :=
  fix_date_column (fold_left fix_numeric_column numeric_columns df).

Definition exclude_columns : list string :=
  ["valores_financiados_sfh"; "valor_avaliacao";
   "area_terreno"; "area_construida"; "fracao_ideal"].

(** A column has dtype [object] when it holds text or [None]. *)
Definition is_object (cells : list cell) : bool :=
  existsb (fun c => match c with CStr _ | CNone => true | _ => false end) cells.

Definition text_columns (df : frame) : list string :=
  filter (fun c =>
            match column df c with
            | Ok cells => is_object cells
            | Raise _ => false
            end
            && negb (existsb (String.eqb c) exclude_columns))
         (columns df).

Definition fix_text_encoding (df : frame) : frame :=
  fold_left (fun d col => map_column fix_encoding col d) (text_columns df) df.

(** *** Derived metrics *)

Definition div_round2 (xy : cell * cell) : result cell :=
  x <- Cell.as_number (fst xy) ;;
  y <- Cell.as_number (snd xy) ;;
  Ok (CFloat (Float.round2 (Float.div x y))).

(** Try-block 1: [(df['valor_avaliacao'] / df['area_construida']).round(2)]. *)
Definition valor_por_m2_column (df : frame) : result (list cell) :=
  v <- column df "valor_avaliacao" ;;
  a <- column df "area_construida" ;;
  mapM div_round2 (combine v a).

Definition is_datetime (c : cell) : bool :=
  match c with CTime _ | CNaT => true | _ => false end.

(** [Series.dt.<field>]: AttributeError unless the column holds timestamps;
    integers, or floats with NaN as soon as one timestamp is missing. *)
Definition dt_field (f : date -> Z) (cells : list cell) : result (list cell) :=
  if forallb is_datetime cells then
    if existsb Cell.isna cells
    then Ok (map (fun c => match c with
                           | CTime d => CFloat (Fin (Qred (f d # 1)))
                           | _ => CFloat NaN
                           end) cells)
    else Ok (map (fun c => match c with
                           | CTime d => CInt (f d)
                           | _ => c
                           end) cells)
  else Raise (AttributeError "Can only use .dt accessor with datetimelike values").

Definition sub_float (xy : cell * cell) : result cell :=
  x <- Cell.as_number (fst xy) ;;
  y <- Cell.as_number (snd xy) ;;
  Ok (CFloat (Float.sub x y)).

Definition sub_int (xy : cell * cell) : result cell :=
  match xy with
  | (CInt p, CInt q) => Ok (CInt (p - q))
  | _ => sub_float xy
  end.

(** Element-wise difference; the result is integer only when both columns
    are. *)
Definition col_sub (a b : list cell) : result (list cell) :=
  if forallb Cell.is_int a && forallb Cell.is_int b
  then mapM sub_int (combine a b)
  else mapM sub_float (combine a b).

(** Try-block 2: [df['data_transacao'].dt.year - df['ano_construcao']]. *)
Definition idade_imovel_column (df : frame) : result (list cell) :=
  d <- column df "data_transacao" ;;
  y <- dt_field d_year d ;;
  a <- column df "ano_construcao" ;;
  col_sub y a.

Definition classificar_valor (valor : cell) : result cell :=
  if Cell.isna valor then Ok (CStr "Não informado")
  else
    x <- Cell.as_number valor ;;
    if Float.le_int x 200000 then Ok (CStr "Baixo (até R$ 200k)")
    else if Float.le_int x 500000 then Ok (CStr "Médio (R$ 200k-500k)")
    else if Float.le_int x 1000000 then Ok (CStr "Alto (R$ 500k-1M)")
    else Ok (CStr "Premium (acima R$ 1M)").

(** Try-block 3. *)
Definition faixa_valor_column (df : frame) : result (list cell) :=
  v <- column df "valor_avaliacao" ;;
  mapM classificar_valor v.

(** [series > 0] on one element: false on a missing value. *)
Definition gt_zero (c : cell) : result cell :=
  if Cell.isna c then Ok (CBool false)
  else x <- Cell.as_number c ;; Ok (CBool (Float.gt_int x 0)).

Definition try_assign (df : frame) (name : string) (r : result (list cell))
  : frame :=
  match r with
  | Ok vals => assign df name vals
  | Raise _ => df
  end.

(** Try-block 5: the three [.dt] reads fail together, so either all three
    columns are created or none. *)
Definition temporal_components (df : frame) : frame :=
  if has_column df "data_transacao" then
    match (d <- column df "data_transacao" ;;
           m <- dt_field d_month d ;;
           q <- dt_field (fun x => Cal.quarter_of_month (d_month x)) d ;;
           y <- dt_field d_year d ;;
           Ok (m, q, y)) with
    | Ok (m, q, y) =>
        assign (assign (assign df "mes_transacao" m) "trimestre" q)
               "ano_transacao" y
    | Raise _ => df
    end
  else df.

Definition create_derived_metrics (df : frame) : frame :=
  let df := try_assign df "valor_por_m2" (valor_por_m2_column df) in
  let df := try_assign df "idade_imovel" (idade_imovel_column df) in
  let df := try_assign df "faixa_valor" (faixa_valor_column df) in
  let df :=
    if has_column df "valores_financiados_sfh"
    then try_assign df "tem_financiamento"
           (v <- column df "valores_financiados_sfh" ;; mapM gt_zero v)
    else df in
  temporal_components df.

Definition transform_dataset (df : frame) : result frame :=
  df <- clean_column_names df ;;
  let df := handle_missing_values df in
  let df := fix_text_encoding df in
  let df := fix_data_types df in
  Ok (create_derived_metrics df).

End Etl.

(* ------------------------------------------------------------------ *)
(** ** Consolidation (src/etl/load.py) *)

(** A Python dict keyed by year, in insertion order. *)
Definition datasets : Type := list (string * frame).

Module Dict.

Fixpoint set (d : datasets) (k : string) (v : frame) : datasets :=
  match d with
  | [] => [(k, v)]
  | (k', v') :: d' =>
      if String.eqb k' k then (k, v) :: d' else (k', v') :: set d' k v
  end.

Fixpoint get (d : datasets) (k : string) : option frame :=
  match d with
  | [] => None
  | (k', v') :: d' => if String.eqb k' k then Some v' else get d' k
  end.

Definition keys (d : datasets) : list string := map fst d.
Definition values (d : datasets) : list frame := map snd d.

End Dict.

Module Load.

Import Frame.

Definition add_new (acc : list string) (c : string) : list string :=
  if existsb (String.eqb c) acc then acc else (acc ++ [c])%list.

(** Outer join of the column indexes with [sort=False]: the names in order
    of first appearance. *)
Definition union_columns (fs : list frame) : list string :=
  fold_left (fun acc f => fold_left add_new (columns f) acc) fs [].

(** The cells the input frames hold under column [c]. *)
Definition present_cells (fs : list frame) (c : string) : list cell :=
  flat_map (fun f => match column f c with
                     | Ok cells => cells
                     | Raise _ => []
                     end) fs.

Definition is_time (x : cell) : bool :=
  match x with CTime _ => true | _ => false end.

Definition is_float (x : cell) : bool :=
  match x with CFloat _ => true | _ => false end.

Definition is_numeric (x : cell) : bool :=
  match x with CInt _ | CFloat _ => true | _ => false end.

(** The value that fills a column where a frame lacks it: NaT in a
    timestamp column, NaN elsewhere. *)
Definition fill_value (fs : list frame) (c : string) : cell :=
  let cells := present_cells fs c in
  if existsb is_time cells && forallb Etl.is_datetime cells
  then CNaT else CFloat NaN.

(** Some frame with rows lacks column [c]. *)
Definition lacking (fs : list frame) (c : string) : bool :=
  existsb (fun f => negb (has_column f c) && negb (Nat.eqb (nrows f) 0)) fs.

(** An integer column becomes float64 when the result column has to hold a
    float or a NaN. *)
Definition promoted (fs : list frame) (c : string) : bool :=
  let cells := present_cells fs c in
  forallb is_numeric cells && (existsb is_float cells || lacking fs c).

Definition upcast (x : cell) : cell :=
  match x with
  | CInt z => CFloat (Fin (Qred (z # 1)))
  | _ => x
  end.

(** One row of frame [f] re-indexed on the columns of the result. *)
Definition reindex (fs : list frame) (all : list string) (f : frame)
           (r : list cell) : list cell :=
  map (fun c => match cell_at c (columns f) r with
                | Some x => if promoted fs c then upcast x else x
                | None => fill_value fs c
                end) all.

(** [pd.concat(frames, ignore_index=True, sort=False)]. *)
Definition concat (fs : list frame) : result frame :=
  match fs with
  | [] => Raise (ValueError "No objects to concatenate")
  | _ =>
      let all := union_columns fs in
      Ok (mkFrame all (flat_map (fun f => map (reindex fs all f) (rows f)) fs))
  end.

Definition consolidate_datasets (ds : datasets) : result frame :=
  concat (Dict.values ds).

End Load.

(* ------------------------------------------------------------------ *)
(** ** Extraction (src/etl/extract.py, src/elt/extract.py) *)

Record log_entry : Type := mkLogEntry {
  le_timestamp : cell;
  le_operation : string;
  le_dataset : string;
  le_records : nat;
  le_status : string
}.

(** What the extractors print while looping over the years. *)
Inductive console : Type :=
| Extracting (year : string)
| Extracted (year : string) (records ncolumns : nat)
| ExtractError (year : string) (e : exn).

Definition exn_message (e : exn) : string :=
  match e with
  | KeyError w | ValueError w | TypeError w | AttributeError w
  | IOError w | OperationalError w | IntegrityError w => w
  end.

Definition base_url : string :=
  "http://dados.recife.pe.gov.br/dataset/28e3e25e-a9a7-4a9f-90a8-bb02d09cbc18/resource/".

Definition datasets_urls : list (string * string) :=
  [("2023", base_url ++ "d0c08a6f-4c27-423c-9219-8d13403816f4/download/itbi_2023.csv");
   ("2024", base_url ++ "a36d548b-d705-496a-ac47-4ec36f068474/download/itbi_2024.csv");
   ("2025", base_url ++ "5b582147-3935-459a-bbf7-ee623c22c97b/download/itbi_2025.csv")].

Section Extraction.

(** The outside world: [pd.read_csv(url, sep=';', encoding='utf-8')], which
    returns a frame or raises, and the clock read by [datetime.now()]. *)
Variable read_csv : string -> result frame.
Variable now : cell.

Record extract_state : Type := mkExtract {
  datasets_dict : datasets;
  total_records : nat;
  printed : list console;
  operation_log : list log_entry
}.

Definition log_operation (operation dataset : string) (records : nat)
           (status : string) (log : list log_entry) : list log_entry :=
  (log ++ [mkLogEntry now operation dataset records status])%list.

(** Body of the [try] block of [extract_itbi_data] for one year. *)
Definition try_extract_etl (year url : string) : result frame :=
  df <- read_csv url ;;
  let df := Frame.assign_scalar df "source_year" (CStr year) in
  let df := Frame.assign_scalar df "extraction_date" now in
  let df := Frame.assign_scalar df "source_url" (CStr url) in
  if Frame.empty df then Raise (ValueError ("Dataset " ++ year ++ " está vazio"))
  else if (List.length (columns df) <? 20)%nat
  then Raise (ValueError ("Dataset " ++ year ++ " tem poucas colunas: "
                          ++ Str.Z_to_string (Z.of_nat (List.length (columns df)))))
  else Ok df.

Definition step_etl (st : extract_state) (yu : string * string) : extract_state :=
  let '(year, url) := yu in
  let out := (printed st ++ [Extracting year])%list in
  match try_extract_etl year url with
  | Ok df =>
      mkExtract (Dict.set (datasets_dict st) year df)
                (total_records st + Frame.nrows df)
                (out ++ [Extracted year (Frame.nrows df) (List.length (columns df))])%list
                (log_operation "extract" year (Frame.nrows df) "success"
                               (operation_log st))
  | Raise e =>
      mkExtract (datasets_dict st) (total_records st)
                (out ++ [ExtractError year e])%list
                (log_operation "extract" year 0 ("error: " ++ exn_message e)
                               (operation_log st))
  end.

(** [extract_itbi_data], started with the operation log [log0]. *)
Definition extract_itbi_data (log0 : list log_entry) : extract_state :=
  fold_left step_etl datasets_urls (mkExtract [] 0 [] log0).

(** Body of the [try] block of [extract_itbi_data_elt] for one year. *)
Definition try_extract_elt (year url : string) : result frame :=
  df <- read_csv url ;;
  let df := Frame.assign_scalar df "source_year" (CStr year) in
  let df := Frame.assign_scalar df "extraction_timestamp" now in
  let df := Frame.assign_scalar df "pipeline_type" (CStr "ELT") in
  if Frame.empty df then Raise (ValueError ("Dataset " ++ year ++ " está vazio"))
  else Ok df.

(** The ELT extractor keeps no operation log: the failure is printed. *)
Definition step_elt (st : extract_state) (yu : string * string) : extract_state :=
  let '(year, url) := yu in
  let out := (printed st ++ [Extracting year])%list in
  match try_extract_elt year url with
  | Ok df =>
      mkExtract (Dict.set (datasets_dict st) year df)
                (total_records st + Frame.nrows df)
                (out ++ [Extracted year (Frame.nrows df) (List.length (columns df))])%list
                (operation_log st)
  | Raise e =>
      mkExtract (datasets_dict st) (total_records st)
                (out ++ [ExtractError year e])%list
                (operation_log st)
  end.

Definition extract_itbi_data_elt : extract_state :=
  fold_left step_elt datasets_urls (mkExtract [] 0 [] []).

End Extraction.

(* ------------------------------------------------------------------ *)
(** ** The database (src/elt/load_raw.py, src/elt/transform_db.py) *)

(** A row of [itbi_raw].  Every column but [id] is TEXT; [None] is SQL
    NULL. *)
Record raw_row : Type := mkRaw {
  r_id : Z;
  r_valor_avaliacao : option string;
  r_bairro : option string;
  r_tipo_imovel : option string;
  r_data_transacao : option string;
  r_logradouro : option string;
  r_numero : option string;
  r_complemento : option string;
  r_cep : option string;
  r_area_terreno : option string;
  r_area_construida : option string;
  r_ano_construcao : option string;
  r_fracao_ideal : option string;
  r_valores_financiados_sfh : option string;
  r_source_year : option string;
  r_extraction_timestamp : option string;
  r_pipeline_type : option string;
  r_load_timestamp : option string
}.

(** A row of [itbi_transformed]: REAL columns hold a rational, INTEGER and
    BOOLEAN columns an integer, TEXT and DATE columns a text. *)
Record t_row : Type := mkT {
  t_id : Z;
  t_valor_avaliacao : option Q;
  t_valor_por_m2 : option Q;
  t_bairro : option string;
  t_tipo_imovel : option string;
  t_data_transacao : option string;
  t_ano_transacao : option Z;
  t_mes_transacao : option Z;
  t_trimestre : option Z;
  t_logradouro : option string;
  t_numero : option string;
  t_complemento : option string;
  t_cep : option string;
  t_area_terreno : option Q;
  t_area_construida : option Q;
  t_ano_construcao : option Z;
  t_idade_imovel : option Z;
  t_fracao_ideal : option Q;
  t_valores_financiados_sfh : option Q;
  t_tem_financiamento : option Z;
  t_faixa_valor : option string;
  t_categoria_area : option string;
  t_periodo_construcao : option string;
  t_source_year : option string;
  t_transformation_timestamp : option string;
  t_pipeline_type : option string
}.

Definition set_valor_por_m2 (v : option Q) (t : t_row) : t_row :=
  mkT
    (t_id t) (t_valor_avaliacao t) v (t_bairro t) (t_tipo_imovel t)
     (t_data_transacao t) (t_ano_transacao t) (t_mes_transacao t)
     (t_trimestre t) (t_logradouro t) (t_numero t) (t_complemento t)
     (t_cep t) (t_area_terreno t) (t_area_construida t) (t_ano_construcao t)
     (t_idade_imovel t) (t_fracao_ideal t) (t_valores_financiados_sfh t)
     (t_tem_financiamento t) (t_faixa_valor t) (t_categoria_area t)
     (t_periodo_construcao t) (t_source_year t)
     (t_transformation_timestamp t) (t_pipeline_type t).

Definition set_idade_imovel (v : option Z) (t : t_row) : t_row :=
  mkT
    (t_id t) (t_valor_avaliacao t) (t_valor_por_m2 t) (t_bairro t)
     (t_tipo_imovel t) (t_data_transacao t) (t_ano_transacao t)
     (t_mes_transacao t) (t_trimestre t) (t_logradouro t) (t_numero t)
     (t_complemento t) (t_cep t) (t_area_terreno t) (t_area_construida t)
     (t_ano_construcao t) v (t_fracao_ideal t) (t_valores_financiados_sfh t)
     (t_tem_financiamento t) (t_faixa_valor t) (t_categoria_area t)
     (t_periodo_construcao t) (t_source_year t)
     (t_transformation_timestamp t) (t_pipeline_type t).

Definition set_tem_financiamento (v : option Z) (t : t_row) : t_row :=
  mkT
    (t_id t) (t_valor_avaliacao t) (t_valor_por_m2 t) (t_bairro t)
     (t_tipo_imovel t) (t_data_transacao t) (t_ano_transacao t)
     (t_mes_transacao t) (t_trimestre t) (t_logradouro t) (t_numero t)
     (t_complemento t) (t_cep t) (t_area_terreno t) (t_area_construida t)
     (t_ano_construcao t) (t_idade_imovel t) (t_fracao_ideal t)
     (t_valores_financiados_sfh t) v (t_faixa_valor t) (t_categoria_area t)
     (t_periodo_construcao t) (t_source_year t)
     (t_transformation_timestamp t) (t_pipeline_type t).

Definition set_faixa_valor (v : option string) (t : t_row) : t_row :=
  mkT
    (t_id t) (t_valor_avaliacao t) (t_valor_por_m2 t) (t_bairro t)
     (t_tipo_imovel t) (t_data_transacao t) (t_ano_transacao t)
     (t_mes_transacao t) (t_trimestre t) (t_logradouro t) (t_numero t)
     (t_complemento t) (t_cep t) (t_area_terreno t) (t_area_construida t)
     (t_ano_construcao t) (t_idade_imovel t) (t_fracao_ideal t)
     (t_valores_financiados_sfh t) (t_tem_financiamento t) v
     (t_categoria_area t) (t_periodo_construcao t) (t_source_year t)
     (t_transformation_timestamp t) (t_pipeline_type t).

Definition set_categoria_area (v : option string) (t : t_row) : t_row :=
  mkT
    (t_id t) (t_valor_avaliacao t) (t_valor_por_m2 t) (t_bairro t)
     (t_tipo_imovel t) (t_data_transacao t) (t_ano_transacao t)
     (t_mes_transacao t) (t_trimestre t) (t_logradouro t) (t_numero t)
     (t_complemento t) (t_cep t) (t_area_terreno t) (t_area_construida t)
     (t_ano_construcao t) (t_idade_imovel t) (t_fracao_ideal t)
     (t_valores_financiados_sfh t) (t_tem_financiamento t) (t_faixa_valor t)
     v (t_periodo_construcao t) (t_source_year t)
     (t_transformation_timestamp t) (t_pipeline_type t).

Definition set_periodo_construcao (v : option string) (t : t_row) : t_row :=
  mkT
    (t_id t) (t_valor_avaliacao t) (t_valor_por_m2 t) (t_bairro t)
     (t_tipo_imovel t) (t_data_transacao t) (t_ano_transacao t)
     (t_mes_transacao t) (t_trimestre t) (t_logradouro t) (t_numero t)
     (t_complemento t) (t_cep t) (t_area_terreno t) (t_area_construida t)
     (t_ano_construcao t) (t_idade_imovel t) (t_fracao_ideal t)
     (t_valores_financiados_sfh t) (t_tem_financiamento t) (t_faixa_valor t)
     (t_categoria_area t) v (t_source_year t) (t_transformation_timestamp t)
     (t_pipeline_type t).

Record load_meta : Type := mkLoadMeta {
  lm_source_year : string;
  lm_records_loaded : nat;
  lm_file_source : string;
  lm_pipeline_type : string;
  lm_status : string;
  lm_error_message : option string
}.

Record transform_log : Type := mkTransformLog {
  tl_transformation_step : string;
  tl_source_year : string;
  tl_records_processed : nat;
  tl_records_created : nat;
  tl_status : string;
  tl_error_message : option string
}.

(** The database file.  [raw_seq] and [transformed_seq] are the AUTOINCREMENT
    counters: the largest id ever given out in each table. *)
Record db : Type := mkDb {
  itbi_raw : list raw_row;
  raw_seq : Z;
  load_metadata : list load_meta;
  itbi_transformed : list t_row;
  transformed_seq : Z;
  transformation_log : list transform_log
}.

Module Sql.

(** [col = ?] for a TEXT column: NULL never matches. *)
Definition text_is (v : option string) (k : string) : bool :=
  match v with
  | Some s => String.eqb s k
  | None => false
  end.

(** [NULLIF(x, k)]. *)
Definition nullif (x : option string) (k : string) : option string :=
  match x with
  | Some s => if String.eqb s k then None else Some s
  | None => None
  end.

(** [COALESCE(a, b, c)] with a non-NULL last argument. *)
Definition coalesce3 (a b : option string) (c : string) : option string :=
  match a, b with
  | Some x, _ => Some x
  | None, Some y => Some y
  | None, None => Some c
  end.

(** [x > 0] and [x <= k] on a REAL column, as a WHERE or WHEN condition:
    NULL is not true. *)
Definition gt0 (x : option Q) : bool :=
  match x with
  | Some q => negb (Qle_bool q 0)
  | None => false
  end.

Definition le (x : option Q) (k : Z) : bool :=
  match x with
  | Some q => Qle_bool q (k # 1)
  | None => false
  end.

Definition lt_int (x : option Z) (k : Z) : bool :=
  match x with
  | Some z => z <? k
  | None => false
  end.

Definition between (x : option Z) (lo hi : Z) : bool :=
  match x with
  | Some z => (lo <=? z) && (z <=? hi)
  | None => false
  end.

(** [ROUND(a / NULLIF(b, 0), 2)]. *)
Definition round_div (a b : option Q) : option Q :=
  match a, b with
  | Some x, Some y =>
      if Qeq_bool y 0 then None else Some (Num.round2_away (x / y))
  | _, _ => None
  end.

Definition sub_int (a b : option Z) : option Z :=
  match a, b with
  | Some x, Some y => Some (x - y)
  | _, _ => None
  end.

(** The date a text denotes for [DATE()] and [strftime()].  Only the form
    [YYYY-MM-DD] is modelled (month 1..12, day 1..31, kept as written, as
    SQLite 3.40 does); texts with a time of day, Julian day numbers and
    ['now'] are outside the model and read as NULL. *)
Definition parse_date (s : string) : option date :=
  match Cal.split_ymd s with
  | Some (y, m, d) =>
      if (1 <=? m) && (m <=? 12) && (1 <=? d) && (d <=? 31)
      then Some (mkDate y m d) else None
  | None => None
  end.

Definition date_of (x : option string) : option date :=
  match x with
  | Some s => parse_date s
  | None => None
  end.

End Sql.

Module Elt.

Definition metadata_columns : list string :=
  ["source_year"; "extraction_timestamp"; "pipeline_type"].

(** The columns of [itbi_raw] a loaded frame may bring.  (A frame bringing
    its own [id] or [load_timestamp] is outside the model and refused like
    an unknown column.) *)
Definition raw_columns : list string :=
  ["valor_avaliacao"; "bairro"; "tipo_imovel"; "data_transacao";
   "logradouro"; "numero"; "complemento"; "cep"; "area_terreno";
   "area_construida"; "ano_construcao"; "fracao_ideal";
   "valores_financiados_sfh";
   "source_year"; "extraction_timestamp"; "pipeline_type"].

(** The loop [df_to_load[col] = df_to_load[col].astype(str)] over every
    column that is not a metadata column, on one row. *)
Fixpoint stringify_row (cols : list string) (r : list cell) : list cell :=
  match cols, r with
  | c :: cols', x :: r' =>
      (if existsb (String.eqb c) metadata_columns then x
       else CStr (Cell.py_str x)) :: stringify_row cols' r'
  | _, _ => r
  end.

Definition stringify (df : frame) : frame :=
  mkFrame (columns df) (map (stringify_row (columns df)) (rows df)).

(** The value [to_sql] binds for a cell of a TEXT column: a missing value
    is NULL, anything else its text. *)
Definition sql_text (c : cell) : option string :=
  match c with
  | CStr s => Some s
  | CNone | CFloat NaN | CNaT => None
  | CBool b => Some (if b then "1" else "0")
  | _ => Some (Cell.py_str c)
  end.

Definition field (cols : list string) (r : list cell) (name : string)
  : option string :=
  match Frame.cell_at name cols r with
  | Some c => sql_text c
  | None => None
  end.

(** The row inserted for a frame row; a column the frame lacks is NULL,
    [load_timestamp] defaults to CURRENT_TIMESTAMP. *)
Definition raw_of_row (cols : list string) (id : Z) (timestamp : string)
           (r : list cell) : raw_row :=
  let f := field cols r in
  mkRaw id
        (f "valor_avaliacao") (f "bairro") (f "tipo_imovel")
        (f "data_transacao") (f "logradouro") (f "numero")
        (f "complemento") (f "cep") (f "area_terreno")
        (f "area_construida") (f "ano_construcao") (f "fracao_ideal")
        (f "valores_financiados_sfh")
        (f "source_year") (f "extraction_timestamp") (f "pipeline_type")
        (Some timestamp).

(** CONSTRAINT unique_record UNIQUE (valor_avaliacao, bairro,
    data_transacao, source_year): two rows conflict when the four values
    are equal and none is NULL. *)
Definition unique_key (r : raw_row)
  : option (string * string * string * string) :=
  match r_valor_avaliacao r, r_bairro r, r_data_transacao r, r_source_year r with
  | Some v, Some b, Some d, Some y => Some (v, b, d, y)
  | _, _, _, _ => None
  end.

Definition key_eqb (a b : string * string * string * string) : bool :=
  let '(a1, a2, a3, a4) := a in
  let '(b1, b2, b3, b4) := b in
  String.eqb a1 b1 && String.eqb a2 b2 && String.eqb a3 b3 && String.eqb a4 b4.

Definition conflicts (table : list raw_row) (r : raw_row) : bool :=
  match unique_key r with
  | Some k =>
      existsb (fun r' => match unique_key r' with
                         | Some k' => key_eqb k k'
                         | None => false
                         end) table
  | None => false
  end.

(** Rows inserted one after the other by a single INSERT statement; the
    first conflict aborts the statement. *)
Fixpoint insert_rows (cols : list string) (timestamp : string)
         (table : list raw_row) (seq : Z) (new : list (list cell))
  : result (list raw_row * Z) :=
  match new with
  | [] => Ok (table, seq)
  | r :: rest =>
      let row := raw_of_row cols (seq + 1) timestamp r in
      if conflicts table row
      then Raise (IntegrityError "UNIQUE constraint failed: itbi_raw")
      else insert_rows cols timestamp (table ++ [row])%list (seq + 1) rest
  end.

Section RawLoad.

(** SQLITE_MAX_VARIABLE_NUMBER of the SQLite build: with [method='multi']
    and no chunk size the whole frame is one INSERT statement with one
    bound variable per cell. *)
Variable max_variable_number : nat.

(** [df.to_sql('itbi_raw', conn, if_exists='append', index=False,
    method='multi')] on the rows [table]; a frame without rows executes no
    statement.  The statement is prepared before it runs: the number of
    bound variables is checked while it is parsed, the column names are
    resolved afterwards, in the order of the frame, and the first name the
    table lacks is reported. *)
Definition to_sql_raw (df : frame) (timestamp : string)
           (table : list raw_row) (seq : Z) : result (list raw_row * Z) :=
  match rows df with
  | [] => Ok (table, seq)
  | _ =>
      if (max_variable_number
          <? Frame.nrows df * List.length (columns df))%nat
      then Raise (OperationalError "too many SQL variables")
      else
        match find (fun c => negb (existsb (String.eqb c) raw_columns))
                   (columns df) with
        | Some c =>
            Raise (OperationalError
                     ("table itbi_raw has no column named " ++ c))
        | None => insert_rows (columns df) timestamp table seq (rows df)
        end
  end.

Definition file_source (year : string) : string :=
  "dados.recife.pe.gov.br - " ++ year.

(** [load_raw_dataset(df, year, db_path)]; [timestamp] is CURRENT_TIMESTAMP
    at the time of the call.  When [to_sql] raises, pandas rolls the open
    transaction back (which also undoes the DELETE above it), the error is
    recorded in [load_metadata] and raised again. *)
Definition load_raw_dataset (df : frame) (year : string) (timestamp : string)
           (d : db) : db * result nat :=
  let existing_records :=
    List.length (filter (fun r => Sql.text_is (r_source_year r) year) (itbi_raw d)) in
  let table :=
    if (0 <? existing_records)%nat
    then filter (fun r => negb (Sql.text_is (r_source_year r) year)) (itbi_raw d)
    else itbi_raw d in
  let df_to_load := stringify df in
  match to_sql_raw df_to_load timestamp table (raw_seq d) with
  | Ok (table', seq') =>
      let records_loaded := Frame.nrows df_to_load in
      (mkDb table' seq'
            (load_metadata d ++
               [mkLoadMeta year records_loaded (file_source year) "ELT"
                           "success" None])%list
            (itbi_transformed d) (transformed_seq d) (transformation_log d),
       Ok records_loaded)
  | Raise e =>
      (mkDb (itbi_raw d) (raw_seq d)
            (load_metadata d ++
               [mkLoadMeta year 0 (file_source year) "ELT"
                           "error" (Some (exn_message e))])%list
            (itbi_transformed d) (transformed_seq d) (transformation_log d),
       Raise e)
  end.

End RawLoad.

(** The CASE expression of the view [v_data_quality]. *)
Definition is_missing (v : option string) : bool :=
  match v with
  | None => true
  | Some s => String.eqb s "" || String.eqb s "nan"
  end.

(** [missing_valor] of [v_data_quality] for one year. *)
Definition missing_valor (year : string) (d : db) : nat :=
  List.length
    (filter (fun r => Sql.text_is (r_source_year r) year
                      && is_missing (r_valor_avaliacao r)) (itbi_raw d)).

(** The WHERE clause of the INSERT ... SELECT of
    [transform_data_types_in_db]. *)
Definition selected (year : string) (r : raw_row) : bool :=
  Sql.text_is (r_source_year r) year
  && match r_valor_avaliacao r with
     | None => false
     | Some v => negb (String.eqb v "") && negb (String.eqb v "nan")
     end.

Definition trimestre_of (mes : option Z) : Z :=
  if Sql.between mes 1 3 then 1
  else if Sql.between mes 4 6 then 2
  else if Sql.between mes 7 9 then 3
  else 4.

(** The SELECT list of [transform_data_types_in_db] on one raw row. *)
Definition transform_row (id : Z) (timestamp : string) (r : raw_row) : t_row :=
  let dt := Sql.date_of (r_data_transacao r) in
  let mes := option_map d_month dt in
  mkT id
      (Sqlite.cast_br_real (r_valor_avaliacao r))
      None
      (option_map Sqlite.trim (r_bairro r))
      (option_map Sqlite.trim (r_tipo_imovel r))
      (option_map Cal.iso dt)
      (option_map d_year dt)
      mes
      (Some (trimestre_of mes))
      (option_map Sqlite.trim (r_logradouro r))
      (option_map Sqlite.trim (r_numero r))
      (Sql.coalesce3
         (Sql.nullif (option_map Sqlite.trim (r_complemento r)) "")
         (Sql.nullif (option_map Sqlite.trim (r_complemento r)) "nan")
         "Sem complemento")
      (option_map Sqlite.trim (r_cep r))
      (Sqlite.cast_br_real (r_area_terreno r))
      (Sqlite.cast_br_real (r_area_construida r))
      (option_map Sqlite.cast_integer (r_ano_construcao r))
      None
      (Sqlite.cast_br_real (r_fracao_ideal r))
      (Sqlite.cast_br_real (r_valores_financiados_sfh r))
      None None None None
      (r_source_year r)
      (Some timestamp)
      (Some "ELT").

Fixpoint number_from (timestamp : string) (seq : Z) (rs : list raw_row)
  : list t_row :=
  match rs with
  | [] => []
  | r :: rs' => transform_row (seq + 1) timestamp r
                  :: number_from timestamp (seq + 1) rs'
  end.

(** [transform_data_types_in_db(db_path, year)]: DELETE the year from
    [itbi_transformed], INSERT ... SELECT from [itbi_raw], log. *)
Definition transform_data_types_in_db (year : string) (timestamp : string)
           (d : db) : db * nat :=
  let kept :=
    filter (fun t => negb (Sql.text_is (t_source_year t) year))
           (itbi_transformed d) in
  let source := filter (selected year) (itbi_raw d) in
  let records_transformed := List.length source in
  (mkDb (itbi_raw d) (raw_seq d) (load_metadata d)
        (kept ++ number_from timestamp (transformed_seq d) source)%list
        (transformed_seq d + Z.of_nat records_transformed)
        (transformation_log d ++
           [mkTransformLog "data_types" year records_transformed
                           records_transformed "success" None])%list,
   records_transformed).

(** The six UPDATE statements of [create_derived_metrics_in_db], each on one
    row. *)
Definition update_valor_m2 (year : string) (t : t_row) : t_row :=
  if Sql.text_is (t_source_year t) year && Sql.gt0 (t_area_construida t)
  then set_valor_por_m2
         (Sql.round_div (t_valor_avaliacao t) (t_area_construida t)) t
  else t.

Definition update_idade (year : string) (t : t_row) : t_row :=
  if Sql.text_is (t_source_year t) year
     && match t_ano_construcao t with Some _ => true | None => false end
  then set_idade_imovel (Sql.sub_int (t_ano_transacao t) (t_ano_construcao t)) t
  else t.

Definition update_financiamento (year : string) (t : t_row) : t_row :=
  if Sql.text_is (t_source_year t) year
  then set_tem_financiamento
         (Some (if Sql.gt0 (t_valores_financiados_sfh t) then 1 else 0)) t
  else t.

Definition faixa_valor_case (valor_avaliacao : option Q) : string :=
  if Sql.le valor_avaliacao 200000 then "Baixo (até R$ 200k)"
  else if Sql.le valor_avaliacao 500000 then "Médio (R$ 200k-500k)"
  else if Sql.le valor_avaliacao 1000000 then "Alto (R$ 500k-1M)"
  else "Premium (acima R$ 1M)".

Definition update_faixa_valor (year : string) (t : t_row) : t_row :=
  if Sql.text_is (t_source_year t) year
  then set_faixa_valor (Some (faixa_valor_case (t_valor_avaliacao t))) t
  else t.

Definition categoria_area_case (area_construida : option Q) : string :=
  if Sql.le area_construida 50 then "Pequeno (até 50m²)"
  else if Sql.le area_construida 100 then "Médio (50-100m²)"
  else if Sql.le area_construida 200 then "Grande (100-200m²)"
  else "Extra Grande (acima 200m²)".

Definition update_categoria_area (year : string) (t : t_row) : t_row :=
  if Sql.text_is (t_source_year t) year
     && match t_area_construida t with Some _ => true | None => false end
  then set_categoria_area (Some (categoria_area_case (t_area_construida t))) t
  else t.

Definition periodo_construcao_case (ano_construcao : option Z) : string :=
  if Sql.lt_int ano_construcao 1980 then "Antes de 1980"
  else if Sql.between ano_construcao 1980 1999 then "1980-1999"
  else if Sql.between ano_construcao 2000 2009 then "2000-2009"
  else if Sql.between ano_construcao 2010 2019 then "2010-2019"
  else "2020 ou posterior".

Definition update_periodo_construcao (year : string) (t : t_row) : t_row :=
  if Sql.text_is (t_source_year t) year
     && match t_ano_construcao t with Some _ => true | None => false end
  then set_periodo_construcao
         (Some (periodo_construcao_case (t_ano_construcao t))) t
  else t.

Definition derive_row (year : string) (t : t_row) : t_row :=
  update_periodo_construcao year
    (update_categoria_area year
      (update_faixa_valor year
        (update_financiamento year
          (update_idade year
            (update_valor_m2 year t))))).

(** [create_derived_metrics_in_db(db_path, year)]. *)
Definition create_derived_metrics_in_db (year : string) (d : db) : db * nat :=
  let table := map (derive_row year) (itbi_transformed d) in
  let records_updated :=
    List.length (filter (fun t => Sql.text_is (t_source_year t) year) table) in
  (mkDb (itbi_raw d) (raw_seq d) (load_metadata d)
        table (transformed_seq d)
        (transformation_log d ++
           [mkTransformLog "derived_metrics" year records_updated
                           records_updated "success" None])%list,
   records_updated).

End Elt.

(* ------------------------------------------------------------------ *)
(** ** Validation and the loop over the years
    (src/etl/extract.py, src/elt/extract.py, src/etl/transform.py) *)

Module Pipeline.

Definition required_columns : list string :=
  ["valor_avaliacao"; "bairro"; "tipo_imovel"; "data_transacao"].

(** [validate_extracted_data]: False at the first dataset that lacks a
    required column or is empty. *)
Fixpoint validate_extracted_data (ds : datasets) : bool :=
  match ds with
  | [] => true
  | (_, df) :: rest =>
      match filter (fun col => negb (Frame.has_column df col))
                   required_columns with
      | _ :: _ => false
      | [] =>
          if Frame.empty df then false else validate_extracted_data rest
      end
  end.

(** [validate_raw_data]: False at the first dataset that is empty or has
    fewer than ten columns. *)
Fixpoint validate_raw_data (ds : datasets) : bool :=
  match ds with
  | [] => true
  | (_, df) :: rest =>
      if Frame.empty df then false
      else if (List.length (columns df) <? 10)%nat then false
      else validate_raw_data rest
  end.

(** The loop of [transform_all_datasets]: there is no [try] around the
    call, so the first dataset that raises ends the loop. *)
Fixpoint transform_from (transformed_datasets : datasets) (ds : datasets)
  : result datasets :=
  match ds with
  | [] => Ok transformed_datasets
  | (year, df) :: rest =>
      transformed_df <- Etl.transform_dataset df ;;
      transform_from (Dict.set transformed_datasets year transformed_df) rest
  end.

Definition transform_all_datasets (ds : datasets) : result datasets :=
  transform_from [] ds.

End Pipeline.

(* ------------------------------------------------------------------ *)
(** ** Loading every year (src/elt/load_raw.py) *)

Module Loader.

(** [load_results[year] = n] on a dict of counts. *)
Fixpoint set_result (load_results : list (string * nat)) (year : string)
         (n : nat) : list (string * nat) :=
  match load_results with
  | [] => [(year, n)]
  | (k, v) :: rest =>
      if String.eqb k year then (k, n) :: rest
      else (k, v) :: set_result rest year n
  end.

Section LoadAll.

Variable max_variable_number : nat.

(** CURRENT_TIMESTAMP at the time the given year is loaded. *)
Variable timestamp : string -> string.

(** Body of the loop: a year whose load raises is entered with zero
    records and the loop goes on. *)
Definition load_step (st : db * list (string * nat)) (p : string * frame)
  : db * list (string * nat) :=
  match Elt.load_raw_dataset max_variable_number (snd p) (fst p)
                             (timestamp (fst p)) (fst st) with
  | (d, Ok records_loaded) => (d, set_result (snd st) (fst p) records_loaded)
  | (d, Raise _) => (d, set_result (snd st) (fst p) 0%nat)
  end.

(** [load_all_raw_datasets(datasets, db_path)]; the schema statements are
    all CREATE ... IF NOT EXISTS and leave existing tables as they are. *)
Definition load_all_raw_datasets (ds : datasets) (d : db)
  : db * list (string * nat) :=
  fold_left load_step ds (d, []).

End LoadAll.

End Loader.

(* ================================================================== *)
(** * Vocabulary of the properties *)

(** A Brazilian-formatted number: leading digits [a], thousands groups
    [gs], each introduced by a period, then a comma and the decimals
    [cc]. *)
Fixpoint groups (gs : list string) : string :=
  match gs with
  | [] => EmptyString
  | g :: gs' => "." ++ g ++ groups gs'
  end.

Fixpoint join (gs : list string) : string :=
  match gs with
  | [] => EmptyString
  | g :: gs' => g ++ join gs'
  end.

Definition brazilian (a : string) (gs : list string) (cc : string) : string :=
  a ++ groups gs ++ "," ++ cc.

Definition digits (s : string) : Prop := Str.all_chars Str.is_digit s = true.

(** The first character of [s], if any, is not a digit. *)
Definition stops (s : string) : Prop :=
  match s with
  | EmptyString => True
  | String c _ => Str.is_digit c = false
  end.

(** The first character of [s], if any, is neither a digit nor an
    underscore. *)
Definition halts (s : string) : Prop :=
  match s with
  | EmptyString => True
  | String c _ => Str.is_digit c = false /\ Ascii.eqb c "_" = false
  end.

(** Digits, periods and commas: the characters of a formatted number. *)
Definition plain (c : ascii) : bool :=
  Str.is_digit c || Ascii.eqb c "." || Ascii.eqb c ",".

(** The labels of the four value bands and of the unknown bucket. *)
Definition LOW : string := "Baixo (até R$ 200k)".
Definition MEDIUM : string := "Médio (R$ 200k-500k)".
Definition HIGH : string := "Alto (R$ 500k-1M)".
Definition PREMIUM : string := "Premium (acima R$ 1M)".
Definition NOT_INFORMED : string := "Não informado".

(** The example row of the specification, as a raw frame (the financed
    amount is the column [sfh] of the source files). *)
Definition example_columns : list string :=
  ["valor_avaliacao"; "area_construida"; "ano_construcao"; "data_transacao"; "sfh"].

Definition example_row : frame :=
  mkFrame example_columns
    [[CStr "150.000,00"; CStr "50,0"; CInt 2010; CStr "2023-06-15"; CStr "0,00"]].

(** The same row with the value written without thousands separator. *)
Definition example_row_ungrouped : frame :=
  mkFrame example_columns
    [[CStr "150000,00"; CStr "50,0"; CInt 2010; CStr "2023-06-15"; CStr "0,00"]].

(** The same row as the raw loader receives it, under the column names of
    [itbi_raw] and with the metadata of the ELT extractor. *)
Definition example_row_elt : frame :=
  mkFrame ["valor_avaliacao"; "area_construida"; "ano_construcao";
           "data_transacao"; "valores_financiados_sfh";
           "source_year"; "extraction_timestamp"; "pipeline_type"]
    [[CStr "150.000,00"; CStr "50,0"; CInt 2010; CStr "2023-06-15"; CStr "0,00";
      CStr "2023"; CTime (mkDate 2025 1 10); CStr "ELT"]].

(** The single-row output the specification gives for the example, with
    the value bucket [bucket]. *)
Definition example_output (bucket : string) (out : frame) : Prop :=
  Frame.column out "valor_avaliacao" = Ok [CFloat (Fin (150000 # 1))]
  /\ Frame.column out "area_construida" = Ok [CFloat (Fin (50 # 1))]
  /\ Frame.column out "valor_por_m2" = Ok [CFloat (Fin (3000 # 1))]
  /\ Frame.column out "idade_imovel" = Ok [CInt 13]
  /\ Frame.column out "faixa_valor" = Ok [CStr bucket]
  /\ Frame.column out "tem_financiamento" = Ok [CBool false]
  /\ Frame.column out "mes_transacao" = Ok [CInt 6]
  /\ Frame.column out "trimestre" = Ok [CInt 2].

(** The same output as a row of [itbi_transformed]. *)
Definition example_output_db (bucket : string) (t : t_row) : Prop :=
  t_valor_avaliacao t = Some (150000 # 1)
  /\ t_area_construida t = Some (50 # 1)
  /\ t_valor_por_m2 t = Some (3000 # 1)
  /\ t_idade_imovel t = Some 13
  /\ t_faixa_valor t = Some bucket
  /\ t_tem_financiamento t = Some 0
  /\ t_mes_transacao t = Some 6
  /\ t_trimestre t = Some 2.

Definition empty_db : db := mkDb [] 0 [] [] 0 [].

(** Load, type and derive one year in the database. *)
Definition run_elt (limit : nat) (df : frame) (year : string) (d : db) : db :=
  let d1 := fst (Elt.load_raw_dataset limit df year "now" d) in
  let d2 := fst (Elt.transform_data_types_in_db year "now" d1) in
  fst (Elt.create_derived_metrics_in_db year d2).

(** A typed record with assessed value [valor] and built area [area]. *)
Definition typed_record (valor area : cell) : frame :=
  mkFrame ["valor_avaliacao"; "area_construida"] [[valor; area]].

(** A raw record of year 2023 with the texts [valor] and [area]. *)
Definition raw_record (valor area : string) : frame :=
  mkFrame ["valor_avaliacao"; "area_construida"; "source_year"]
          [[CStr valor; CStr area; CStr "2023"]].

(** Every row of [itbi_transformed] for [year] has a strictly positive
    assessed value. *)
Definition all_positive (year : string) (d : db) : Prop :=
  forall t, In t (itbi_transformed d) ->
            t_source_year t = Some year ->
            exists v, t_valor_avaliacao t = Some v /\ (0 < v)%Q.

(** The database after the raw load of one record of 2023. *)
Definition loaded (valor area : string) : db :=
  fst (Elt.load_raw_dataset 999 (raw_record valor area) "2023" "now" empty_db).

(** The rows of [itbi_raw] that belong to [year], and the others. *)
Definition of_year (year : string) (r : raw_row) : bool :=
  Sql.text_is (r_source_year r) year.

Definition rows_of_year (year : string) (d : db) : list raw_row :=
  filter (of_year year) (itbi_raw d).

Definition other_years (year : string) (d : db) : list raw_row :=
  filter (fun r => negb (of_year year r)) (itbi_raw d).

(** What a raw row stores in the sixteen loaded columns (its [id] and
    [load_timestamp] left aside). *)
Definition data_of (r : raw_row) : list (option string) :=
  [r_valor_avaliacao r; r_bairro r; r_tipo_imovel r; r_data_transacao r;
   r_logradouro r; r_numero r; r_complemento r; r_cep r; r_area_terreno r;
   r_area_construida r; r_ano_construcao r; r_fracao_ideal r;
   r_valores_financiados_sfh r;
   r_source_year r; r_extraction_timestamp r; r_pipeline_type r].

Definition stored (year : string) (d : db) : list (list (option string)) :=
  map data_of (rows_of_year year d).

(** The rows of a dataset, as texts of the same sixteen columns. *)
Definition dataset_texts (df : frame) : list (list (option string)) :=
  map (fun r => map (Elt.field (columns df) r) Elt.raw_columns)
      (rows (Elt.stringify df)).

(** Every row of the frame carries [year] in its [source_year] column, as
    the extractor sets it. *)
Definition tagged (year : string) (df : frame) : Prop :=
  Forall (fun r => Frame.cell_at "source_year" (columns df) r = Some (CStr year))
         (rows df).

(** The rows a successful INSERT appends: numbered from [seq + 1]. *)
Fixpoint numbered (cols : list string) (timestamp : string) (seq : Z)
         (new : list (list cell)) : list raw_row :=
  match new with
  | [] => []
  | r :: rest =>
      Elt.raw_of_row cols (seq + 1) timestamp r
        :: numbered cols timestamp (seq + 1) rest
  end.

(** A dataset of 2023 in which the same transaction appears twice. *)
Definition twice : frame :=
  mkFrame ["valor_avaliacao"; "bairro"; "data_transacao"; "source_year"]
          [[CStr "150000,00"; CStr "Boa Viagem"; CStr "2023-06-15"; CStr "2023"];
           [CStr "150000,00"; CStr "Boa Viagem"; CStr "2023-06-15"; CStr "2023"]].

(** A dataset of 2023 with two different transactions. *)
Definition two_rows : frame :=
  mkFrame ["valor_avaliacao"; "bairro"; "data_transacao"; "source_year"]
          [[CStr "150000,00"; CStr "Boa Viagem"; CStr "2023-06-15"; CStr "2023"];
           [CFloat NaN; CStr "Várzea"; CStr "2023-06-16"; CStr "2023"]].

(** The database after loading [df] twice for 2023. *)
Definition loaded_twice (df : frame) : db :=
  fst (Elt.load_raw_dataset 999 df "2023" "later"
         (fst (Elt.load_raw_dataset 999 df "2023" "now" empty_db))).

(** A frame as [pd.read_csv] and the transforms produce it: distinct column
    names, and one cell per column in every row. *)
Definition well_formed (f : frame) : Prop :=
  NoDup (columns f)
  /\ Forall (fun r => List.length r = List.length (columns f)) (rows f).

(** The same value, possibly turned from an integer into a float. *)
Definition same_value (x y : cell) : Prop :=
  y = x \/ exists z, x = CInt z /\ y = CFloat (Fin (Qred (z # 1))).

(** Every input row, with the frame it comes from, in the order of the
    frames. *)
Definition sources (fs : list frame) : list (frame * list cell) :=
  flat_map (fun f => map (pair f) (rows f)) fs.

(** Row [r'] of the consolidated frame [out] is the row [snd src] of the
    frame [fst src]: the same values under the columns of that frame, a
    null under every other column. *)
Definition image (out : frame) (src : frame * list cell) (r' : list cell)
  : Prop :=
  List.length r' = List.length (columns out)
  /\ forall c, In c (columns out) ->
       (In c (columns (fst src)) ->
        exists x y,
          Frame.cell_at c (columns (fst src)) (snd src) = Some x
          /\ Frame.cell_at c (columns out) r' = Some y
          /\ same_value x y)
       /\ (~ In c (columns (fst src)) ->
           exists y,
             Frame.cell_at c (columns out) r' = Some y
             /\ Cell.isna y = true).

(** Two yearly frames with different columns. *)
Definition frame_2023 : frame :=
  mkFrame ["valor_avaliacao"; "ano_construcao"]
          [[CStr "150000,00"; CInt 2010]; [CStr "90000,00"; CInt 1995]].

Definition frame_2024 : frame :=
  mkFrame ["valor_avaliacao"; "bairro"] [[CStr "200000,00"; CStr "Boa Viagem"]].

(** What the specification says of one extraction run, given the outcome
    [try year url] of each year taken alone: a year that succeeds is in the
    returned dictionary with its frame; a year that fails is absent and its
    failure was printed; nothing else is in the dictionary. *)
Definition skips_failures (try : string -> string -> result frame)
           (st : extract_state) : Prop :=
  (forall year url,
      In (year, url) datasets_urls ->
      match try year url with
      | Ok df => Dict.get (datasets_dict st) year = Some df
      | Raise e =>
          Dict.get (datasets_dict st) year = None
          /\ In (ExtractError year e) (printed st)
      end)
  /\ (forall year,
         Dict.get (datasets_dict st) year <> None ->
         In year (map fst datasets_urls)).

(** Row [r'] is row [r] with the nulls under the columns named
    ["complemento"] replaced by the placeholder, position by position:
    every other cell is the same. *)
Definition filled (cols : list string) (r r' : list cell) : Prop :=
  List.length r' = List.length r
  /\ forall i c x,
       nth_error cols i = Some c -> nth_error r i = Some x ->
       nth_error r' i
       = Some (if String.eqb c "complemento"
               then (if Cell.isna x then CStr "Sem complemento" else x)
               else x).

(** The data columns of [itbi_raw]: all but the three metadata columns. *)
Definition data_columns : list string :=
  ["valor_avaliacao"; "bairro"; "tipo_imovel"; "data_transacao";
   "logradouro"; "numero"; "complemento"; "cep"; "area_terreno";
   "area_construida"; "ano_construcao"; "fracao_ideal";
   "valores_financiados_sfh"].

(** What a raw row stores under the column [name]. *)
Definition raw_value (name : string) (r : raw_row) : option string :=
  match find (fun p => String.eqb (fst p) name)
             (combine Elt.raw_columns (data_of r)) with
  | Some (_, v) => v
  | None => None
  end.

(** A typed row of 2023 with assessed value 150000.00 and built area
    50.0. *)
Definition typed_row_2023 : t_row :=
  Elt.transform_row 1 "now"
    (Elt.raw_of_row ["valor_avaliacao"; "area_construida"; "source_year"] 1 "now"
       [CStr "150.000,00"; CStr "50,0"; CStr "2023"]).

(** A row of the year after the six UPDATE statements, column by column:
    the typed columns are the same, the derived columns are recomputed
    from them. *)
Definition derived (t : t_row) : t_row :=
  mkT
       (t_id t)
       (t_valor_avaliacao t)
       (if Sql.gt0 (t_area_construida t)
        then Sql.round_div (t_valor_avaliacao t) (t_area_construida t)
        else t_valor_por_m2 t)
       (t_bairro t)
       (t_tipo_imovel t)
       (t_data_transacao t)
       (t_ano_transacao t)
       (t_mes_transacao t)
       (t_trimestre t)
       (t_logradouro t)
       (t_numero t)
       (t_complemento t)
       (t_cep t)
       (t_area_terreno t)
       (t_area_construida t)
       (t_ano_construcao t)
       (match t_ano_construcao t with
        | Some _ => Sql.sub_int (t_ano_transacao t) (t_ano_construcao t)
        | None => t_idade_imovel t
        end)
       (t_fracao_ideal t)
       (t_valores_financiados_sfh t)
       (Some (if Sql.gt0 (t_valores_financiados_sfh t) then 1 else 0))
       (Some (Elt.faixa_valor_case (t_valor_avaliacao t)))
       (match t_area_construida t with
        | Some _ => Some (Elt.categoria_area_case (t_area_construida t))
        | None => t_categoria_area t
        end)
       (match t_ano_construcao t with
        | Some _ => Some (Elt.periodo_construcao_case (t_ano_construcao t))
        | None => t_periodo_construcao t
        end)
       (t_source_year t)
       (t_transformation_timestamp t)
       (t_pipeline_type t).

(** A row of [itbi_transformed] without its [id] and its
    [transformation_timestamp]. *)
Definition content (t : t_row) : t_row :=
  mkT
       0
       (t_valor_avaliacao t)
       (t_valor_por_m2 t)
       (t_bairro t)
       (t_tipo_imovel t)
       (t_data_transacao t)
       (t_ano_transacao t)
       (t_mes_transacao t)
       (t_trimestre t)
       (t_logradouro t)
       (t_numero t)
       (t_complemento t)
       (t_cep t)
       (t_area_terreno t)
       (t_area_construida t)
       (t_ano_construcao t)
       (t_idade_imovel t)
       (t_fracao_ideal t)
       (t_valores_financiados_sfh t)
       (t_tem_financiamento t)
       (t_faixa_valor t)
       (t_categoria_area t)
       (t_periodo_construcao t)
       (t_source_year t)
       None
       (t_pipeline_type t).

(** A raw row that carries only a transaction date. *)
Definition dated (data_transacao : string) : raw_row :=
  Elt.raw_of_row ["data_transacao"; "source_year"] 1 "now"
                 [CStr data_transacao; CStr "2023"].

(** A raw row of 2023 whose built area, construction year and financed
    amount are missing: the loader stored the text of NaN. *)
Definition missing_measures : raw_row :=
  Elt.raw_of_row
    ["valor_avaliacao"; "data_transacao"; "area_construida";
     "ano_construcao"; "valores_financiados_sfh"; "source_year"] 1 "now"
    [CStr "150000,00"; CStr "2023-06-15"; CStr "nan"; CStr "nan"; CStr "nan";
     CStr "2023"].

(** The text as it reads after its UTF-8 bytes were decoded as Latin-1:
    every byte has become one character of its own (the defect
    [fix_encoding] repairs). *)
Fixpoint mojibake (t : string) : string :=
  match t with
  | EmptyString => EmptyString
  | String b t' =>
      let n := Str.code b in
      if (n <? 128)%N then String b (mojibake t')
      else String (ascii_of_N (192 + n / 64))
             (String (ascii_of_N (128 + n mod 64)) (mojibake t'))
  end.

Definition is_ascii (c : ascii) : bool := (Str.code c <? 128)%N.

(** The keys of the UNIQUE constraint that a table holds (a row with a NULL
    in one of the four columns has none), and the constraint itself. *)
Definition keys_of (table : list raw_row)
  : list (string * string * string * string) :=
  flat_map (fun r => match Elt.unique_key r with
                     | Some k => [k]
                     | None => []
                     end) table.

Definition unique_record (table : list raw_row) : Prop := NoDup (keys_of table).

(** Every row has one cell per column. *)
Definition aligned (df : frame) : Prop :=
  Forall (fun r => List.length r = List.length (columns df)) (rows df).

(** Every row holds the value [v] under the column [name]. *)
Definition has_value (name : string) (v : cell) (df : frame) : Prop :=
  Forall (fun r => Frame.cell_at name (columns df) r = Some v) (rows df).

(** The frame has the column [cidade] but not the column [uf]. *)
Definition cidade_without_uf (df : frame) : Prop :=
  Frame.has_column df "cidade" = true /\ Frame.has_column df "uf" = false.

(** A source that answers every request with the same two transactions. *)
Definition steady_source (url : string) : result frame := Ok two_rows.

(** The names SQLite accepts as a column of [itbi_raw] in an INSERT: the
    columns its schema declares and the three aliases of the row id. *)
Definition itbi_raw_schema : list string :=
  ("id" :: Elt.raw_columns ++ ["load_timestamp"; "rowid"; "oid"; "_rowid_"])%list.

(** A column name that pandas writes into a statement: not empty and
    without NUL character. *)
Definition writable_name (c : string) : Prop :=
  c <> "" /\ Str.all_chars (fun a => negb (Ascii.eqb a Ascii.zero)) c = true.

(** [c] is the first column of the frame that the table lacks: the columns
    before it are data or metadata columns of the table, [c] is no column
    of the table under any spelling of its letters (SQLite compares column
    names without regard to case), and the frame's names from [c] on can be
    written into a statement. *)
Definition first_unknown_column (df : frame) (c : string) : Prop :=
  exists known rest,
    columns df = (known ++ c :: rest)%list
    /\ Forall (fun k => In k Elt.raw_columns) known
    /\ ~ In (Str.lower c) itbi_raw_schema
    /\ Forall writable_name (c :: rest).

(** The quotient [q] lies exactly half-way between two hundredths: the
    only quotients on which the result of rounding to two decimals depends
    on how a tie is broken, and on the binary representation of [q]. *)
Definition decimal_tie (q : Q) : Prop :=
  exists k : Z, (q * 100 == inject_Z k + (1 # 2))%Q.

(** A calendar date that a pandas Timestamp can hold whatever the month
    and day (Timestamps span 1677-09-21 .. 2262-04-11). *)
Definition calendar_date (d : date) : Prop :=
  1678 <= d_year d <= 2261
  /\ 1 <= d_month d <= 12
  /\ 1 <= d_day d <= Cal.days_in_month (d_year d) (d_month d).

(** The text [YYYY-MM-DD] of the date reads back as the date. *)
Definition iso_round_trip (y m d : Z) : bool :=
  match Cal.split_ymd (Cal.iso (mkDate y m d)) with
  | Some (y', m', d') => (y' =? y) && (m' =? m) && (d' =? d)
  | None => false
  end.

(** The [n] integers from [lo] on. *)
Definition zrange (lo : Z) (n : nat) : list Z :=
  map (fun k => lo + Z.of_nat k) (seq 0 n).

(** A stored date that holds no date at all: NULL, or a text without any
    digit that is not the word [now] (the text ["nan"] a missing date is
    loaded as, an empty text, ["NaT"], ["None"]). *)
Definition without_date (x : option string) : Prop :=
  match x with
  | None => True
  | Some s =>
      Str.all_chars (fun c => negb (Str.is_digit c)) s = true
      /\ Str.lower s <> "now"
  end.

(** The frame read for a year with the three metadata columns the ETL
    extractor adds, and with those the ELT extractor adds. *)
Definition etl_frame (now : cell) (year url : string) (df : frame) : frame :=
  Frame.assign_scalar
    (Frame.assign_scalar
       (Frame.assign_scalar df "source_year" (CStr year))
       "extraction_date" now)
    "source_url" (CStr url).

Definition elt_frame (now : cell) (year : string) (df : frame) : frame :=
  Frame.assign_scalar
    (Frame.assign_scalar
       (Frame.assign_scalar df "source_year" (CStr year))
       "extraction_timestamp" now)
    "pipeline_type" (CStr "ELT").

(** The frame read for a year passes the checks of the ETL extractor (not
    empty, twenty columns or more), and the check of the ELT extractor. *)
Definition passes_etl (now : cell) (year url : string) (df : frame) : bool :=
  negb (Frame.empty (etl_frame now year url df))
  && (20 <=? List.length (columns (etl_frame now year url df)))%nat.

Definition passes_elt (now : cell) (year : string) (df : frame) : bool :=
  negb (Frame.empty (elt_frame now year df)).

(** The band of the four thresholds in which the value [v] lies, by its
    label. *)
Definition in_band (v : Q) (label : string) : Prop :=
  ((v <= 200000 # 1)%Q /\ label = LOW)
  \/ ((200000 # 1 < v)%Q /\ (v <= 500000 # 1)%Q /\ label = MEDIUM)
  \/ ((500000 # 1 < v)%Q /\ (v <= 1000000 # 1)%Q /\ label = HIGH)
  \/ ((1000000 # 1 < v)%Q /\ label = PREMIUM).

(** A value of a typed record: a number, or null. *)
Definition typed_value (c : cell) : Prop :=
  Cell.isna c = true \/ exists v, c = CFloat (Fin v).

(** The bucket of a typed value: the band of a number, "Não informado"
    for a null. *)
Definition value_bucket (c label : cell) : Prop :=
  (Cell.isna c = true /\ label = CStr NOT_INFORMED)
  \/ (exists v l, c = CFloat (Fin v) /\ label = CStr l /\ in_band v l).

(** The in-database pipeline of one year: typed rows, then the derived
    columns. *)
Definition transformed_year (year timestamp : string) (d : db) : list t_row :=
  itbi_transformed
    (fst (Elt.create_derived_metrics_in_db year
            (fst (Elt.transform_data_types_in_db year timestamp d)))).

(** Three typed records: a value in the lowest band, a null, and a value
    above the highest threshold. *)
Definition three_values : frame :=
  mkFrame ["valor_avaliacao"; "bairro"]
    [[CFloat (Fin (150000 # 1)); CStr "Boa Viagem"];
     [CFloat NaN; CStr "Pina"];
     [CFloat (Fin (2000000 # 1)); CStr "Torre"]].

(* ================================================================== *)
(** * Properties *)

(** ** The number readers on sample texts *)

Example cast_real_samples :
  Sqlite.cast_real "" = 0 # 1
  /\ Sqlite.cast_real "nan" = 0 # 1
  /\ Sqlite.cast_real "12abc" = 12 # 1
  /\ Sqlite.cast_real " 12.5" = 25 # 2
  /\ Sqlite.cast_real "1e3" = 1000 # 1
  /\ Sqlite.cast_real "1e" = 1 # 1
  /\ Sqlite.cast_real "-.5" = -1 # 2
  /\ Sqlite.cast_real "+.5e1" = 5 # 1
  /\ Sqlite.cast_real "." = 0 # 1
  /\ Sqlite.cast_real "e5" = 0 # 1.
Proof. repeat split; reflexivity. Qed.

Example cast_integer_samples :
  Sqlite.cast_integer "2010" = 2010
  /\ Sqlite.cast_integer "2010.0" = 2010
  /\ Sqlite.cast_integer "nan" = 0
  /\ Sqlite.cast_integer " 2010" = 2010
  /\ Sqlite.cast_integer "1e3" = 1
  /\ Sqlite.cast_integer "-5" = -5.
Proof. repeat split; reflexivity. Qed.

Example py_float_samples :
  PyFloat.py_float "200000.50" = Some (Fin (400001 # 2))
  /\ PyFloat.py_float " 1_000.5e-1 " = Some (Fin (2001 # 20))
  /\ PyFloat.py_float "1__0" = None
  /\ PyFloat.py_float "-Inf" = Some NegInf
  /\ PyFloat.py_float "nan" = Some NaN
  /\ PyFloat.py_float "" = None
  /\ PyFloat.py_float "." = None
  /\ PyFloat.py_float "5." = Some (Fin (5 # 1))
  /\ PyFloat.py_float ".5" = Some (Fin (1 # 2))
  /\ PyFloat.py_float "1e" = None.
Proof. repeat split; reflexivity. Qed.

Example fix_encoding_sample :
  Etl.fix_encoding (CStr "VÃ¡rzea") = CStr "Várzea"
  /\ Etl.fix_encoding (CStr "Várzea") = CStr "Várzea"
  /\ Etl.fix_encoding (CStr "Boa Viagem") = CStr "Boa Viagem".
Proof. repeat split; reflexivity. Qed.

(** ** Numeric coercion *)

Section Coercion.

Import Str.

Lemma append_assoc (s1 s2 s3 : string) : (s1 ++ s2) ++ s3 = s1 ++ (s2 ++ s3).
Proof. induction s1 as [|c s1 IH]; simpl; [reflexivity | now rewrite IH]. Qed.

Lemma append_empty_r (s : string) : s ++ "" = s.
Proof. induction s as [|c s IH]; simpl; [reflexivity | now rewrite IH]. Qed.

Lemma digits_cons (c : ascii) (s : string) :
  digits (String c s) <-> is_digit c = true /\ digits s.
Proof. unfold digits; simpl. now rewrite andb_true_iff. Qed.

Lemma digits_app (s1 s2 : string) :
  digits s1 -> digits s2 -> digits (s1 ++ s2).
Proof.
  induction s1 as [|c s1 IH]; simpl; intros H1 H2; [assumption|].
  apply digits_cons in H1 as [Hc H1]. apply digits_cons. auto.
Qed.

Lemma digits_join (gs : list string) : Forall digits gs -> digits (join gs).
Proof.
  induction 1 as [|g gs Hg _ IH]; simpl; [reflexivity | now apply digits_app].
Qed.

Lemma replace_app (s1 s2 : string) (c : ascii) (r : string) :
  replace (s1 ++ s2) c r = replace s1 c r ++ replace s2 c r.
Proof.
  induction s1 as [|a s1 IH]; simpl; [reflexivity|].
  destruct (Ascii.eqb a c); rewrite IH; [now rewrite append_assoc | reflexivity].
Qed.

Lemma replace_digits (s : string) (c : ascii) (r : string) :
  is_digit c = false -> digits s -> replace s c r = s.
Proof.
  intros Hc. induction s as [|a s IH]; simpl; intros Hs; [reflexivity|].
  apply digits_cons in Hs as [Ha Hs].
  destruct (Ascii.eqb_spec a c) as [->|_]; [congruence | now rewrite IH].
Qed.

Lemma span_digits_app (ds rest : string) :
  digits ds -> stops rest -> span_digits (ds ++ rest) = (ds, rest).
Proof.
  induction ds as [|a ds IH]; simpl; intros Hd Hr.
  - destruct rest as [|c rest]; simpl in *; [reflexivity | now rewrite Hr].
  - apply digits_cons in Hd as [Ha Hd]. rewrite Ha, IH; auto.
Qed.

Lemma scan_digitpart_app (b : bool) (ds rest : string) :
  digits ds -> halts rest -> scan_digitpart b (ds ++ rest) = (ds, rest).
Proof.
  revert b. induction ds as [|a ds IH]; simpl; intros b Hd Hr.
  - destruct rest as [|c rest]; simpl in *; [reflexivity|].
    destruct Hr as [-> ->]. now rewrite andb_false_r.
  - apply digits_cons in Hd as [Ha Hd]. rewrite Ha, IH; auto.
Qed.

Lemma plain_not_space (c : ascii) :
  plain c = true -> py_space c = false /\ sql_space c = false.
Proof.
  unfold plain, py_space, sql_space, is_digit, code.
  destruct (Ascii.eqb_spec c ".") as [->|_]; [now split|].
  destruct (Ascii.eqb_spec c ",") as [->|_]; [now split|].
  rewrite !orb_false_r, andb_true_iff, !N.leb_le. intros [H1 H2].
  split; repeat (apply orb_false_iff; split);
    try (apply andb_false_iff; (left; apply N.leb_gt; lia) || (right; apply N.leb_gt; lia));
    apply N.eqb_neq; lia.
Qed.

Lemma lstrip_plain (p : ascii -> bool) (s : string) :
  (forall c, plain c = true -> p c = false) ->
  all_chars plain s = true -> lstrip p s = s.
Proof.
  intros Hp. destruct s as [|a s]; simpl; [reflexivity|].
  rewrite andb_true_iff. intros [Ha _]. now rewrite (Hp a Ha).
Qed.

Lemma rstrip_plain (p : ascii -> bool) (s : string) :
  (forall c, plain c = true -> p c = false) ->
  all_chars plain s = true -> rstrip p s = s.
Proof.
  intros Hp. induction s as [|a s IH]; simpl; [reflexivity|].
  rewrite andb_true_iff. intros [Ha Hs]. rewrite (IH Hs), (Hp a Ha).
  now destruct s.
Qed.

Lemma all_chars_app (p : ascii -> bool) (s1 s2 : string) :
  all_chars p (s1 ++ s2) = all_chars p s1 && all_chars p s2.
Proof.
  induction s1 as [|a s1 IH]; simpl; [reflexivity|].
  now rewrite IH, andb_assoc.
Qed.

Lemma digits_plain (s : string) : digits s -> all_chars plain s = true.
Proof.
  induction s as [|a s IH]; simpl; intros H; [reflexivity|].
  apply digits_cons in H as [Ha Hs]. unfold plain at 1. now rewrite Ha, IH.
Qed.


Lemma replace_groups (gs : list string) :
  Forall digits gs -> replace (groups gs) "." "" = join gs.
Proof.
  induction 1 as [|g gs Hg _ IH]; simpl; [reflexivity|].
  now rewrite replace_app, IH, replace_digits by (reflexivity || assumption).
Qed.

(** REPLACE(REPLACE(x, '.', ''), ',', '.') strips the thousands separators
    and turns the decimal comma into a period. *)
Lemma normalise_brazilian (a : string) (gs : list string) (cc : string) :
  digits a -> Forall digits gs -> digits cc ->
  Sqlite.normalise_br (brazilian a gs cc) = (a ++ join gs) ++ "." ++ cc.
Proof.
  intros Ha Hgs Hcc. unfold Sqlite.normalise_br, brazilian.
  assert (E : replace (a ++ groups gs ++ "," ++ cc) "." ""
              = (a ++ join gs) ++ "," ++ cc).
  { rewrite !replace_app, replace_groups by assumption.
    rewrite (replace_digits a) by (reflexivity || assumption).
    cbn [append replace Ascii.eqb Bool.eqb].
    rewrite (replace_digits cc) by (reflexivity || assumption).
    now rewrite append_assoc. }
  rewrite E, replace_app.
  rewrite (replace_digits (a ++ join gs))
    by (reflexivity || auto using digits_app, digits_join).
  cbn [append replace Ascii.eqb Bool.eqb].
  now rewrite (replace_digits cc) by (reflexivity || assumption).
Qed.

Lemma take_sign_number (ip rest : string) :
  digits ip -> ip <> "" ->
  PyFloat.take_sign (ip ++ rest) = (false, ip ++ rest).
Proof.
  intros Hip Hne. destruct ip as [|c ip]; [congruence|].
  apply digits_cons in Hip as [Hc _]. simpl append. unfold PyFloat.take_sign.
  destruct (Ascii.eqb_spec c "-") as [->|H1]; [discriminate|].
  destruct (Ascii.eqb_spec c "+") as [->|H2]; [discriminate|].
  destruct c as [[] [] [] [] [] [] [] []]; try reflexivity; congruence.
Qed.

Lemma lstrip_number (p : ascii -> bool) (ip rest : string) :
  (forall c, plain c = true -> p c = false) ->
  digits ip -> ip <> "" -> lstrip p (ip ++ rest) = ip ++ rest.
Proof.
  intros Hp Hip Hne. destruct ip as [|c ip]; [congruence|].
  apply digits_cons in Hip as [Hc _]. simpl.
  rewrite Hp; [reflexivity|]. unfold plain. now rewrite Hc.
Qed.

(** CAST(... AS REAL) on digits, a period and digits. *)
Lemma cast_real_decimal (ip fp : string) :
  digits ip -> ip <> "" -> digits fp ->
  Sqlite.cast_real (ip ++ "." ++ fp) = Num.decimal false ip fp 0.
Proof.
  intros Hip Hne Hfp. unfold Sqlite.cast_real.
  rewrite lstrip_number, take_sign_number;
    try assumption; try (intros x Hx; apply (plain_not_space x Hx)).
  rewrite span_digits_app by (assumption || reflexivity).
  cbn [append].
  rewrite <- (append_empty_r fp) at 1.
  rewrite span_digits_app by (assumption || exact I).
  destruct ip; [congruence|]. now destruct fp.
Qed.

(** The in-database coercion is exact on every Brazilian-formatted number:
    ["A.BBB,CC"] becomes the decimal with integer digits [ABBB] and
    fraction digits [CC]. *)
Lemma cast_br_real_brazilian (a : string) (gs : list string) (cc : string) :
  digits a -> a <> "" -> Forall digits gs -> digits cc ->
  Sqlite.cast_br_real (Some (brazilian a gs cc))
  = Some (Num.decimal false (a ++ join gs) cc 0).
Proof.
  intros Ha Hne Hgs Hcc. unfold Sqlite.cast_br_real.
  rewrite normalise_brazilian, cast_real_decimal; auto.
  - auto using digits_app, digits_join.
  - destruct a; [congruence | discriminate].
Qed.

Lemma digits_acc_app (acc : Z) (s1 s2 : string) :
  digits_acc acc (s1 ++ s2) = digits_acc (digits_acc acc s1) s2.
Proof. revert acc. induction s1 as [|c s1 IH]; simpl; intros; auto. Qed.

Lemma digits_acc_shift (acc : Z) (s : string) :
  digits_acc acc s = acc * 10 ^ Z.of_nat (String.length s) + digits_val s.
Proof.
  unfold digits_val. revert acc.
  induction s as [|c s IH]; intros acc.
  - simpl. lia.
  - cbn [digits_acc String.length]. rewrite IH, (IH (0 * 10 + digit_val c)).
    rewrite Nat2Z.inj_succ, Z.pow_succ_r by lia. ring.
Qed.

(** The decimal denoted by integer digits [ip] and fraction digits [fp] is
    [ip + fp / 10^|fp|]. *)
Lemma decimal_value (ip fp : string) :
  (Num.decimal false ip fp 0
   == inject_Z (digits_val ip)
      + inject_Z (digits_val fp) / inject_Z (10 ^ Z.of_nat (String.length fp)))%Q.
Proof.
  unfold Num.decimal, Num.signed, digits_val at 1.
  rewrite digits_acc_app. fold (digits_val ip). rewrite digits_acc_shift.
  set (n := Z.of_nat (String.length fp)).
  assert (Hpow : 0 < 10 ^ n) by (apply Z.pow_pos_nonneg; lia).
  unfold Num.scale10.
  destruct (Z.leb_spec 0 (0 - n)) as [Hn|Hn].
  - assert (n = 0) by lia. replace (0 - n) with 0 by lia.
    rewrite Qred_correct. unfold Qeq, Qdiv, Qmult, Qplus, Qinv, inject_Z.
    subst n. rewrite H in *. simpl. lia.
  - rewrite Qred_correct. replace (- (0 - n)) with n by lia.
    unfold Qeq, Qdiv, Qmult, Qplus, Qinv, inject_Z. simpl Qnum. simpl Qden.
    destruct (10 ^ n) as [|p|p] eqn:E; try lia.
    simpl. lia.
Qed.

Lemma lower_char_digit (c : ascii) : is_digit c = true -> lower_char c = c.
Proof.
  unfold is_digit, lower_char. rewrite andb_true_iff, !N.leb_le. intros [_ H].
  destruct (N.leb_spec 65 (code c)); [lia | reflexivity].
Qed.

Lemma not_special (c : ascii) (s : string) :
  is_digit c = true ->
  (String.eqb (lower (String c s)) "inf"
   || String.eqb (lower (String c s)) "infinity") = false
  /\ String.eqb (lower (String c s)) "nan" = false.
Proof.
  intros Hc. simpl lower. rewrite (lower_char_digit c Hc).
  assert (Hi : Ascii.eqb c "i" = false)
    by (destruct (Ascii.eqb_spec c "i") as [->|]; [discriminate | reflexivity]).
  assert (Hn : Ascii.eqb c "n" = false)
    by (destruct (Ascii.eqb_spec c "n") as [->|]; [discriminate | reflexivity]).
  simpl. now rewrite Hi, Hn.
Qed.

Lemma plain_number (ip rest : string) :
  digits ip -> all_chars plain rest = true ->
  all_chars plain (ip ++ "." ++ rest) = true.
Proof.
  intros Hip Hr. rewrite all_chars_app, (digits_plain ip Hip). simpl.
  assumption.
Qed.

(** Reading of [float()] up to the number itself, for a text that starts
    with a digit and holds only digits, periods and commas. *)
Lemma py_float_plain (ip rest : string) :
  digits ip -> ip <> "" -> all_chars plain (ip ++ rest) = true ->
  PyFloat.py_float (ip ++ rest) = PyFloat.parse_number false (ip ++ rest).
Proof.
  intros Hip Hne Hp. unfold PyFloat.py_float, strip.
  rewrite lstrip_plain, rstrip_plain;
    try assumption; try (intros x Hx; apply (plain_not_space x Hx)).
  rewrite take_sign_number by assumption.
  destruct ip as [|c ip]; [congruence|].
  apply digits_cons in Hip as [Hc _]. cbn [append].
  destruct (not_special c (ip ++ rest) Hc) as [-> ->]. reflexivity.
Qed.

(** Without thousands separator the in-process coercion is exact. *)
Lemma py_float_decimal (ip fp : string) :
  digits ip -> ip <> "" -> digits fp ->
  PyFloat.py_float (ip ++ "." ++ fp) = Some (Fin (Num.decimal false ip fp 0)).
Proof.
  intros Hip Hne Hfp.
  rewrite py_float_plain; auto using plain_number, digits_plain.
  unfold PyFloat.parse_number.
  rewrite scan_digitpart_app by (assumption || (split; reflexivity)).
  cbn [append].
  rewrite <- (append_empty_r fp) at 1.
  rewrite scan_digitpart_app by (assumption || exact I).
  destruct ip; [congruence|]. now destruct fp.
Qed.

(** With a second period in the text, [float()] raises ValueError. *)
Lemma py_float_two_periods (ip g rest : string) :
  digits ip -> ip <> "" -> digits g -> all_chars plain rest = true ->
  PyFloat.py_float (ip ++ "." ++ g ++ "." ++ rest) = None.
Proof.
  intros Hip Hne Hg Hr.
  rewrite py_float_plain; auto using plain_number.
  unfold PyFloat.parse_number.
  rewrite scan_digitpart_app by (assumption || (split; reflexivity)).
  cbn [append].
  rewrite scan_digitpart_app by (assumption || (split; reflexivity)).
  destruct ip; [congruence|]. now destruct g.
Qed.

Lemma groups_then_period (gs : list string) (cc : string) :
  Forall digits gs -> digits cc ->
  exists g rest,
    replace (groups gs ++ "," ++ cc) "," "." = "." ++ g ++ rest
    /\ digits g /\ all_chars plain rest = true
    /\ (gs <> [] -> exists rest', rest = "." ++ rest'
                                  /\ all_chars plain rest' = true).
Proof.
  induction 1 as [|g gs Hg Hgs IH]; intros Hcc.
  - exists cc, "". cbn [groups append replace Ascii.eqb Bool.eqb].
    rewrite replace_digits, append_empty_r by (reflexivity || assumption).
    repeat split; auto. congruence.
  - destruct (IH Hcc) as (g' & rest & E & Hg' & Hrest & _).
    exists g, ("." ++ g' ++ rest).
    cbn [groups append replace Ascii.eqb Bool.eqb] in E |- *.
    rewrite append_assoc, replace_app.
    rewrite replace_digits by (reflexivity || assumption).
    rewrite E. repeat split; auto.
    + cbn [all_chars]. rewrite all_chars_app, (digits_plain g' Hg'). assumption.
    + intros _. exists (g' ++ rest). split; [reflexivity|].
      rewrite all_chars_app, (digits_plain g' Hg'). assumption.
Qed.

(** X2.  [convert_currency_format] followed by [astype(float)] fails on
    every number that carries a thousands separator. *)
Lemma in_process_rejects_grouped (a g : string) (gs : list string) (cc : string) :
  digits a -> a <> "" -> digits g -> Forall digits gs -> digits cc ->
  Etl.to_float (Etl.convert_currency_format (CStr (brazilian a (g :: gs) cc)))
  = Raise (ValueError "could not convert string to float").
Proof.
  intros Ha Hne Hg Hgs Hcc.
  unfold Etl.convert_currency_format, Etl.to_float. simpl Cell.isna. cbv iota.
  simpl Cell.py_str. unfold brazilian.
  destruct (groups_then_period (g :: gs) cc) as (g1 & rest & E & Hg1 & _ & Hr);
    auto.
  destruct Hr as (rest' & -> & Hrest'); [discriminate|].
  rewrite replace_app, replace_digits, E by auto.
  now rewrite py_float_two_periods.
Qed.

(** ... and is exact on a number written without one. *)
Lemma in_process_accepts_ungrouped (a cc : string) :
  digits a -> a <> "" -> digits cc ->
  Etl.to_float (Etl.convert_currency_format (CStr (brazilian a [] cc)))
  = Ok (CFloat (Fin (Num.decimal false a cc 0))).
Proof.
  intros Ha Hne Hcc.
  unfold Etl.convert_currency_format, Etl.to_float. simpl Cell.isna. cbv iota.
  simpl Cell.py_str. unfold brazilian. simpl groups. simpl append at 2.
  rewrite replace_app, replace_digits by auto.
  cbn [replace Ascii.eqb Bool.eqb]. rewrite replace_digits by auto.
  now rewrite py_float_decimal.
Qed.

End Coercion.

(** C1 (in-process variant fails; in-database variant holds).  On the
    input of the specification, ["200.000,50"]: [convert_currency_format]
    only replaces the comma, the thousands separator stays, [float()]
    raises ValueError on ["200.000.50"], the exception is swallowed by
    [fix_data_types] and the column is left as text.  The REPLACE/CAST
    expression of the in-database transform gives 200000.50 on the same
    input. *)
Theorem currency_coercion_200_000_50 :
  Etl.convert_currency_format (CStr "200.000,50") = CStr "200.000.50"
  /\ PyFloat.py_float "200.000.50" = None
  /\ Etl.fix_data_types (mkFrame ["valor_avaliacao"] [[CStr "200.000,50"]])
     = mkFrame ["valor_avaliacao"] [[CStr "200.000.50"]]
  /\ Sqlite.cast_br_real (Some "200.000,50") = Some (400001 # 2).
Proof. repeat split; vm_compute; reflexivity. Qed.

(** ** Value bands *)

Section Bands.

Lemma qle_spec (a b : Q) : reflect (a <= b)%Q (Qle_bool a b).
Proof. apply iff_reflect. symmetry. apply Qle_bool_iff. Qed.

Lemma le_int_spec (v : Q) (k : Z) : reflect (v <= k # 1)%Q (Float.le_int (Fin v) k).
Proof. apply qle_spec. Qed.

(** The band of a finite value, as both variants compute it. *)
Lemma classificar_valor_fin (v : Q) :
  Etl.classificar_valor (CFloat (Fin v))
  = Ok (CStr (Elt.faixa_valor_case (Some v))).
Proof.
  unfold Etl.classificar_valor, Elt.faixa_valor_case, Sql.le, Float.le_int.
  cbn [Cell.isna Cell.as_number bind].
  destruct (Qle_bool v (200000 # 1)); [reflexivity|].
  destruct (Qle_bool v (500000 # 1)); [reflexivity|].
  destruct (Qle_bool v (1000000 # 1)); reflexivity.
Qed.

Lemma faixa_valor_case_bands (v : Q) :
  (Elt.faixa_valor_case (Some v) = LOW <-> (v <= 200000 # 1)%Q)
  /\ (Elt.faixa_valor_case (Some v) = MEDIUM
      <-> (200000 # 1 < v)%Q /\ (v <= 500000 # 1)%Q)
  /\ (Elt.faixa_valor_case (Some v) = HIGH
      <-> (500000 # 1 < v)%Q /\ (v <= 1000000 # 1)%Q)
  /\ (Elt.faixa_valor_case (Some v) = PREMIUM <-> (1000000 # 1 < v)%Q).
Proof.
  unfold Elt.faixa_valor_case, Sql.le, LOW, MEDIUM, HIGH, PREMIUM.
  destruct (qle_spec v (200000 # 1)) as [H1|H1];
    [|destruct (qle_spec v (500000 # 1)) as [H2|H2];
      [|destruct (qle_spec v (1000000 # 1)) as [H3|H3]]];
    repeat split; intros; try discriminate; try (exfalso; lra); try lra;
    try reflexivity.
Qed.

Lemma faixa_valor_case_labels (x : option Q) :
  In (Elt.faixa_valor_case x) [LOW; MEDIUM; HIGH; PREMIUM].
Proof.
  unfold Elt.faixa_valor_case.
  destruct (Sql.le x 200000); [now left|].
  destruct (Sql.le x 500000); [now right; left|].
  destruct (Sql.le x 1000000); [now right; right; left | now right; right; right; left].
Qed.

(** The INSERT ... SELECT never stores a NULL assessed value: the filter
    drops NULL texts and the CAST of a text is a number. *)
Lemma transformed_value_not_null (year timestamp : string) (id : Z) (r : raw_row) :
  Elt.selected year r = true ->
  t_valor_avaliacao (Elt.transform_row id timestamp r) <> None.
Proof.
  unfold Elt.selected. cbn [Elt.transform_row t_valor_avaliacao].
  destruct (r_valor_avaliacao r); [discriminate|].
  now rewrite andb_false_r.
Qed.

End Bands.

(** ** The worked example of the specification *)

(** C3, as stated, fails: on the example row the in-process transform does
    not produce the record of the specification. *)
Lemma example_row_not_as_specified :
  ~ exists out,
      Etl.transform_dataset example_row = Ok out /\ example_output MEDIUM out.
Proof.
  intros (out & E & H & _).
  vm_compute in E. injection E as <-. vm_compute in H. discriminate H.
Qed.

(** C3, amended.  On the example row the in-process transform gives
    built area 50.0, age 13, no financing, month 6 and quarter 2.  The
    value 150000 lies in the band "Baixo" (150000 <= 200000), not in
    "Médio": the in-database transform of the row gives value 150000.0,
    value per area 3000.0 and that band, and so does the in-process
    transform when the value carries no thousands separator. *)
Theorem example_row_transformed :
  (exists out,
      Etl.transform_dataset example_row = Ok out
      /\ Frame.column out "area_construida" = Ok [CFloat (Fin (50 # 1))]
      /\ Frame.column out "idade_imovel" = Ok [CInt 13]
      /\ Frame.column out "tem_financiamento" = Ok [CBool false]
      /\ Frame.column out "mes_transacao" = Ok [CInt 6]
      /\ Frame.column out "trimestre" = Ok [CInt 2])
  /\ Etl.classificar_valor (CFloat (Fin (150000 # 1))) = Ok (CStr LOW)
  /\ (exists out,
        Etl.transform_dataset example_row_ungrouped = Ok out
        /\ example_output LOW out)
  /\ (exists t,
        itbi_transformed (run_elt 999 example_row_elt "2023" empty_db) = [t]
        /\ example_output_db LOW t).
Proof.
  split; [|split; [|split]].
  - eexists. split; [vm_compute; reflexivity|].
    repeat split; vm_compute; reflexivity.
  - vm_compute; reflexivity.
  - eexists. split; [vm_compute; reflexivity|].
    repeat split; vm_compute; reflexivity.
  - eexists. split; [vm_compute; reflexivity|].
    repeat split; vm_compute; reflexivity.
Qed.

(** ** Value per built area *)

Section ValuePerArea.

Lemma round_half_even_close (x : Q) :
  (x - (1 # 2) <= inject_Z (Num.round_half_even x) <= x + (1 # 2))%Q.
Proof.
  unfold Num.round_half_even.
  pose proof (Qfloor_le x) as Hlo. pose proof (Qlt_floor x) as Hhi.
  rewrite inject_Z_plus in Hhi. change (inject_Z 1) with 1%Q in Hhi.
  set (f := Qfloor x) in *.
  destruct (Qcompare_spec (x - inject_Z f) (1 # 2)) as [E|E|E].
  - destruct (Z.even f); [|rewrite inject_Z_plus; change (inject_Z 1) with 1%Q];
      split; lra.
  - split; lra.
  - rewrite inject_Z_plus. change (inject_Z 1) with 1%Q. split; lra.
Qed.

Lemma round_half_away_close (x : Q) :
  (x - (1 # 2) <= inject_Z (Num.round_half_away x) <= x + (1 # 2))%Q.
Proof.
  unfold Num.round_half_away. destruct (Qle_bool 0 x).
  - pose proof (Qfloor_le (x + (1 # 2))) as Hlo.
    pose proof (Qlt_floor (x + (1 # 2))) as Hhi.
    rewrite inject_Z_plus in Hhi. change (inject_Z 1) with 1%Q in Hhi.
    split; lra.
  - pose proof (Qfloor_le (- x + (1 # 2))) as Hlo.
    pose proof (Qlt_floor (- x + (1 # 2))) as Hhi.
    rewrite inject_Z_plus in Hhi. change (inject_Z 1) with 1%Q in Hhi.
    rewrite inject_Z_opp. split; lra.
Qed.

Lemma hundredths (n : Z) : (n # 100 == inject_Z n * (1 # 100))%Q.
Proof. unfold Qeq, Qmult, inject_Z. simpl. lia. Qed.

(** Rounding to two decimals moves a number by at most half a hundredth,
    whichever way ties are broken. *)
Lemma round2_even_close (q : Q) :
  (q - (1 # 200) <= Num.round2_even q <= q + (1 # 200))%Q.
Proof.
  unfold Num.round2_even. rewrite Qred_correct, hundredths.
  pose proof (round_half_even_close (q * 100)). split; lra.
Qed.

Lemma round2_away_close (q : Q) :
  (q - (1 # 200) <= Num.round2_away q <= q + (1 # 200))%Q.
Proof.
  unfold Num.round2_away. rewrite Qred_correct, hundredths.
  pose proof (round_half_away_close (q * 100)). split; lra.
Qed.

(** A quotient rounded to two decimals, multiplied back. *)
Lemma recovers_within_tolerance (v a p : Q) :
  (0 < a)%Q ->
  (v / a - (1 # 200) <= p <= v / a + (1 # 200))%Q ->
  (v - a * (1 # 200) <= p * a <= v + a * (1 # 200))%Q.
Proof.
  intros Ha [Hlo Hhi].
  assert (E : (v == v / a * a)%Q) by (field; lra).
  set (q := (v / a)%Q) in *.
  split; rewrite E at 1; nra.
Qed.

Lemma positive_not_zero (a : Q) : (0 < a)%Q -> Float.is_zero a = false.
Proof.
  intros Ha. unfold Float.is_zero.
  destruct (Qeq_bool a 0) eqn:E; [|reflexivity].
  apply Qeq_bool_iff in E. lra.
Qed.

Lemma gt0_spec (a : Q) : Sql.gt0 (Some a) = true <-> (0 < a)%Q.
Proof.
  unfold Sql.gt0. rewrite negb_true_iff.
  destruct (qle_spec a 0); split; intros; try discriminate; try reflexivity; lra.
Qed.

Lemma Qfloor_unique (x : Q) (n : Z) :
  (inject_Z n <= x)%Q -> (x < inject_Z n + 1)%Q -> Qfloor x = n.
Proof.
  intros Hlo Hhi.
  pose proof (Qfloor_le x) as Flo. pose proof (Qlt_floor x) as Fhi.
  rewrite inject_Z_plus in Fhi. change (inject_Z 1) with 1%Q in Fhi.
  assert (A : (inject_Z (Qfloor x) < inject_Z (n + 1))%Q)
    by (rewrite inject_Z_plus; change (inject_Z 1) with 1%Q; lra).
  assert (B : (inject_Z n < inject_Z (Qfloor x + 1))%Q)
    by (rewrite inject_Z_plus; change (inject_Z 1) with 1%Q; lra).
  rewrite <- Zlt_Qlt in A, B. lia.
Qed.

(** Off the ties the two ways of rounding give the same integer, strictly
    less than one half away. *)
Lemma round_off_tie (x : Q) :
  (forall k : Z, ~ (x == inject_Z k + (1 # 2))%Q) ->
  Num.round_half_even x = Num.round_half_away x
  /\ (x - (1 # 2) < inject_Z (Num.round_half_even x) < x + (1 # 2))%Q.
Proof.
  intros Htie.
  pose proof (Qfloor_le x) as Flo. pose proof (Qlt_floor x) as Fhi.
  rewrite inject_Z_plus in Fhi. change (inject_Z 1) with 1%Q in Fhi.
  specialize (Htie (Qfloor x)).
  unfold Num.round_half_even, Num.round_half_away.
  set (f := Qfloor x) in *.
  destruct (Qcompare_spec (x - inject_Z f) (1 # 2)) as [E|E|E].
  - elim Htie. lra.
  - split; [|split; lra].
    destruct (Qle_bool 0 x) eqn:P.
    + symmetry. apply Qfloor_unique; lra.
    + assert (F : Qfloor (- x + (1 # 2)) = - f).
      { apply Qfloor_unique; rewrite inject_Z_opp; lra. }
      rewrite F. lia.
  - rewrite inject_Z_plus. change (inject_Z 1) with 1%Q.
    split; [|split; lra].
    destruct (Qle_bool 0 x) eqn:P.
    + symmetry. apply Qfloor_unique;
        rewrite inject_Z_plus; change (inject_Z 1) with 1%Q; lra.
    + assert (F : Qfloor (- x + (1 # 2)) = - (f + 1)).
      { apply Qfloor_unique; rewrite inject_Z_opp, inject_Z_plus;
          change (inject_Z 1) with 1%Q; lra. }
      rewrite F. lia.
Qed.

Lemma round_half_away_comp (x y : Q) :
  (x == y)%Q -> Num.round_half_away x = Num.round_half_away y.
Proof.
  intros E. unfold Num.round_half_away.
  destruct (Qle_bool 0 x) eqn:A, (Qle_bool 0 y) eqn:B.
  - apply Qfloor_comp. now rewrite E.
  - apply Qle_bool_iff in A. rewrite E in A. apply Qle_bool_iff in A.
    congruence.
  - apply Qle_bool_iff in B. rewrite <- E in B. apply Qle_bool_iff in B.
    congruence.
  - f_equal. apply Qfloor_comp. now rewrite E.
Qed.

Lemma round2_off_tie (q : Q) :
  ~ decimal_tie q ->
  Num.round2_even q = Num.round2_away q
  /\ (q - (1 # 200) < Num.round2_even q < q + (1 # 200))%Q.
Proof.
  intros Htie.
  destruct (round_off_tie (q * 100)) as [E H].
  { intros k Hk. apply Htie. now exists k. }
  unfold Num.round2_even, Num.round2_away. rewrite E. split; [reflexivity|].
  rewrite <- E, Qred_correct, hundredths. split; lra.
Qed.

(** X4.  In-process, with a positive built area and a quotient that is not
    exactly half-way between two hundredths: the value per area is the
    quotient rounded to two decimals, the same number that the rounding of
    the database gives, and multiplying back recovers the value within
    less than half a hundredth per unit of area. *)
Lemma valor_por_m2_in_process (v a : Q) :
  (0 < a)%Q ->
  ~ decimal_tie (v / a) ->
  Etl.valor_por_m2_column (typed_record (CFloat (Fin v)) (CFloat (Fin a)))
  = Ok [CFloat (Fin (Num.round2_even (Qred (v / a))))]
  /\ (Num.round2_even (Qred (v / a)) == Num.round2_away (v / a))%Q
  /\ (v - a * (1 # 200) < Num.round2_even (Qred (v / a)) * a
      < v + a * (1 # 200))%Q.
Proof.
  intros Ha Htie.
  pose proof (Qred_correct (v / a)) as E.
  assert (Htie' : ~ decimal_tie (Qred (v / a))).
  { intros [k Hk]. apply Htie. exists k. now rewrite <- E. }
  destruct (round2_off_tie _ Htie') as [Ea Hc].
  destruct (round2_off_tie _ Htie) as [_ Hc'].
  split; [|split].
  - unfold Etl.valor_por_m2_column, typed_record, Frame.column.
    cbn -[Etl.div_round2]. unfold Etl.div_round2. cbn [fst snd].
    cbn [Cell.as_number bind Float.div Float.round2].
    now rewrite positive_not_zero.
  - rewrite Ea. unfold Num.round2_away. rewrite !Qred_correct.
    assert (E100 : (Qred (v / a) * 100 == v / a * 100)%Q) by now rewrite E.
    rewrite (round_half_away_comp _ _ E100). now rewrite Qred_correct.
  - assert (V : (v == v / a * a)%Q) by (field; lra).
    set (r := Num.round2_even (Qred (v / a))) in *.
    set (q0 := Qred (v / a)) in *. set (q := (v / a)%Q) in *.
    split; rewrite V at 1; nra.
Qed.

(** In-process, with a missing built area: the value per area is
    missing. *)
Lemma valor_por_m2_in_process_null (v area : cell) :
  Cell.isna area = true ->
  forall x, Cell.as_number v = Ok x ->
  Etl.valor_por_m2_column (typed_record v area) = Ok [CFloat NaN].
Proof.
  intros Hna x Hx.
  unfold Etl.valor_por_m2_column, typed_record, Frame.column.
  cbn -[Etl.div_round2]. unfold Etl.div_round2. cbn [fst snd].
  rewrite Hx. cbn [bind].
  destruct area as [| | |[] | | |]; try discriminate Hna;
    cbn; destruct x; reflexivity.
Qed.

(** X5.  In the database: the UPDATE sets the value per area of the rows
    with a positive built area and leaves every other row as it was; a row
    just inserted has no value per area. *)
Lemma valor_por_m2_in_db (year : string) (t : t_row) :
  Sql.text_is (t_source_year t) year = true ->
  (forall v a,
      t_valor_avaliacao t = Some v -> t_area_construida t = Some a ->
      (0 < a)%Q ->
      t_valor_por_m2 (Elt.derive_row year t) = Some (Num.round2_away (v / a))
      /\ (v - a * (1 # 200) <= Num.round2_away (v / a) * a
          <= v + a * (1 # 200))%Q)
  /\ (Sql.gt0 (t_area_construida t) = false ->
      t_valor_por_m2 (Elt.derive_row year t) = t_valor_por_m2 t).
Proof.
  intros Hy.
  assert (keep : forall u,
             t_valor_por_m2 (Elt.update_periodo_construcao year
               (Elt.update_categoria_area year
                 (Elt.update_faixa_valor year
                   (Elt.update_financiamento year
                     (Elt.update_idade year u))))) = t_valor_por_m2 u).
  { intros u.
    unfold Elt.update_periodo_construcao, Elt.update_categoria_area,
      Elt.update_faixa_valor, Elt.update_financiamento, Elt.update_idade.
    repeat match goal with
           | |- context [if ?b then _ else _] => destruct b
           end; reflexivity. }
  unfold Elt.derive_row. rewrite keep. unfold Elt.update_valor_m2. rewrite Hy.
  split.
  - intros v a Hv Ha Hpos. rewrite Ha, (proj2 (gt0_spec a) Hpos), Hv.
    split.
    + cbn. destruct (Qeq_bool a 0) eqn:E; [|reflexivity].
      apply Qeq_bool_iff in E. lra.
    + apply recovers_within_tolerance; [assumption|].
      apply round2_away_close.
  - intros ->. reflexivity.
Qed.

Lemma inserted_without_valor_por_m2 (id : Z) (timestamp : string) (r : raw_row) :
  t_valor_por_m2 (Elt.transform_row id timestamp r) = None.
Proof. reflexivity. Qed.

(** C4 (in-process variant fails; in-database variant holds).  In-process
    there is no guard on the built area: a record with value 100000.0 and
    built area 0.0 gets the value per area +inf, which is not null, and a
    record with built area -50.0 gets -2000.0.  In the database the same
    records keep a NULL value per area. *)
Theorem valor_por_m2_zero_area :
  Etl.valor_por_m2_column
    (typed_record (CFloat (Fin (100000 # 1))) (CFloat (Fin (0 # 1))))
  = Ok [CFloat PosInf]
  /\ Cell.isna (CFloat PosInf) = false
  /\ (exists out,
        Etl.transform_dataset (raw_record "100000,00" "0,0") = Ok out
        /\ Frame.column out "valor_por_m2" = Ok [CFloat PosInf])
  /\ (exists out,
        Etl.transform_dataset (raw_record "100000,00" "-50,0") = Ok out
        /\ Frame.column out "valor_por_m2" = Ok [CFloat (Fin (-2000 # 1))])
  /\ map t_valor_por_m2
       (itbi_transformed (run_elt 999 (raw_record "100000,00" "0,0") "2023" empty_db))
     = [None]
  /\ map t_valor_por_m2
       (itbi_transformed (run_elt 999 (raw_record "100000,00" "-50,0") "2023" empty_db))
     = [None].
Proof.
  repeat split; try (vm_compute; reflexivity);
    eexists; (split; [vm_compute; reflexivity|]); vm_compute; reflexivity.
Qed.

End ValuePerArea.

(** ** The in-database transform and the raw table *)

Section TransformDb.

Lemma text_is_true (v : option string) (k : string) :
  Sql.text_is v k = true <-> v = Some k.
Proof.
  unfold Sql.text_is. destruct v as [s|].
  - rewrite String.eqb_eq. split; [now intros -> | now inversion 1].
  - split; discriminate.
Qed.

Lemma number_from_length (timestamp : string) (seq : Z) (rs : list raw_row) :
  List.length (Elt.number_from timestamp seq rs) = List.length rs.
Proof.
  revert seq. induction rs as [|r rs IH]; intros seq; simpl; [reflexivity|].
  now rewrite IH.
Qed.

Lemma number_from_in (timestamp : string) (seq : Z) (rs : list raw_row) (t : t_row) :
  In t (Elt.number_from timestamp seq rs) ->
  exists id r, In r rs /\ t = Elt.transform_row id timestamp r.
Proof.
  revert seq. induction rs as [|r rs IH]; intros seq; simpl; [contradiction|].
  intros [<-|H].
  - exists (seq + 1), r. auto.
  - destruct (IH _ H) as (id & r' & Hin & ->). exists id, r'. auto.
Qed.

Lemma number_from_year (year timestamp : string) (seq : Z) (rs : list raw_row) :
  Forall (fun r => Elt.selected year r = true) rs ->
  filter (fun t => Sql.text_is (t_source_year t) year)
         (Elt.number_from timestamp seq rs)
  = Elt.number_from timestamp seq rs.
Proof.
  revert seq. induction rs as [|r rs IH]; intros seq H; simpl; [reflexivity|].
  inversion H as [|? ? Hr Hrs]; subst.
  unfold Elt.selected in Hr. apply andb_true_iff in Hr as [Hy _].
  rewrite Hy. now rewrite IH.
Qed.

Lemma filter_negb_none {A : Type} (p : A -> bool) (l : list A) :
  filter p (filter (fun x => negb (p x)) l) = [].
Proof.
  induction l as [|a l IH]; simpl; [reflexivity|].
  destruct (p a) eqn:E; simpl; [assumption | now rewrite E].
Qed.

Lemma selected_spec (year : string) (r : raw_row) :
  Elt.selected year r = true <->
  r_source_year r = Some year
  /\ exists v, r_valor_avaliacao r = Some v /\ v <> "" /\ v <> "nan".
Proof.
  unfold Elt.selected. rewrite andb_true_iff, text_is_true.
  destruct (r_valor_avaliacao r) as [v|].
  - rewrite andb_true_iff, !negb_true_iff, !String.eqb_neq. split.
    + intros [Hy [H1 H2]]. split; [assumption|]. now exists v.
    + intros [Hy (v' & E & H1 & H2)]. inversion E; subst. auto.
  - split; [intros [_ H]; discriminate | intros [_ (v & E & _)]; discriminate].
Qed.

(** C5, as stated, fails: a raw row with the value ["0,00"] passes the
    filter and is stored with the assessed value 0, which is not strictly
    positive. *)
Lemma zero_value_is_transformed :
  ~ all_positive "2023"
      (fst (Elt.transform_data_types_in_db "2023" "now" (loaded "0,00" "50,0"))).
Proof.
  intros H.
  destruct (H (Elt.transform_row 1 "now"
                 (Elt.raw_of_row (columns (raw_record "0,00" "50,0")) 1 "now"
                    [CStr "0,00"; CStr "50,0"; CStr "2023"])))
    as (v & E & Hv).
  - vm_compute. left. reflexivity.
  - reflexivity.
  - vm_compute in E. injection E as <-. vm_compute in Hv. discriminate.
Qed.

(** C5, amended.  The in-database transform of a year never changes
    [itbi_raw]; every row it stores for the year comes from a raw row of
    the year whose assessed value is neither NULL, nor empty, nor ["nan"],
    and holds the number CAST reads from that text (which may be zero or
    negative); the rows stored are as many as those raw rows; a raw row
    whose value is NULL, empty or ["nan"] is not selected. *)
Theorem transform_filters_missing_values (year timestamp : string) (d : db) :
  let d' := fst (Elt.transform_data_types_in_db year timestamp d) in
  itbi_raw d' = itbi_raw d
  /\ itbi_raw (fst (Elt.create_derived_metrics_in_db year d')) = itbi_raw d
  /\ (forall t,
        In t (itbi_transformed d') -> t_source_year t = Some year ->
        exists r v,
          In r (itbi_raw d) /\ r_source_year r = Some year
          /\ r_valor_avaliacao r = Some v /\ v <> "" /\ v <> "nan"
          /\ t_valor_avaliacao t
             = Some (Sqlite.cast_real (Sqlite.normalise_br v)))
  /\ List.length (filter (fun t => Sql.text_is (t_source_year t) year)
                         (itbi_transformed d'))
     = List.length (filter (Elt.selected year) (itbi_raw d))
  /\ (forall r, Elt.is_missing (r_valor_avaliacao r) = true ->
                Elt.selected year r = false).
Proof.
  cbn [Elt.transform_data_types_in_db Elt.create_derived_metrics_in_db
         fst itbi_raw itbi_transformed].
  repeat split.
  - intros t Hin Hy. apply in_app_or in Hin as [Hin|Hin].
    + apply filter_In in Hin as [_ Hn]. apply text_is_true in Hy.
      rewrite Hy in Hn. discriminate.
    + apply number_from_in in Hin as (id & r & Hr & ->).
      apply filter_In in Hr as [Hr Hsel].
      apply selected_spec in Hsel as [Hyr (v & Hv & H1 & H2)].
      exists r, v. repeat split; auto.
      cbn [Elt.transform_row t_valor_avaliacao]. now rewrite Hv.
  - rewrite filter_app, filter_negb_none, number_from_year.
    + apply number_from_length.
    + apply Forall_forall. intros r Hr. now apply filter_In in Hr.
  - intros r Hm. unfold Elt.selected, Elt.is_missing in *.
    destruct (r_valor_avaliacao r) as [v|]; [|apply andb_false_r].
    apply orb_true_iff in Hm as [->| ->]; cbn [negb andb];
      now rewrite ?andb_false_r.
Qed.

End TransformDb.

(** ** Raw loading *)

Section RawIdempotence.

Variable limit : nat.

Lemma unique_key_raw_of_row (cols : list string) (id id' : Z)
      (ts ts' : string) (r : list cell) :
  Elt.unique_key (Elt.raw_of_row cols id ts r)
  = Elt.unique_key (Elt.raw_of_row cols id' ts' r).
Proof. reflexivity. Qed.

Lemma conflicts_keys (table table' : list raw_row) (r r' : raw_row) :
  map Elt.unique_key table = map Elt.unique_key table' ->
  Elt.unique_key r = Elt.unique_key r' ->
  Elt.conflicts table r = Elt.conflicts table' r'.
Proof.
  intros Ht Hr. unfold Elt.conflicts. rewrite <- Hr.
  destruct (Elt.unique_key r) as [k|]; [|reflexivity].
  revert table' Ht. induction table as [|a table IH]; intros [|b table'] Ht;
    try discriminate; [reflexivity|].
  cbn [map] in Ht. injection Ht as Hab Ht. cbn [existsb].
  now rewrite Hab, (IH table' Ht).
Qed.

(** A successful INSERT appends the new rows, numbered from the counter. *)
Lemma insert_rows_ok (cols : list string) (ts : string) (new : list (list cell)) :
  forall table seq table' seq',
    Elt.insert_rows cols ts table seq new = Ok (table', seq') ->
    table' = (table ++ numbered cols ts seq new)%list
    /\ seq' = seq + Z.of_nat (List.length new).
Proof.
  induction new as [|r new IH]; intros table seq table' seq' H.
  - cbn in H. injection H as <- <-. rewrite app_nil_r. split; [reflexivity | cbn; lia].
  - cbn [Elt.insert_rows] in H.
    destruct (Elt.conflicts table (Elt.raw_of_row cols (seq + 1) ts r));
      [discriminate|].
    apply IH in H as [-> ->]. cbn [numbered List.length].
    rewrite <- app_assoc. split; [reflexivity | lia].
Qed.

(** Whether an INSERT succeeds depends on the keys in the table only, not
    on the ids or the timestamps. *)
Lemma insert_rows_again (cols : list string) (ts ts' : string)
      (new : list (list cell)) :
  forall table seq res table' seq',
    Elt.insert_rows cols ts table seq new = Ok res ->
    map Elt.unique_key table' = map Elt.unique_key table ->
    exists res', Elt.insert_rows cols ts' table' seq' new = Ok res'.
Proof.
  induction new as [|r new IH]; intros table seq res table' seq' H Hk.
  - cbn. eauto.
  - cbn [Elt.insert_rows] in H |- *.
    rewrite (conflicts_keys table' table _ (Elt.raw_of_row cols (seq + 1) ts r) Hk
               (unique_key_raw_of_row cols _ _ _ _ r)).
    destruct (Elt.conflicts table (Elt.raw_of_row cols (seq + 1) ts r));
      [discriminate|].
    eapply IH; [exact H|]. rewrite !map_app, Hk. reflexivity.
Qed.

Lemma to_sql_raw_ok (df : frame) (ts : string) (table : list raw_row) (seq : Z)
      (table' : list raw_row) (seq' : Z) :
  Elt.to_sql_raw limit df ts table seq = Ok (table', seq') ->
  table' = (table ++ numbered (columns df) ts seq (rows df))%list.
Proof.
  unfold Elt.to_sql_raw.
  destruct (rows df) as [|r rs] eqn:E.
  - intros H. injection H as <- <-. now rewrite app_nil_r.
  - destruct (_ <? _)%nat; [discriminate|].
    destruct (find _ _); [discriminate|].
    intros H. now apply insert_rows_ok in H.
Qed.

Lemma to_sql_raw_again (df : frame) (ts ts' : string) (table : list raw_row)
      (seq seq' : Z) (res : list raw_row * Z) :
  Elt.to_sql_raw limit df ts table seq = Ok res ->
  exists res', Elt.to_sql_raw limit df ts' table seq' = Ok res'.
Proof.
  unfold Elt.to_sql_raw.
  destruct (rows df) as [|r rs] eqn:E; [eauto|].
  destruct (_ <? _)%nat; [discriminate|].
  destruct (find _ _); [discriminate|].
  intros H. eapply insert_rows_again; [exact H | reflexivity].
Qed.

Lemma filter_all_false {A : Type} (p : A -> bool) (l : list A) :
  List.length (filter p l) = 0%nat -> filter (fun x => negb (p x)) l = l.
Proof.
  induction l as [|a l IH]; simpl; [reflexivity|].
  destruct (p a); simpl; [discriminate | intros H; now rewrite IH].
Qed.

(** The rows the loader inserts into: those of the other years. *)
Lemma table_after_delete (year : string) (table : list raw_row) :
  (if (0 <? List.length (filter (fun r => Sql.text_is (r_source_year r) year) table))%nat
   then filter (fun r => negb (Sql.text_is (r_source_year r) year)) table
   else table)
  = filter (fun r => negb (of_year year r)) table.
Proof.
  destruct (Nat.ltb_spec 0 (List.length
              (filter (fun r => Sql.text_is (r_source_year r) year) table)))
    as [H|H]; [reflexivity|].
  symmetry. apply filter_all_false. unfold of_year. lia.
Qed.

Lemma cell_at_stringify (name : string) (cols : list string) (r : list cell) :
  Frame.cell_at name cols (Elt.stringify_row cols r)
  = option_map (fun x => if existsb (String.eqb name) Elt.metadata_columns
                         then x else CStr (Cell.py_str x))
               (Frame.cell_at name cols r).
Proof.
  revert r. induction cols as [|c cols IH]; intros [|x r]; try reflexivity.
  cbn [Elt.stringify_row Frame.cell_at].
  destruct (String.eqb_spec c name) as [->|_]; [reflexivity | apply IH].
Qed.

Lemma numbered_of_year (year : string) (cols : list string) (ts : string)
      (rs : list (list cell)) :
  Forall (fun r => Frame.cell_at "source_year" cols r = Some (CStr year)) rs ->
  forall seq,
    Forall (fun r => of_year year r = true)
           (numbered cols ts seq (map (Elt.stringify_row cols) rs)).
Proof.
  induction 1 as [|r rs Hr _ IH]; intros seq; cbn [map numbered]; constructor.
  - unfold of_year. cbn [Elt.raw_of_row r_source_year]. unfold Elt.field.
    rewrite cell_at_stringify, Hr. cbn. apply String.eqb_refl.
  - apply IH.
Qed.

Lemma filter_all {A : Type} (p : A -> bool) (l : list A) :
  Forall (fun x => p x = true) l ->
  filter p l = l /\ filter (fun x => negb (p x)) l = [].
Proof.
  induction 1 as [|a l Ha _ [IH1 IH2]]; [now split|].
  cbn. rewrite Ha. cbn. now rewrite IH1, IH2.
Qed.

Lemma filter_filter_negb {A : Type} (p : A -> bool) (l : list A) :
  filter (fun x => negb (p x)) (filter (fun x => negb (p x)) l)
  = filter (fun x => negb (p x)) l.
Proof.
  induction l as [|a l IH]; simpl; [reflexivity|].
  destruct (p a) eqn:E; simpl; [assumption | now rewrite E, IH].
Qed.

Lemma data_of_numbered (cols : list string) (ts : string) (rs : list (list cell)) :
  forall seq,
    map data_of (numbered cols ts seq rs)
    = map (fun r => map (Elt.field cols r) Elt.raw_columns) rs.
Proof.
  induction rs as [|r rs IH]; intros seq; [reflexivity|].
  cbn [numbered map]. now rewrite IH.
Qed.

(** The state of [itbi_raw] after a successful load. *)
Lemma load_raw_dataset_ok (df : frame) (year ts : string) (d d1 : db) (n : nat) :
  tagged year df ->
  Elt.load_raw_dataset limit df year ts d = (d1, Ok n) ->
  n = Frame.nrows df
  /\ rows_of_year year d1
     = numbered (columns df) ts (raw_seq d) (rows (Elt.stringify df))
  /\ other_years year d1 = other_years year d
  /\ exists res,
       Elt.to_sql_raw limit (Elt.stringify df) ts (other_years year d) (raw_seq d)
       = Ok res.
Proof.
  intros Htag. unfold Elt.load_raw_dataset. rewrite table_after_delete.
  fold (other_years year d).
  destruct (Elt.to_sql_raw limit (Elt.stringify df) ts (other_years year d)
              (raw_seq d)) as [[table' seq']|e] eqn:E; [|discriminate].
  intros H. injection H as <- <-.
  apply to_sql_raw_ok in E as Et. cbn [Elt.stringify columns rows] in Et.
  pose proof (numbered_of_year year (columns df) ts (rows df) Htag (raw_seq d))
    as Hy.
  destruct (filter_all _ _ Hy) as [F1 F2].
  unfold rows_of_year, other_years. cbn [itbi_raw]. subst table'.
  rewrite !filter_app. fold (of_year year) in *.
  cbn [Elt.stringify rows]. rewrite F1, F2, app_nil_r.
  unfold other_years. rewrite filter_negb_none, filter_filter_negb.
  repeat split; eauto.
  unfold Frame.nrows. cbn. apply length_map.
Qed.

(** C6, amended.  When [load_raw_dataset] succeeds for a dataset tagged
    with the year it is loaded for, running it again with the same inputs
    succeeds as well and leaves [itbi_raw] with exactly the rows of the
    dataset for that year, once each, and the rows of the other years as
    they were. *)
Theorem load_raw_twice (df : frame) (year ts ts' : string) (d d1 : db) (n : nat) :
  tagged year df ->
  Elt.load_raw_dataset limit df year ts d = (d1, Ok n) ->
  exists d2,
    Elt.load_raw_dataset limit df year ts' d1 = (d2, Ok n)
    /\ stored year d2 = dataset_texts df
    /\ stored year d1 = dataset_texts df
    /\ List.length (rows_of_year year d2) = Frame.nrows df
    /\ other_years year d2 = other_years year d.
Proof.
  intros Htag H1.
  destruct (load_raw_dataset_ok df year ts d d1 n Htag H1)
    as (Hn & R1 & O1 & res & E1).
  destruct (to_sql_raw_again _ ts ts' _ (raw_seq d) (raw_seq d1) res E1)
    as ([table2 seq2] & E2).
  destruct (Elt.load_raw_dataset limit df year ts' d1) as [d2 r2] eqn:L2.
  assert (r2 = Ok n) as ->.
  { revert L2. unfold Elt.load_raw_dataset. rewrite table_after_delete.
    fold (other_years year d1). rewrite O1, E2.
    intros H. injection H as _ <-. rewrite Hn.
    unfold Frame.nrows. cbn. now rewrite length_map. }
  exists d2. split; [reflexivity|].
  destruct (load_raw_dataset_ok df year ts' d1 d2 n Htag L2)
    as (_ & R2 & O2 & _).
  unfold stored, dataset_texts. rewrite R1, R2, !data_of_numbered.
  repeat split.
  - rewrite <- (length_map data_of), data_of_numbered, length_map.
    unfold Frame.nrows. cbn. apply length_map.
  - now rewrite O2.
Qed.

End RawIdempotence.

(** The idempotence of the raw load on a dataset of two transactions, one
    of them without assessed value. *)
Lemma load_raw_twice_two_rows :
  exists d2,
    Elt.load_raw_dataset 999 two_rows "2023" "later"
      (fst (Elt.load_raw_dataset 999 two_rows "2023" "now" empty_db))
    = (d2, Ok 2%nat)
    /\ stored "2023" d2 = dataset_texts two_rows
    /\ stored "2023" (fst (Elt.load_raw_dataset 999 two_rows "2023" "now" empty_db))
       = dataset_texts two_rows
    /\ List.length (rows_of_year "2023" d2) = Frame.nrows two_rows
    /\ other_years "2023" d2 = other_years "2023" empty_db.
Proof.
  apply (load_raw_twice 999 two_rows "2023" "now" "later" empty_db).
  - repeat constructor.
  - vm_compute. reflexivity.
Defined.

(** C6, as stated, fails: a dataset in which a transaction appears twice
    violates the UNIQUE constraint of [itbi_raw]; each load raises, and
    after loading twice the table holds none of its rows. *)
Lemma duplicate_rows_not_loaded :
  ~ stored "2023" (loaded_twice twice) = dataset_texts twice.
Proof. vm_compute. discriminate. Qed.

(** ** Consolidation *)

Section Consolidation.

Import Frame.

Lemma in_eqb (c : string) (l : list string) :
  existsb (String.eqb c) l = true <-> In c l.
Proof.
  rewrite existsb_exists. split.
  - intros (x & Hx & E). apply String.eqb_eq in E. now subst.
  - intros H. exists c. split; [assumption | apply String.eqb_refl].
Qed.

Lemma add_new_in (acc : list string) (x c : string) :
  In c (Load.add_new acc x) <-> In c acc \/ c = x.
Proof.
  unfold Load.add_new. destruct (existsb (String.eqb x) acc) eqn:E.
  - apply in_eqb in E. split; [auto | intros [H| ->]; assumption].
  - rewrite in_app_iff. cbn. intuition.
Qed.

Lemma add_new_nodup (acc : list string) (x : string) :
  NoDup acc -> NoDup (Load.add_new acc x).
Proof.
  intros H. unfold Load.add_new. destruct (existsb (String.eqb x) acc) eqn:E;
    [assumption|].
  apply NoDup_app; [assumption | repeat constructor; auto |].
  intros a Ha [<-|[]]. apply in_eqb in Ha. congruence.
Qed.

Lemma add_columns_in (l acc : list string) (c : string) :
  In c (fold_left Load.add_new l acc) <-> In c acc \/ In c l.
Proof.
  revert acc. induction l as [|x l IH]; intros acc; cbn [fold_left].
  - cbn. intuition.
  - rewrite IH, add_new_in. cbn. intuition.
Qed.

Lemma add_columns_nodup (l acc : list string) :
  NoDup acc -> NoDup (fold_left Load.add_new l acc).
Proof.
  revert acc. induction l as [|x l IH]; intros acc H; cbn [fold_left];
    auto using add_new_nodup.
Qed.

Lemma union_from_in (fs : list frame) (acc : list string) (c : string) :
  In c (fold_left (fun acc f => fold_left Load.add_new (columns f) acc) fs acc)
  <-> In c acc \/ exists f, In f fs /\ In c (columns f).
Proof.
  revert acc. induction fs as [|f fs IH]; intros acc; cbn [fold_left].
  - split; [auto | intros [H|(f & [] & _)]; assumption].
  - rewrite IH, add_columns_in. split.
    + intros [[H|H]|(g & Hg & Hc)]; eauto.
      * right. exists f. split; [now left | assumption].
      * right. exists g. split; [now right | assumption].
    + intros [H|(g & [<-|Hg] & Hc)]; eauto.
Qed.

Lemma union_from_nodup (fs : list frame) (acc : list string) :
  NoDup acc ->
  NoDup (fold_left (fun acc f => fold_left Load.add_new (columns f) acc) fs acc).
Proof.
  revert acc. induction fs as [|f fs IH]; intros acc H; cbn [fold_left];
    auto using add_columns_nodup.
Qed.

(** The columns of the result are the union of the columns of the inputs. *)
Lemma union_columns_in (fs : list frame) (c : string) :
  In c (Load.union_columns fs) <-> exists f, In f fs /\ In c (columns f).
Proof.
  unfold Load.union_columns. rewrite union_from_in. cbn. intuition.
Qed.

Lemma union_columns_nodup (fs : list frame) : NoDup (Load.union_columns fs).
Proof. apply union_from_nodup. constructor. Qed.

Lemma rows_count (fs : list frame) (h : frame -> list cell -> list cell) :
  List.length (flat_map (fun f => map (h f) (rows f)) fs)
  = list_sum (map nrows fs).
Proof.
  induction fs as [|f fs IH]; cbn [flat_map map list_sum]; [reflexivity|].
  now rewrite length_app, length_map, IH.
Qed.

(** Reading a re-indexed row under one of the columns it was built on. *)
Lemma cell_at_map (g : string -> cell) (c : string) (all : list string) :
  In c all -> cell_at c all (map g all) = Some (g c).
Proof.
  induction all as [|a all IH]; [contradiction|].
  intros H. cbn [map cell_at].
  destruct (String.eqb_spec a c) as [->|Hne]; [reflexivity|].
  destruct H as [H|H]; [congruence | auto].
Qed.

Lemma cell_at_some (c : string) (cols : list string) (r : list cell) :
  List.length r = List.length cols -> In c cols ->
  exists x, cell_at c cols r = Some x.
Proof.
  revert r. induction cols as [|a cols IH]; intros r Hl Hin; [contradiction|].
  destruct r as [|x r]; [discriminate|]. cbn [cell_at].
  destruct (String.eqb_spec a c) as [->|Hne]; [eauto|].
  destruct Hin as [Hin|Hin]; [congruence|].
  apply IH; [now injection Hl | assumption].
Qed.

Lemma cell_at_none (c : string) (cols : list string) (r : list cell) :
  ~ In c cols -> cell_at c cols r = None.
Proof.
  revert r. induction cols as [|a cols IH]; intros r Hin; [reflexivity|].
  destruct r as [|x r]; [reflexivity|]. cbn [cell_at].
  destruct (String.eqb_spec a c) as [->|Hne]; [exfalso; apply Hin; now left|].
  apply IH. intros H. apply Hin. now right.
Qed.

Lemma upcast_same_value (b : bool) (x : cell) :
  same_value x (if b then Load.upcast x else x).
Proof.
  destruct b; [|now left].
  destruct x; try (now left). right. eauto.
Qed.

Lemma fill_value_isna (fs : list frame) (c : string) :
  Cell.isna (Load.fill_value fs c) = true.
Proof. unfold Load.fill_value. now destruct (_ && _). Qed.

(** A re-indexed row keeps the values of its frame and is null elsewhere. *)
Lemma reindex_image (fs : list frame) (f : frame) (r : list cell) :
  List.length r = List.length (columns f) ->
  forall out, columns out = Load.union_columns fs ->
  image out (f, r) (Load.reindex fs (Load.union_columns fs) f r).
Proof.
  intros Hl out Hout. unfold image. rewrite Hout. cbn [fst snd]. split.
  - unfold Load.reindex. apply length_map.
  - intros c Hc. unfold Load.reindex. rewrite cell_at_map by assumption. split.
    + intros Hin. destruct (cell_at_some c _ r Hl Hin) as (x & ->).
      eauto using upcast_same_value.
    + intros Hout'. rewrite cell_at_none by assumption.
      eauto using fill_value_isna.
Qed.

Lemma rows_images (out : frame) (h : frame -> list cell -> list cell)
      (fs : list frame) :
  (forall f r, In f fs -> In r (rows f) -> image out (f, r) (h f r)) ->
  Forall2 (image out) (sources fs)
          (flat_map (fun f => map (h f) (rows f)) fs).
Proof.
  unfold sources. induction fs as [|f fs IH]; intros H; cbn [flat_map];
    [constructor|].
  apply Forall2_app.
  - assert (Hf : forall r, In r (rows f) -> image out (f, r) (h f r))
      by (intros; apply H; [now left | assumption]).
    induction (rows f) as [|r rs IHr]; cbn [map]; constructor.
    + apply Hf. now left.
    + apply IHr. intros. apply Hf. now right.
  - apply IH. intros g r Hg. apply H. now right.
Qed.

(** C7.  Consolidating a non-empty collection of well-formed yearly frames
    gives one frame with as many rows as the inputs together, whose columns
    are exactly the columns that occur in some input, each once, and whose
    rows are the input rows in order: each keeps the values of its own
    frame (an integer possibly turned into the equal float) and is null
    under every column its frame lacks. *)
Theorem consolidate_datasets_union (ds : datasets) :
  ds <> [] ->
  Forall well_formed (Dict.values ds) ->
  exists out,
    Load.consolidate_datasets ds = Ok out
    /\ nrows out = list_sum (map nrows (Dict.values ds))
    /\ (forall c, In c (columns out)
                  <-> exists f, In f (Dict.values ds) /\ In c (columns f))
    /\ NoDup (columns out)
    /\ Forall2 (image out) (sources (Dict.values ds)) (rows out).
Proof.
  intros Hne Hwf. unfold Load.consolidate_datasets, Load.concat.
  destruct (Dict.values ds) as [|f fs] eqn:E.
  - destruct ds; [congruence | discriminate].
  - rewrite <- E in *. eexists. split; [reflexivity|].
    unfold nrows at 1. cbn [rows columns].
    split; [apply rows_count|].
    split; [apply union_columns_in|].
    split; [apply union_columns_nodup|].
    apply rows_images. intros g r Hg Hr. apply reindex_image; [|reflexivity].
    rewrite Forall_forall in Hwf. destruct (Hwf g Hg) as [_ Hrows].
    rewrite Forall_forall in Hrows. auto.
Qed.

End Consolidation.

(** The consolidation of a frame of 2023 and a frame of 2024 that share one
    column. *)
Lemma consolidate_two_years :
  exists out,
    Load.consolidate_datasets [("2023", frame_2023); ("2024", frame_2024)] = Ok out
    /\ Frame.nrows out = 3%nat
    /\ (forall c, In c (columns out)
                  <-> exists f, In f [frame_2023; frame_2024] /\ In c (columns f))
    /\ NoDup (columns out)
    /\ Forall2 (image out) (sources [frame_2023; frame_2024]) (rows out).
Proof.
  apply (consolidate_datasets_union [("2023", frame_2023); ("2024", frame_2024)]).
  - discriminate.
  - repeat constructor; cbn; intuition discriminate.
Defined.

(** ** Extraction *)

Lemma dict_get_set_same (d : datasets) (k : string) (v : frame) :
  Dict.get (Dict.set d k v) k = Some v.
Proof.
  induction d as [|[k' v'] d IH]; cbn.
  - now rewrite String.eqb_refl.
  - destruct (String.eqb_spec k' k) as [->|Hne]; cbn.
    + now rewrite String.eqb_refl.
    + destruct (String.eqb_spec k' k); [congruence | assumption].
Qed.

Lemma dict_get_set_other (d : datasets) (k k' : string) (v : frame) :
  k <> k' -> Dict.get (Dict.set d k v) k' = Dict.get d k'.
Proof.
  intros Hne. induction d as [|[a w] d IH]; cbn.
  - destruct (String.eqb_spec k k'); [congruence | reflexivity].
  - destruct (String.eqb_spec a k) as [->|Hak]; cbn.
    + destruct (String.eqb_spec k k'); [congruence | reflexivity].
    + destruct (String.eqb_spec a k'); [reflexivity | assumption].
Qed.

Section ExtractionLoop.

(** A loop over the years whose body stores the frame of a year that
    succeeds and prints the failure of a year that fails. *)
Variable try : string -> string -> result frame.
Variable step : extract_state -> string * string -> extract_state.

Hypothesis step_dict : forall st year url,
  datasets_dict (step st (year, url))
  = match try year url with
    | Ok df => Dict.set (datasets_dict st) year df
    | Raise _ => datasets_dict st
    end.

Hypothesis step_printed : forall st year url,
  exists more,
    printed (step st (year, url)) = (printed st ++ more)%list
    /\ forall e, try year url = Raise e -> In (ExtractError year e) more.

Lemma loop_other_year (l : list (string * string)) (y : string) :
  ~ In y (map fst l) ->
  forall st,
    Dict.get (datasets_dict (fold_left step l st)) y
    = Dict.get (datasets_dict st) y.
Proof.
  induction l as [|[year url] l IH]; intros Hy st; cbn [fold_left];
    [reflexivity|].
  cbn [map fst In] in Hy. rewrite IH by tauto. rewrite step_dict.
  destruct (try year url); [|reflexivity].
  apply dict_get_set_other. tauto.
Qed.

Lemma loop_year (l : list (string * string)) :
  NoDup (map fst l) ->
  forall st year url,
    In (year, url) l ->
    Dict.get (datasets_dict st) year = None ->
    Dict.get (datasets_dict (fold_left step l st)) year
    = match try year url with
      | Ok df => Some df
      | Raise _ => None
      end.
Proof.
  induction l as [|[y u] l IH]; intros Hnd st year url Hin Hnone;
    [contradiction|].
  cbn [map fst] in Hnd. inversion Hnd as [|? ? Hy Hnd']; subst.
  cbn [fold_left]. destruct Hin as [E|Hin].
  - injection E as -> ->. rewrite loop_other_year by assumption.
    rewrite step_dict. destruct (try year url); [|assumption].
    apply dict_get_set_same.
  - assert (Hne : y <> year).
    { intros ->. apply Hy. apply (in_map fst) in Hin. exact Hin. }
    apply IH; try assumption. rewrite step_dict.
    destruct (try y u); [|assumption].
    now rewrite dict_get_set_other.
Qed.

Lemma loop_printed_grows (l : list (string * string)) :
  forall st x, In x (printed st) -> In x (printed (fold_left step l st)).
Proof.
  induction l as [|[y u] l IH]; intros st x Hx; cbn [fold_left];
    [assumption|].
  apply IH. destruct (step_printed st y u) as (more & -> & _).
  apply in_or_app. now left.
Qed.

Lemma loop_failure_printed (l : list (string * string)) :
  forall st year url e,
    In (year, url) l -> try year url = Raise e ->
    In (ExtractError year e) (printed (fold_left step l st)).
Proof.
  induction l as [|[y u] l IH]; intros st year url e Hin He; [contradiction|].
  cbn [fold_left]. destruct Hin as [E|Hin]; [|eauto].
  injection E as -> ->. apply loop_printed_grows.
  destruct (step_printed st year url) as (more & -> & Hmore).
  apply in_or_app. right. auto.
Qed.

Lemma loop_skips_failures (st0 : extract_state) :
  datasets_dict st0 = [] ->
  skips_failures try (fold_left step datasets_urls st0).
Proof.
  intros Hempty.
  assert (Hnd : NoDup (map fst datasets_urls))
    by (repeat constructor; cbn; intuition discriminate).
  split.
  - intros year url Hin.
    pose proof (loop_year datasets_urls Hnd st0 year url Hin) as Hget.
    rewrite Hempty in Hget. specialize (Hget eq_refl).
    destruct (try year url) as [df|e] eqn:E; [assumption|].
    split; [assumption|]. eapply loop_failure_printed; eassumption.
  - intros year Hsome.
    destruct (in_dec string_dec year (map fst datasets_urls)) as [H|H];
      [assumption|].
    rewrite loop_other_year, Hempty in Hsome by assumption. now elim Hsome.
Qed.

End ExtractionLoop.

Section Extractors.

Variable read_csv : string -> result frame.
Variable now : cell.

Lemma step_etl_dict (st : extract_state) (year url : string) :
  datasets_dict (step_etl read_csv now st (year, url))
  = match try_extract_etl read_csv now year url with
    | Ok df => Dict.set (datasets_dict st) year df
    | Raise _ => datasets_dict st
    end.
Proof.
  unfold step_etl. now destruct (try_extract_etl read_csv now year url).
Qed.

Lemma step_etl_printed (st : extract_state) (year url : string) :
  exists more,
    printed (step_etl read_csv now st (year, url)) = (printed st ++ more)%list
    /\ forall e, try_extract_etl read_csv now year url = Raise e ->
                 In (ExtractError year e) more.
Proof.
  unfold step_etl. destruct (try_extract_etl read_csv now year url) as [df|e];
    cbn [printed]; rewrite <- app_assoc; eexists; (split; [reflexivity|]).
  - discriminate.
  - intros e' E. injection E as <-. cbn. auto.
Qed.

Lemma step_elt_dict (st : extract_state) (year url : string) :
  datasets_dict (step_elt read_csv now st (year, url))
  = match try_extract_elt read_csv now year url with
    | Ok df => Dict.set (datasets_dict st) year df
    | Raise _ => datasets_dict st
    end.
Proof.
  unfold step_elt. now destruct (try_extract_elt read_csv now year url).
Qed.

Lemma step_elt_printed (st : extract_state) (year url : string) :
  exists more,
    printed (step_elt read_csv now st (year, url)) = (printed st ++ more)%list
    /\ forall e, try_extract_elt read_csv now year url = Raise e ->
                 In (ExtractError year e) more.
Proof.
  unfold step_elt. destruct (try_extract_elt read_csv now year url) as [df|e];
    cbn [printed]; rewrite <- app_assoc; eexists; (split; [reflexivity|]).
  - discriminate.
  - intros e' E. injection E as <-. cbn. auto.
Qed.

(** The ETL extractor also records each failure in the operation log. *)
Lemma etl_failure_in_operation_log (l : list (string * string)) :
  forall st year url e,
    In (year, url) l ->
    try_extract_etl read_csv now year url = Raise e ->
    In (mkLogEntry now "extract" year 0 ("error: " ++ exn_message e))
       (operation_log (fold_left (step_etl read_csv now) l st)).
Proof.
  assert (grows : forall k st x,
             In x (operation_log st) ->
             In x (operation_log (fold_left (step_etl read_csv now) k st))).
  { intros k. induction k as [|[y u] k IH]; intros st x Hx; cbn [fold_left];
      [assumption|].
    apply IH. unfold step_etl, log_operation.
    destruct (try_extract_etl read_csv now y u); cbn [operation_log];
      apply in_or_app; now left. }
  induction l as [|[y u] l IH]; intros st year url e Hin He; [contradiction|].
  cbn [fold_left]. destruct Hin as [E|Hin]; [|eauto].
  injection E as -> ->. apply grows. unfold step_etl, log_operation.
  rewrite He. cbn [operation_log]. apply in_or_app. right. now left.
Qed.

End Extractors.

Section ExtractionOutcome.

Variable read_csv : string -> result frame.
Variable now : cell.

Lemma try_extract_etl_raise (year url : string) (e : exn) :
  read_csv url = Raise e -> try_extract_etl read_csv now year url = Raise e.
Proof. intros H. unfold try_extract_etl. now rewrite H. Qed.

Lemma try_extract_elt_raise (year url : string) (e : exn) :
  read_csv url = Raise e -> try_extract_elt read_csv now year url = Raise e.
Proof. intros H. unfold try_extract_elt. now rewrite H. Qed.

Lemma try_extract_etl_ok (year url : string) (df : frame) :
  read_csv url = Ok df ->
  (passes_etl now year url df = true ->
   try_extract_etl read_csv now year url = Ok (etl_frame now year url df))
  /\ (passes_etl now year url df = false ->
      exists w, try_extract_etl read_csv now year url = Raise (ValueError w)).
Proof.
  intros H. unfold try_extract_etl, passes_etl. rewrite H. cbn [bind].
  fold (etl_frame now year url df).
  destruct (Frame.empty (etl_frame now year url df)); cbn [negb andb].
  - split; [discriminate | eauto].
  - destruct (Nat.ltb_spec (List.length (columns (etl_frame now year url df))) 20);
      destruct (Nat.leb_spec 20 (List.length (columns (etl_frame now year url df))));
      try lia; split; try discriminate; eauto.
Qed.

Lemma try_extract_elt_ok (year url : string) (df : frame) :
  read_csv url = Ok df ->
  (passes_elt now year df = true ->
   try_extract_elt read_csv now year url = Ok (elt_frame now year df))
  /\ (passes_elt now year df = false ->
      try_extract_elt read_csv now year url
      = Raise (ValueError ("Dataset " ++ year ++ " está vazio"))).
Proof.
  intros H. unfold try_extract_elt, passes_elt. rewrite H. cbn [bind].
  fold (elt_frame now year df).
  destruct (Frame.empty (elt_frame now year df)); cbn [negb];
    split; try discriminate; reflexivity.
Qed.

End ExtractionOutcome.

(** C8.  For every year of the list and whatever the other sources answer:
    when reading the year's source raises (a fetch or a parse error), the
    year is absent from the dictionary both extractors return, the error is
    printed, and the ETL extractor records it in the operation log with
    zero records; when the source answers with a frame that passes the
    extractor's checks, the year is in the dictionary with that frame and
    its metadata columns, and otherwise it is absent.  So the dictionary
    holds exactly the years whose extraction succeeded, and what is
    returned for a year depends on the answer of that year's source
    only. *)
Theorem extraction_skips_failed_years
        (read_csv : string -> result frame) (now : cell) (log0 : list log_entry) :
  (forall year url e,
      In (year, url) datasets_urls ->
      read_csv url = Raise e ->
      Dict.get (datasets_dict (extract_itbi_data read_csv now log0)) year = None
      /\ In (ExtractError year e) (printed (extract_itbi_data read_csv now log0))
      /\ In (mkLogEntry now "extract" year 0 ("error: " ++ exn_message e))
            (operation_log (extract_itbi_data read_csv now log0))
      /\ Dict.get (datasets_dict (extract_itbi_data_elt read_csv now)) year = None
      /\ In (ExtractError year e) (printed (extract_itbi_data_elt read_csv now)))
  /\ (forall year url df,
         In (year, url) datasets_urls ->
         read_csv url = Ok df ->
         Dict.get (datasets_dict (extract_itbi_data read_csv now log0)) year
         = (if passes_etl now year url df
            then Some (etl_frame now year url df) else None)
         /\ Dict.get (datasets_dict (extract_itbi_data_elt read_csv now)) year
            = (if passes_elt now year df
               then Some (elt_frame now year df) else None))
  /\ (forall year,
         Dict.get (datasets_dict (extract_itbi_data read_csv now log0)) year
         <> None
         <-> exists url df,
               In (year, url) datasets_urls /\ read_csv url = Ok df
               /\ passes_etl now year url df = true)
  /\ (forall year,
         Dict.get (datasets_dict (extract_itbi_data_elt read_csv now)) year
         <> None
         <-> exists url df,
               In (year, url) datasets_urls /\ read_csv url = Ok df
               /\ passes_elt now year df = true)
  /\ skips_failures (try_extract_etl read_csv now)
                    (extract_itbi_data read_csv now log0)
  /\ skips_failures (try_extract_elt read_csv now)
                    (extract_itbi_data_elt read_csv now)
  /\ (forall year url e,
         In (year, url) datasets_urls ->
         try_extract_etl read_csv now year url = Raise e ->
         In (mkLogEntry now "extract" year 0 ("error: " ++ exn_message e))
            (operation_log (extract_itbi_data read_csv now log0)))
  /\ (forall read_csv' year url,
         In (year, url) datasets_urls ->
         read_csv' url = read_csv url ->
         Dict.get (datasets_dict (extract_itbi_data read_csv' now log0)) year
         = Dict.get (datasets_dict (extract_itbi_data read_csv now log0)) year
         /\ Dict.get (datasets_dict (extract_itbi_data_elt read_csv' now)) year
            = Dict.get (datasets_dict (extract_itbi_data_elt read_csv now)) year).
Proof.
  assert (Hnd : NoDup (map fst datasets_urls))
    by (repeat constructor; cbn; intuition discriminate).
  assert (Setl : skips_failures (try_extract_etl read_csv now)
                                (extract_itbi_data read_csv now log0)).
  { apply (loop_skips_failures _ _ (step_etl_dict read_csv now)
             (step_etl_printed read_csv now)). reflexivity. }
  assert (Selt : skips_failures (try_extract_elt read_csv now)
                                (extract_itbi_data_elt read_csv now)).
  { apply (loop_skips_failures _ _ (step_elt_dict read_csv now)
             (step_elt_printed read_csv now)). reflexivity. }
  assert (Getl : forall year url df,
             In (year, url) datasets_urls -> read_csv url = Ok df ->
             Dict.get (datasets_dict (extract_itbi_data read_csv now log0)) year
             = (if passes_etl now year url df
                then Some (etl_frame now year url df) else None)).
  { intros year url df Hin Hr. destruct Setl as [S _]. specialize (S year url Hin).
    destruct (try_extract_etl_ok read_csv now year url df Hr) as [Hp Hf].
    destruct (passes_etl now year url df).
    - now rewrite (Hp eq_refl) in S.
    - destruct (Hf eq_refl) as (w & E). rewrite E in S. apply S. }
  assert (Gelt : forall year url df,
             In (year, url) datasets_urls -> read_csv url = Ok df ->
             Dict.get (datasets_dict (extract_itbi_data_elt read_csv now)) year
             = (if passes_elt now year df
                then Some (elt_frame now year df) else None)).
  { intros year url df Hin Hr. destruct Selt as [S _]. specialize (S year url Hin).
    destruct (try_extract_elt_ok read_csv now year url df Hr) as [Hp Hf].
    destruct (passes_elt now year df).
    - now rewrite (Hp eq_refl) in S.
    - rewrite (Hf eq_refl) in S. apply S. }
  assert (Retl : forall year url e,
             In (year, url) datasets_urls -> read_csv url = Raise e ->
             Dict.get (datasets_dict (extract_itbi_data read_csv now log0)) year
             = None
             /\ In (ExtractError year e)
                   (printed (extract_itbi_data read_csv now log0))).
  { intros year url e Hin Hr. destruct Setl as [S _]. specialize (S year url Hin).
    now rewrite (try_extract_etl_raise read_csv now year url e Hr) in S. }
  assert (Relt : forall year url e,
             In (year, url) datasets_urls -> read_csv url = Raise e ->
             Dict.get (datasets_dict (extract_itbi_data_elt read_csv now)) year
             = None
             /\ In (ExtractError year e)
                   (printed (extract_itbi_data_elt read_csv now))).
  { intros year url e Hin Hr. destruct Selt as [S _]. specialize (S year url Hin).
    now rewrite (try_extract_elt_raise read_csv now year url e Hr) in S. }
  assert (Hurl : forall year, In year (map fst datasets_urls) ->
                              exists url, In (year, url) datasets_urls).
  { intros year H. apply in_map_iff in H as ([y u] & <- & H). now exists u. }
  split; [|split; [|split; [|split; [|split; [|split; [|split]]]]]].
  - intros year url e Hin Hr.
    destruct (Retl year url e Hin Hr) as [R1 R2].
    destruct (Relt year url e Hin Hr) as [R3 R4].
    repeat split; try assumption.
    eapply etl_failure_in_operation_log; [eassumption|].
    now apply try_extract_etl_raise.
  - intros year url df Hin Hr. split; [now apply Getl | now apply (Gelt year url)].
  - intros year. split.
    + intros Hsome. destruct Setl as [_ S].
      destruct (Hurl year (S year Hsome)) as (url & Hin).
      destruct (read_csv url) as [df|e] eqn:Hr.
      * exists url, df. repeat split; try assumption.
        rewrite (Getl year url df Hin Hr) in Hsome.
        destruct (passes_etl now year url df); [reflexivity | now elim Hsome].
      * destruct (Retl year url e Hin Hr) as [R _]. now elim Hsome.
    + intros (url & df & Hin & Hr & Hp).
      rewrite (Getl year url df Hin Hr), Hp. discriminate.
  - intros year. split.
    + intros Hsome. destruct Selt as [_ S].
      destruct (Hurl year (S year Hsome)) as (url & Hin).
      destruct (read_csv url) as [df|e] eqn:Hr.
      * exists url, df. repeat split; try assumption.
        rewrite (Gelt year url df Hin Hr) in Hsome.
        destruct (passes_elt now year df); [reflexivity | now elim Hsome].
      * destruct (Relt year url e Hin Hr) as [R _]. now elim Hsome.
    + intros (url & df & Hin & Hr & Hp).
      rewrite (Gelt year url df Hin Hr), Hp. discriminate.
  - exact Setl.
  - exact Selt.
  - intros year url e Hin He. eapply etl_failure_in_operation_log; eassumption.
  - intros read_csv' year url Hin Hsame. unfold extract_itbi_data,
      extract_itbi_data_elt. split.
    + rewrite (loop_year _ _ (step_etl_dict read_csv' now) _ Hnd
                 (mkExtract [] 0 [] log0) year url Hin eq_refl).
      rewrite (loop_year _ _ (step_etl_dict read_csv now) _ Hnd
                 (mkExtract [] 0 [] log0) year url Hin eq_refl).
      unfold try_extract_etl. now rewrite Hsame.
    + rewrite (loop_year _ _ (step_elt_dict read_csv' now) _ Hnd
                 (mkExtract [] 0 [] []) year url Hin eq_refl).
      rewrite (loop_year _ _ (step_elt_dict read_csv now) _ Hnd
                 (mkExtract [] 0 [] []) year url Hin eq_refl).
      unfold try_extract_elt. now rewrite Hsame.
Qed.

(** ** Null handling *)

Section NullHandling.

Import Frame.

Lemma apply_col_length (f : cell -> cell) (name : string) (cols : list string)
      (r : list cell) :
  List.length (apply_col f name cols r) = List.length r.
Proof.
  revert r. induction cols as [|c cols IH]; intros [|x r]; cbn; auto.
Qed.

Lemma apply_col_nth (f : cell -> cell) (name : string) (cols : list string) :
  forall r i c x,
    nth_error cols i = Some c -> nth_error r i = Some x ->
    nth_error (apply_col f name cols r) i
    = Some (if String.eqb c name then f x else x).
Proof.
  induction cols as [|a cols IH]; intros [|y r] [|i] c x Hc Hx;
    try discriminate; cbn in *.
  - injection Hc as ->. injection Hx as ->. reflexivity.
  - eauto.
Qed.

Lemma no_such_column (df : frame) (name : string) (i : nat) (c : string) :
  has_column df name = false -> nth_error (columns df) i = Some c ->
  String.eqb c name = false.
Proof.
  unfold has_column. intros H Hc.
  destruct (String.eqb_spec c name) as [->|]; [|reflexivity].
  apply nth_error_In in Hc. apply in_eqb in Hc. congruence.
Qed.

(** C9.  The null-handling step keeps the columns and the number of rows,
    and in every row it replaces the nulls under ["complemento"] by
    ["Sem complemento"] and leaves every other cell, null or not, exactly
    as it was. *)
Theorem handle_missing_values_only_complemento (df : frame) :
  columns (Etl.handle_missing_values df) = columns df
  /\ Forall2 (filled (columns df)) (rows df)
             (rows (Etl.handle_missing_values df)).
Proof.
  unfold Etl.handle_missing_values.
  destruct (has_column df "complemento") eqn:E.
  - split; [reflexivity|]. cbn [map_column rows].
    induction (rows df) as [|r rs IH]; cbn [map]; constructor; [|exact IH].
    split; [apply apply_col_length|].
    intros i c x Hc Hx.
    rewrite (apply_col_nth _ _ _ r i c x Hc Hx). unfold Etl.fillna.
    reflexivity.
  - split; [reflexivity|].
    induction (rows df) as [|r rs IH]; constructor; [|exact IH].
    split; [reflexivity|].
    intros i c x Hc Hx. now rewrite (no_such_column df _ i c E Hc).
Qed.

End NullHandling.

(** ** Missing values in the raw table *)

Section RawText.

Variable limit : nat.

Lemma numbered_in (cols : list string) (ts : string) (rs : list (list cell))
      (r : list cell) :
  In r rs ->
  forall seq, exists id, In (Elt.raw_of_row cols id ts r) (numbered cols ts seq rs).
Proof.
  induction rs as [|a rs IH]; [contradiction|].
  intros [->|H] seq; cbn [numbered].
  - exists (seq + 1). now left.
  - destruct (IH H (seq + 1)) as (id & Hid). exists id. now right.
Qed.

Lemma raw_value_raw_of_row (cols : list string) (id : Z) (ts : string)
      (r : list cell) (name : string) :
  In name Elt.raw_columns ->
  raw_value name (Elt.raw_of_row cols id ts r) = Elt.field cols r name.
Proof.
  intros H. cbn in H.
  repeat (destruct H as [<-|H]; [reflexivity|]). contradiction.
Qed.

Lemma data_column_not_metadata (name : string) :
  In name data_columns ->
  In name Elt.raw_columns
  /\ existsb (String.eqb name) Elt.metadata_columns = false.
Proof.
  intros H. cbn in H.
  repeat (destruct H as [<-|H]; [split; [cbn; tauto | reflexivity]|]).
  contradiction.
Qed.

(** The text stored for a data cell is its string representation. *)
Lemma data_cell_stored_as_text (cols : list string) (r : list cell)
      (name : string) (x : cell) :
  In name data_columns ->
  Frame.cell_at name cols r = Some x ->
  Elt.field cols (Elt.stringify_row cols r) name = Some (Cell.py_str x).
Proof.
  intros Hn Hx. destruct (data_column_not_metadata name Hn) as [_ Hm].
  unfold Elt.field. now rewrite cell_at_stringify, Hx, Hm.
Qed.

Lemma load_raw_dataset_rows (df : frame) (year ts : string) (d d1 : db) (n : nat) :
  Elt.load_raw_dataset limit df year ts d = (d1, Ok n) ->
  itbi_raw d1
  = (other_years year d
     ++ numbered (columns df) ts (raw_seq d)
          (map (Elt.stringify_row (columns df)) (rows df)))%list.
Proof.
  unfold Elt.load_raw_dataset. rewrite table_after_delete.
  fold (other_years year d).
  destruct (Elt.to_sql_raw limit (Elt.stringify df) ts (other_years year d)
              (raw_seq d)) as [[table' seq']|e] eqn:E; [|discriminate].
  intros H. injection H as <- _.
  now apply to_sql_raw_ok in E.
Qed.

Lemma is_missing_spec (v : option string) :
  Elt.is_missing v = true <-> v = None \/ v = Some "" \/ v = Some "nan".
Proof.
  unfold Elt.is_missing. destruct v as [s|]; [|intuition].
  rewrite orb_true_iff, !String.eqb_eq. split.
  - intros [->| ->]; auto.
  - intros [H|[H|H]]; try discriminate; injection H as ->; auto.
Qed.

Lemma selected_not_missing (year : string) (r : raw_row) :
  Elt.selected year r
  = Sql.text_is (r_source_year r) year
    && negb (Elt.is_missing (r_valor_avaliacao r)).
Proof.
  unfold Elt.selected, Elt.is_missing.
  destruct (r_valor_avaliacao r); [|reflexivity].
  now rewrite negb_orb.
Qed.

(** C10.  After a successful raw load, every row of the dataset is in
    [itbi_raw] with, under each data column the dataset has, the string
    representation of the cell: a text, never NULL, and the text ["nan"]
    for a missing value.  The quality view and the filter of the
    in-database transform treat exactly NULL, the empty text and ["nan"]
    as missing; without the test for ["nan"] the row would be transformed,
    with the value 0 that CAST reads from that text. *)
Theorem missing_values_stored_as_nan_text
        (df : frame) (year ts : string) (d d1 : db) (n : nat) :
  Elt.load_raw_dataset limit df year ts d = (d1, Ok n) ->
  (forall r, In r (rows df) ->
     exists row,
       In row (itbi_raw d1)
       /\ forall name x,
            In name data_columns ->
            Frame.cell_at name (columns df) r = Some x ->
            raw_value name row = Some (Cell.py_str x)
            /\ (x = CFloat NaN -> raw_value name row = Some "nan"))
  /\ (forall v, Elt.is_missing v = true
                <-> v = None \/ v = Some "" \/ v = Some "nan")
  /\ (forall y r, Elt.selected y r
                  = Sql.text_is (r_source_year r) y
                    && negb (Elt.is_missing (r_valor_avaliacao r)))
  /\ Sqlite.cast_br_real (Some "nan") = Some (0 # 1).
Proof.
  intros H. apply load_raw_dataset_rows in H.
  split; [|split; [|split]].
  - intros r Hr.
    destruct (numbered_in (columns df) ts _ _
                (in_map (Elt.stringify_row (columns df)) _ _ Hr) (raw_seq d))
      as (id & Hid).
    eexists. split.
    + rewrite H. apply in_or_app. right. exact Hid.
    + intros name x Hn Hx.
      destruct (data_column_not_metadata name Hn) as [Hraw _].
      rewrite raw_value_raw_of_row by assumption.
      rewrite (data_cell_stored_as_text _ _ _ x Hn Hx).
      split; [reflexivity | now intros ->].
  - apply is_missing_spec.
  - apply selected_not_missing.
  - reflexivity.
Qed.

End RawText.

(** The raw load of a dataset whose second transaction has no assessed
    value. *)
Lemma two_rows_stored_as_text :
  (forall r, In r (rows two_rows) ->
     exists row,
       In row (itbi_raw (loaded_twice two_rows))
       /\ forall name x,
            In name data_columns ->
            Frame.cell_at name (columns two_rows) r = Some x ->
            raw_value name row = Some (Cell.py_str x)
            /\ (x = CFloat NaN -> raw_value name row = Some "nan"))
  /\ (forall v, Elt.is_missing v = true
                <-> v = None \/ v = Some "" \/ v = Some "nan")
  /\ (forall y r, Elt.selected y r
                  = Sql.text_is (r_source_year r) y
                    && negb (Elt.is_missing (r_valor_avaliacao r)))
  /\ Sqlite.cast_br_real (Some "nan") = Some (0 # 1).
Proof.
  apply (missing_values_stored_as_nan_text 999 two_rows "2023" "later"
           (fst (Elt.load_raw_dataset 999 two_rows "2023" "now" empty_db))
           (loaded_twice two_rows) 2).
  vm_compute. reflexivity.
Defined.

(* ================================================================== *)
(** * Further properties of the transform stages *)

(** ** Coercion of formatted numbers *)

(** X1.  The REPLACE/CAST expression of the in-database transform reads
    every Brazilian-formatted number exactly: the integer digits with the
    thousands separators removed, plus the decimals over the matching power
    of ten. *)
Theorem in_database_coercion_exact (a : string) (gs : list string) (cc : string) :
  digits a -> a <> "" -> Forall digits gs -> digits cc ->
  exists q,
    Sqlite.cast_br_real (Some (brazilian a gs cc)) = Some q
    /\ (q == inject_Z (Str.digits_val (a ++ join gs))
             + inject_Z (Str.digits_val cc)
               / inject_Z (10 ^ Z.of_nat (String.length cc)))%Q.
Proof.
  intros Ha Hne Hgs Hcc. eexists. split.
  - apply cast_br_real_brazilian; assumption.
  - apply decimal_value.
Qed.

Lemma in_database_coercion_200_000_50 :
  exists q,
    Sqlite.cast_br_real (Some (brazilian "200" ["000"] "50")) = Some q
    /\ (q == inject_Z (Str.digits_val ("200" ++ join ["000"]))
             + inject_Z (Str.digits_val "50")
               / inject_Z (10 ^ Z.of_nat (String.length "50")))%Q.
Proof.
  apply (in_database_coercion_exact "200" ["000"] "50").
  - reflexivity.
  - discriminate.
  - repeat constructor.
  - reflexivity.
Defined.

Lemma in_process_rejects_1_234_567_89 :
  Etl.to_float (Etl.convert_currency_format
                  (CStr (brazilian "1" ("234" :: ["567"]) "89")))
  = Raise (ValueError "could not convert string to float").
Proof.
  apply (in_process_rejects_grouped "1" "234" ["567"] "89").
  - reflexivity.
  - discriminate.
  - reflexivity.
  - repeat constructor.
  - reflexivity.
Defined.

(** X3.  On a number written without thousands separator the in-process
    coercion succeeds and gives the same value as the in-database
    coercion. *)
Theorem coercions_agree_without_separator (a cc : string) :
  digits a -> a <> "" -> digits cc ->
  exists q,
    Etl.to_float (Etl.convert_currency_format (CStr (brazilian a [] cc)))
    = Ok (CFloat (Fin q))
    /\ Sqlite.cast_br_real (Some (brazilian a [] cc)) = Some q.
Proof.
  intros Ha Hne Hcc. exists (Num.decimal false a cc 0). split.
  - apply in_process_accepts_ungrouped; assumption.
  - rewrite cast_br_real_brazilian by (assumption || constructor).
    cbn [join]. now rewrite append_empty_r.
Qed.

Lemma coercions_agree_150000_00 :
  exists q,
    Etl.to_float (Etl.convert_currency_format (CStr (brazilian "150000" [] "00")))
    = Ok (CFloat (Fin q))
    /\ Sqlite.cast_br_real (Some (brazilian "150000" [] "00")) = Some q.
Proof.
  apply (coercions_agree_without_separator "150000" "00");
    [reflexivity | discriminate | reflexivity].
Defined.

(** ** Value per built area, for a positive area *)

Lemma valor_por_m2_in_process_150000_50 :
  Etl.valor_por_m2_column
    (typed_record (CFloat (Fin (150000 # 1))) (CFloat (Fin (50 # 1))))
  = Ok [CFloat (Fin (Num.round2_even (Qred ((150000 # 1) / (50 # 1)))))]
  /\ (Num.round2_even (Qred ((150000 # 1) / (50 # 1)))
      == Num.round2_away ((150000 # 1) / (50 # 1)))%Q
  /\ ((150000 # 1) - (50 # 1) * (1 # 200)
      < Num.round2_even (Qred ((150000 # 1) / (50 # 1))) * (50 # 1)
      < (150000 # 1) + (50 # 1) * (1 # 200))%Q.
Proof.
  apply (valor_por_m2_in_process (150000 # 1) (50 # 1)).
  - reflexivity.
  - intros [k Hk]. unfold Qeq in Hk. cbn in Hk. lia.
Defined.

Lemma valor_por_m2_in_db_typed_row :
  (forall v a,
      t_valor_avaliacao typed_row_2023 = Some v ->
      t_area_construida typed_row_2023 = Some a ->
      (0 < a)%Q ->
      t_valor_por_m2 (Elt.derive_row "2023" typed_row_2023)
      = Some (Num.round2_away (v / a))
      /\ (v - a * (1 # 200) <= Num.round2_away (v / a) * a
          <= v + a * (1 # 200))%Q)
  /\ (Sql.gt0 (t_area_construida typed_row_2023) = false ->
      t_valor_por_m2 (Elt.derive_row "2023" typed_row_2023)
      = t_valor_por_m2 typed_row_2023).
Proof. apply (valor_por_m2_in_db "2023" typed_row_2023). reflexivity. Defined.

(** ** The complement in the database *)

(** X6.  In the database the complement is the trimmed text of the raw
    row; the placeholder is stored for a NULL only.  A complement loaded as
    the text ["nan"] stays ["nan"], and a blank one becomes the empty
    text. *)
Theorem complemento_in_db (id : Z) (timestamp : string) (r : raw_row) :
  t_complemento (Elt.transform_row id timestamp r)
  = match r_complemento r with
    | Some c => Some (Sqlite.trim c)
    | None => Some "Sem complemento"
    end.
Proof.
  cbn [Elt.transform_row t_complemento].
  destruct (r_complemento r) as [c|]; [|reflexivity].
  cbn [option_map Sql.nullif].
  destruct (String.eqb_spec (Sqlite.trim c) "") as [E|_]; [|reflexivity].
  rewrite E. reflexivity.
Qed.

(** ** Dates in both variants *)

Lemma days_in_month_le_31 (y m : Z) : Cal.days_in_month y m <= 31.
Proof.
  unfold Cal.days_in_month.
  destruct (m =? 2); [destruct (Cal.is_leap y); lia|].
  destruct (_ || _); lia.
Qed.

Lemma trimestre_is_quarter (m : Z) :
  1 <= m <= 12 ->
  Elt.trimestre_of (Some m) = Cal.quarter_of_month m
  /\ 1 <= Cal.quarter_of_month m <= 4.
Proof.
  intros H.
  assert (E : m = 1 \/ m = 2 \/ m = 3 \/ m = 4 \/ m = 5 \/ m = 6 \/ m = 7
              \/ m = 8 \/ m = 9 \/ m = 10 \/ m = 11 \/ m = 12) by lia.
  repeat (destruct E as [->|E]; [split; [reflexivity | cbv; split; discriminate]|]).
  subst. split; [reflexivity | cbv; split; discriminate].
Qed.

Lemma etl_parse_date_inv (s : string) (d : date) :
  Etl.parse_date s = Some d ->
  Cal.split_ymd s = Some (d_year d, d_month d, d_day d)
  /\ 1 <= d_month d <= 12
  /\ 1 <= d_day d <= Cal.days_in_month (d_year d) (d_month d).
Proof.
  unfold Etl.parse_date.
  destruct (Cal.split_ymd s) as [[[y m] dd]|]; [|discriminate].
  destruct (_ && _) eqn:E; [|discriminate].
  intros H. injection H as <-. cbn [d_year d_month d_day].
  rewrite !andb_true_iff, !Z.leb_le in E. intuition.
Qed.

Lemma in_zrange (lo : Z) (n : nat) (z : Z) :
  lo <= z < lo + Z.of_nat n -> In z (zrange lo n).
Proof.
  intros H. unfold zrange. apply in_map_iff.
  exists (Z.to_nat (z - lo)). split; [lia|]. apply in_seq. lia.
Qed.

(** Every date from 1678 to 2261, written as [YYYY-MM-DD], reads back as
    itself (checked date by date). *)
Lemma iso_round_trip_all :
  forallb (fun y =>
             forallb (fun m => forallb (iso_round_trip y m) (zrange 1 31))
                     (zrange 1 12))
          (zrange 1678 584)
  = true.
Proof. vm_compute. reflexivity. Qed.

Lemma split_ymd_iso (d : date) :
  calendar_date d ->
  Cal.split_ymd (Cal.iso d) = Some (d_year d, d_month d, d_day d).
Proof.
  intros (Hy & Hm & Hd). destruct d as [y m dd]. cbn [d_year d_month d_day] in *.
  pose proof (days_in_month_le_31 y m) as H31.
  pose proof iso_round_trip_all as H.
  assert (Iy : In y (zrange 1678 584)) by (apply in_zrange; lia).
  assert (Im : In m (zrange 1 12)) by (apply in_zrange; lia).
  assert (Id : In dd (zrange 1 31)) by (apply in_zrange; lia).
  rewrite forallb_forall in H. specialize (H y Iy).
  rewrite forallb_forall in H. specialize (H m Im).
  rewrite forallb_forall in H. specialize (H dd Id).
  unfold iso_round_trip in H.
  destruct (Cal.split_ymd (Cal.iso (mkDate y m dd))) as [[[y' m'] d']|];
    [|discriminate].
  rewrite !andb_true_iff, !Z.eqb_eq in H. destruct H as [[-> ->] ->].
  reflexivity.
Qed.

(** X7.  A transaction date written as [YYYY-MM-DD] (a calendar date
    between 1678 and 2261) is read as that date by both variants, and both
    derive the same year, month and quarter from it; the quarter lies
    between 1 and 4. *)
Theorem date_components_agree
        (d : date) (id : Z) (timestamp : string) (r : raw_row) :
  calendar_date d ->
  r_data_transacao r = Some (Cal.iso d) ->
  Etl.to_timestamp (CStr (Cal.iso d)) = Ok (CTime d)
  /\ t_data_transacao (Elt.transform_row id timestamp r) = Some (Cal.iso d)
  /\ t_ano_transacao (Elt.transform_row id timestamp r) = Some (d_year d)
  /\ t_mes_transacao (Elt.transform_row id timestamp r) = Some (d_month d)
  /\ t_trimestre (Elt.transform_row id timestamp r)
     = Some (Cal.quarter_of_month (d_month d))
  /\ Etl.dt_field d_year [CTime d] = Ok [CInt (d_year d)]
  /\ Etl.dt_field d_month [CTime d] = Ok [CInt (d_month d)]
  /\ Etl.dt_field (fun x => Cal.quarter_of_month (d_month x)) [CTime d]
     = Ok [CInt (Cal.quarter_of_month (d_month d))]
  /\ 1 <= Cal.quarter_of_month (d_month d) <= 4.
Proof.
  intros Hd Hr.
  pose proof (split_ymd_iso d Hd) as Hsplit.
  destruct Hd as (Hy & Hm & Hdd).
  pose proof (days_in_month_le_31 (d_year d) (d_month d)) as H31.
  assert (Hp : Etl.parse_date (Cal.iso d) = Some d).
  { unfold Etl.parse_date. rewrite Hsplit.
    replace ((1 <=? d_month d) && (d_month d <=? 12) && (1 <=? d_day d)
             && (d_day d <=? Cal.days_in_month (d_year d) (d_month d))
             && Etl.in_timestamp_range (d_year d) (d_month d) (d_day d))
      with true; [now destruct d|].
    symmetry. unfold Etl.in_timestamp_range.
    rewrite !andb_true_iff, !Z.leb_le. lia. }
  assert (Hsql : Sql.date_of (Some (Cal.iso d)) = Some d).
  { cbn [Sql.date_of]. unfold Sql.parse_date. rewrite Hsplit.
    replace ((1 <=? d_month d) && (d_month d <=? 12) && (1 <=? d_day d)
             && (d_day d <=? 31)) with true.
    - now destruct d.
    - symmetry. rewrite !andb_true_iff, !Z.leb_le. lia. }
  destruct (trimestre_is_quarter (d_month d) Hm) as [Hq Hrange].
  split.
  { unfold Etl.to_timestamp. now rewrite Hp. }
  cbn [Elt.transform_row t_data_transacao t_ano_transacao t_mes_transacao
         t_trimestre].
  rewrite Hr, Hsql. cbn [option_map]. rewrite Hq.
  repeat split; try reflexivity; apply Hrange.
Qed.

Lemma date_components_2023_06_15 :
  Etl.to_timestamp (CStr (Cal.iso (mkDate 2023 6 15)))
  = Ok (CTime (mkDate 2023 6 15))
  /\ t_data_transacao (Elt.transform_row 1 "now" (dated "2023-06-15"))
     = Some (Cal.iso (mkDate 2023 6 15))
  /\ t_ano_transacao (Elt.transform_row 1 "now" (dated "2023-06-15")) = Some 2023
  /\ t_mes_transacao (Elt.transform_row 1 "now" (dated "2023-06-15")) = Some 6
  /\ t_trimestre (Elt.transform_row 1 "now" (dated "2023-06-15"))
     = Some (Cal.quarter_of_month 6)
  /\ Etl.dt_field d_year [CTime (mkDate 2023 6 15)] = Ok [CInt 2023]
  /\ Etl.dt_field d_month [CTime (mkDate 2023 6 15)] = Ok [CInt 6]
  /\ Etl.dt_field (fun x => Cal.quarter_of_month (d_month x))
                  [CTime (mkDate 2023 6 15)]
     = Ok [CInt (Cal.quarter_of_month 6)]
  /\ 1 <= Cal.quarter_of_month 6 <= 4.
Proof.
  apply (date_components_agree (mkDate 2023 6 15) 1 "now" (dated "2023-06-15")).
  - unfold calendar_date. cbn. lia.
  - reflexivity.
Defined.

Lemma split_ymd_digit (s : string) (ymd : Z * Z * Z) :
  Cal.split_ymd s = Some ymd ->
  exists c rest, s = String c rest /\ Str.is_digit c = true.
Proof.
  unfold Cal.split_ymd. destruct s as [|y1 s]; [discriminate|].
  intros H. exists y1, s. split; [reflexivity|].
  repeat match type of H with
         | match ?x with _ => _ end = _ => destruct x eqn:?; try discriminate
         end.
  match goal with
  | E : Str.all_chars Str.is_digit (String y1 _) = true |- _ =>
      cbn [Str.all_chars] in E; apply andb_true_iff in E; apply E
  end.
Qed.

Lemma no_digit_no_date (s : string) :
  Str.all_chars (fun c => negb (Str.is_digit c)) s = true ->
  Sql.parse_date s = None.
Proof.
  intros H. unfold Sql.parse_date.
  destruct (Cal.split_ymd s) as [ymd|] eqn:E; [|reflexivity].
  apply split_ymd_digit in E as (c & rest & -> & Hc).
  cbn [Str.all_chars] in H. rewrite Hc in H. discriminate.
Qed.

(** X8.  A row that holds no transaction date (NULL, or a text without any
    digit other than the word [now], such as the ["nan"] a missing date is
    loaded as) is still stored: its date, year and month are NULL, and its
    quarter is 4, the ELSE branch of the CASE. *)
Theorem unreadable_date_in_db (id : Z) (timestamp : string) (r : raw_row) :
  without_date (r_data_transacao r) ->
  t_data_transacao (Elt.transform_row id timestamp r) = None
  /\ t_ano_transacao (Elt.transform_row id timestamp r) = None
  /\ t_mes_transacao (Elt.transform_row id timestamp r) = None
  /\ t_trimestre (Elt.transform_row id timestamp r) = Some 4.
Proof.
  intros H.
  assert (E : Sql.date_of (r_data_transacao r) = None).
  { destruct (r_data_transacao r) as [s|]; [|reflexivity].
    destruct H as [H _]. now apply no_digit_no_date. }
  cbn [Elt.transform_row t_data_transacao t_ano_transacao t_mes_transacao
         t_trimestre].
  rewrite E. repeat split.
Qed.

Lemma unreadable_date_nan :
  t_data_transacao (Elt.transform_row 1 "now" (dated "nan")) = None
  /\ t_ano_transacao (Elt.transform_row 1 "now" (dated "nan")) = None
  /\ t_mes_transacao (Elt.transform_row 1 "now" (dated "nan")) = None
  /\ t_trimestre (Elt.transform_row 1 "now" (dated "nan")) = Some 4.
Proof.
  apply (unreadable_date_in_db 1 "now" (dated "nan")).
  split; [reflexivity | discriminate].
Defined.

(** ** The derived columns in the database *)

Ltac unfold_updates :=
  unfold Elt.derive_row, Elt.update_periodo_construcao,
    Elt.update_categoria_area, Elt.update_faixa_valor,
    Elt.update_financiamento, Elt.update_idade, Elt.update_valor_m2.

Ltac project_row :=
  cbn [t_id t_valor_avaliacao t_valor_por_m2 t_bairro t_tipo_imovel t_data_transacao t_ano_transacao
       t_mes_transacao t_trimestre t_logradouro t_numero t_complemento t_cep t_area_terreno
       t_area_construida t_ano_construcao t_idade_imovel t_fracao_ideal t_valores_financiados_sfh t_tem_financiamento
       t_faixa_valor t_categoria_area t_periodo_construcao t_source_year t_transformation_timestamp t_pipeline_type
       set_valor_por_m2 set_idade_imovel set_tem_financiamento
       set_faixa_valor set_categoria_area set_periodo_construcao andb].

(** The six UPDATE statements on a row of the year. *)
Lemma derive_row_of_year (year : string) (t : t_row) :
  Sql.text_is (t_source_year t) year = true ->
  Elt.derive_row year t = derived t.
Proof.
  intros Hy. destruct t. cbn [t_source_year] in Hy. unfold derived.
  unfold_updates. project_row.
  destruct t_area_construida0 as [a|], t_ano_construcao0 as [y|];
    try (destruct (Sql.gt0 (Some a)));
    repeat (project_row; cbn [Sql.gt0]; rewrite ?Hy); reflexivity.
Qed.

(** ... and on a row of another year. *)
Lemma derive_row_other_year (year : string) (t : t_row) :
  Sql.text_is (t_source_year t) year = false ->
  Elt.derive_row year t = t.
Proof.
  intros Hy. destruct t. cbn [t_source_year] in Hy.
  unfold_updates. repeat (project_row; rewrite ?Hy). reflexivity.
Qed.

(** X9.  A measure that is missing in the source reaches the database as
    the text ["nan"], which CAST reads as zero: the built area becomes 0.0
    (no value per area, smallest area category), the construction year 0
    (age equal to the transaction year, oldest period) and the financed
    amount 0.0 (no financing). *)
Theorem nan_text_reads_as_zero
        (year timestamp : string) (id : Z) (r : raw_row) :
  Sql.text_is (r_source_year r) year = true ->
  (r_area_construida r = Some "nan" ->
   t_area_construida (Elt.derive_row year (Elt.transform_row id timestamp r))
   = Some (0 # 1)
   /\ t_valor_por_m2 (Elt.derive_row year (Elt.transform_row id timestamp r))
      = None
   /\ t_categoria_area (Elt.derive_row year (Elt.transform_row id timestamp r))
      = Some "Pequeno (até 50m²)")
  /\ (r_ano_construcao r = Some "nan" ->
      t_ano_construcao (Elt.derive_row year (Elt.transform_row id timestamp r))
      = Some 0
      /\ t_idade_imovel (Elt.derive_row year (Elt.transform_row id timestamp r))
         = t_ano_transacao (Elt.transform_row id timestamp r)
      /\ t_periodo_construcao
           (Elt.derive_row year (Elt.transform_row id timestamp r))
         = Some "Antes de 1980")
  /\ (r_valores_financiados_sfh r = Some "nan" ->
      t_valores_financiados_sfh
        (Elt.derive_row year (Elt.transform_row id timestamp r))
      = Some (0 # 1)
      /\ t_tem_financiamento
           (Elt.derive_row year (Elt.transform_row id timestamp r))
         = Some 0).
Proof.
  intros Hy. rewrite derive_row_of_year by exact Hy.
  unfold derived.
  cbn [t_area_construida t_valor_por_m2 t_categoria_area t_ano_construcao
         t_idade_imovel t_periodo_construcao t_valores_financiados_sfh
         t_tem_financiamento t_ano_transacao t_valor_avaliacao
         Elt.transform_row].
  split; [|split]; intros ->.
  - repeat split.
  - cbn [option_map]. change (Sqlite.cast_integer "nan") with 0.
    repeat split.
    destruct (option_map d_year (Sql.date_of (r_data_transacao r))) as [y|];
      [|reflexivity].
    cbn. now rewrite Z.sub_0_r.
  - repeat split.
Qed.

Lemma nan_text_reads_as_zero_row :
  (r_area_construida missing_measures = Some "nan" ->
   t_area_construida (Elt.derive_row "2023" (Elt.transform_row 1 "now" missing_measures))
   = Some (0 # 1)
   /\ t_valor_por_m2 (Elt.derive_row "2023" (Elt.transform_row 1 "now" missing_measures))
      = None
   /\ t_categoria_area (Elt.derive_row "2023" (Elt.transform_row 1 "now" missing_measures))
      = Some "Pequeno (até 50m²)")
  /\ (r_ano_construcao missing_measures = Some "nan" ->
      t_ano_construcao (Elt.derive_row "2023" (Elt.transform_row 1 "now" missing_measures))
      = Some 0
      /\ t_idade_imovel (Elt.derive_row "2023" (Elt.transform_row 1 "now" missing_measures))
         = t_ano_transacao (Elt.transform_row 1 "now" missing_measures)
      /\ t_periodo_construcao
           (Elt.derive_row "2023" (Elt.transform_row 1 "now" missing_measures))
         = Some "Antes de 1980")
  /\ (r_valores_financiados_sfh missing_measures = Some "nan" ->
      t_valores_financiados_sfh
        (Elt.derive_row "2023" (Elt.transform_row 1 "now" missing_measures))
      = Some (0 # 1)
      /\ t_tem_financiamento
           (Elt.derive_row "2023" (Elt.transform_row 1 "now" missing_measures))
         = Some 0).
Proof.
  apply (nan_text_reads_as_zero "2023" "now" 1 missing_measures). reflexivity.
Defined.

(** X10.  The construction period follows the five ranges of the CASE,
    which cover every construction year and do not overlap; a row without
    construction year is not touched by the UPDATE. *)
Theorem periodo_construcao_ranges (z : Z) :
  (Elt.periodo_construcao_case (Some z) = "Antes de 1980" <-> z < 1980)
  /\ (Elt.periodo_construcao_case (Some z) = "1980-1999"
      <-> 1980 <= z <= 1999)
  /\ (Elt.periodo_construcao_case (Some z) = "2000-2009"
      <-> 2000 <= z <= 2009)
  /\ (Elt.periodo_construcao_case (Some z) = "2010-2019"
      <-> 2010 <= z <= 2019)
  /\ (Elt.periodo_construcao_case (Some z) = "2020 ou posterior"
      <-> 2020 <= z)
  /\ (forall year t,
         t_ano_construcao t = None ->
         Elt.update_periodo_construcao year t = t).
Proof.
  unfold Elt.periodo_construcao_case, Sql.lt_int, Sql.between.
  destruct (Z.ltb_spec z 1980);
    destruct (Z.leb_spec 1980 z); destruct (Z.leb_spec z 1999);
    destruct (Z.leb_spec 2000 z); destruct (Z.leb_spec z 2009);
    destruct (Z.leb_spec 2010 z); destruct (Z.leb_spec z 2019);
    cbn [andb]; try lia;
    (repeat split; intros; try discriminate; try lia; try reflexivity;
     try (unfold Elt.update_periodo_construcao;
          match goal with H : t_ano_construcao _ = None |- _ => rewrite H end;
          now rewrite andb_false_r)).
Qed.

(** X11.  The area category follows the three thresholds of the CASE
    (50, 100 and 200 square metres), whose four bands cover every built
    area and do not overlap; a row without built area is not touched by the
    UPDATE. *)
Theorem categoria_area_thresholds (a : Q) :
  (Elt.categoria_area_case (Some a) = "Pequeno (até 50m²)"
     <-> (a <= 50 # 1)%Q)
  /\ (Elt.categoria_area_case (Some a) = "Médio (50-100m²)"
      <-> (50 # 1 < a)%Q /\ (a <= 100 # 1)%Q)
  /\ (Elt.categoria_area_case (Some a) = "Grande (100-200m²)"
      <-> (100 # 1 < a)%Q /\ (a <= 200 # 1)%Q)
  /\ (Elt.categoria_area_case (Some a) = "Extra Grande (acima 200m²)"
      <-> (200 # 1 < a)%Q)
  /\ (forall year t,
         t_area_construida t = None ->
         Elt.update_categoria_area year t = t).
Proof.
  unfold Elt.categoria_area_case, Sql.le.
  destruct (qle_spec a (50 # 1)) as [H1|H1];
    [|destruct (qle_spec a (100 # 1)) as [H2|H2];
      [|destruct (qle_spec a (200 # 1)) as [H3|H3]]];
    (repeat split; intros; try discriminate; try (exfalso; lra); try lra;
     try reflexivity;
     try (unfold Elt.update_categoria_area;
          match goal with H : t_area_construida _ = None |- _ => rewrite H end;
          now rewrite andb_false_r)).
Qed.

(** ** Repair of the text encoding *)

Section Encoding.

Import Str.

Lemma decode_mojibake (t : string) :
  Utf8.decode (mojibake t) = Some (map code (list_ascii_of_string t)).
Proof.
  induction t as [|b t IH]; [reflexivity|].
  cbn [mojibake list_ascii_of_string map].
  destruct b as [[] [] [] [] [] [] [] []];
    cbn -[Utf8.decode mojibake]; cbn [Utf8.decode]; cbn -[Utf8.decode mojibake];
    rewrite IH; reflexivity.
Qed.

Lemma encode_latin1_bytes (t : string) :
  Utf8.encode_latin1 (map code (list_ascii_of_string t)) = Some t.
Proof.
  induction t as [|b t IH]; [reflexivity|].
  cbn [list_ascii_of_string map Utf8.encode_latin1]. rewrite IH.
  unfold code. rewrite ascii_N_embedding.
  pose proof (N_ascii_bounded b) as Hb.
  destruct (N.leb_spec (N_of_ascii b) 255); [reflexivity | lia].
Qed.

Lemma fix_encoding_text_mojibake (t : string) :
  Utf8.decode t <> None -> Etl.fix_encoding_text (mojibake t) = t.
Proof.
  intros Hvalid. unfold Etl.fix_encoding_text.
  rewrite decode_mojibake, encode_latin1_bytes.
  destruct (Utf8.decode t); [reflexivity | contradiction].
Qed.

(** X12.  [fix_encoding] undoes the double encoding: a text whose UTF-8
    bytes were read as Latin-1 comes back as the original text. *)
Theorem fix_encoding_repairs_mojibake (t : string) :
  Utf8.decode t <> None ->
  Etl.fix_encoding (CStr (mojibake t)) = CStr t.
Proof.
  intros Hvalid. cbn [Etl.fix_encoding].
  now rewrite fix_encoding_text_mojibake.
Qed.

Lemma fix_encoding_repairs_varzea :
  Etl.fix_encoding (CStr (mojibake "Várzea")) = CStr "Várzea".
Proof. apply (fix_encoding_repairs_mojibake "Várzea"). discriminate. Defined.

Lemma ascii_valid (t : string) :
  all_chars is_ascii t = true ->
  mojibake t = t /\ Utf8.decode t <> None.
Proof.
  induction t as [|b t IH]; cbn [all_chars]; [split; [reflexivity | discriminate]|].
  rewrite andb_true_iff. unfold is_ascii at 1. intros [Hb Ht].
  destruct (IH Ht) as [IH1 IH2]. split.
  - cbn [mojibake]. now rewrite Hb, IH1.
  - cbn [Utf8.decode]. rewrite Hb. destruct (Utf8.decode t); [discriminate | contradiction].
Qed.

(** X13.  [fix_encoding] leaves a text of ASCII characters, and every
    cell that is not a text, as it is. *)
Theorem fix_encoding_ascii (t : string) :
  all_chars is_ascii t = true ->
  Etl.fix_encoding (CStr t) = CStr t
  /\ forall c, (forall s, c <> CStr s) -> Etl.fix_encoding c = c.
Proof.
  intros H. destruct (ascii_valid t H) as [Hm Hv]. split.
  - cbn [Etl.fix_encoding]. rewrite <- Hm at 1.
    now rewrite fix_encoding_text_mojibake.
  - intros c Hc. destruct c; try reflexivity. now elim (Hc s).
Qed.

Lemma fix_encoding_boa_viagem :
  Etl.fix_encoding (CStr "Boa Viagem") = CStr "Boa Viagem"
  /\ forall c, (forall s, c <> CStr s) -> Etl.fix_encoding c = c.
Proof. apply (fix_encoding_ascii "Boa Viagem"). reflexivity. Defined.

End Encoding.

(** ** Re-running the in-database steps *)

Section Rerun.

Lemma content_transform_row (id id' : Z) (ts ts' : string) (r : raw_row) :
  content (Elt.transform_row id ts r) = content (Elt.transform_row id' ts' r).
Proof. reflexivity. Qed.

Lemma content_number_from (ts ts' : string) (rs : list raw_row) :
  forall seq seq',
    map content (Elt.number_from ts seq rs)
    = map content (Elt.number_from ts' seq' rs).
Proof.
  induction rs as [|r rs IH]; intros seq seq'; [reflexivity|].
  cbn [Elt.number_from map].
  now rewrite (IH (seq + 1) (seq' + 1)),
    (content_transform_row (seq + 1) (seq' + 1) ts ts' r).
Qed.

Lemma derive_row_source_year (year : string) (t : t_row) :
  t_source_year (Elt.derive_row year t) = t_source_year t.
Proof.
  destruct (Sql.text_is (t_source_year t) year) eqn:E.
  - now rewrite derive_row_of_year.
  - now rewrite derive_row_other_year.
Qed.

Lemma derive_other_years (year : string) (table : list t_row) :
  filter (fun t => negb (Sql.text_is (t_source_year t) year))
         (map (Elt.derive_row year) table)
  = filter (fun t => negb (Sql.text_is (t_source_year t) year)) table.
Proof.
  induction table as [|t table IH]; [reflexivity|].
  cbn [map filter]. rewrite derive_row_source_year, IH.
  destruct (Sql.text_is (t_source_year t) year) eqn:E; cbn [negb];
    [reflexivity | now rewrite derive_row_other_year].
Qed.

Lemma selected_rows (year : string) (raw : list raw_row) :
  Forall (fun r => Elt.selected year r = true) (filter (Elt.selected year) raw).
Proof. apply Forall_forall. intros r Hr. now apply filter_In in Hr. Qed.

Lemma numbered_other_years (year ts : string) (seq : Z) (raw : list raw_row) :
  filter (fun t => negb (Sql.text_is (t_source_year t) year))
         (Elt.number_from ts seq (filter (Elt.selected year) raw)) = [].
Proof.
  pose proof (number_from_year year ts seq _ (selected_rows year raw)) as H.
  revert H. generalize (Elt.number_from ts seq (filter (Elt.selected year) raw)).
  intros l. induction l as [|t l IH]; [reflexivity|].
  cbn [filter]. destruct (Sql.text_is (t_source_year t) year) eqn:E; cbn [negb].
  - intros H. injection H as H. auto.
  - intros H. exfalso.
    assert (Hin : In t (filter (fun t => Sql.text_is (t_source_year t) year) l))
      by (rewrite H; now left).
    apply filter_In in Hin as [_ Ht]. congruence.
Qed.

(** X14.  [transform_data_types_in_db] rebuilds the year from the raw rows:
    run again, even after the derived metrics were computed, it leaves for
    that year the same typed rows as the first run (with new ids and
    timestamps, and the derived columns NULL again), it returns the same
    count, and it leaves the rows of the other years and the raw table as
    they were. *)
Theorem transform_data_types_rebuilds_year (year ts ts' : string) (d : db) :
  let d1 := fst (Elt.transform_data_types_in_db year ts d) in
  let d2 := fst (Elt.create_derived_metrics_in_db year d1) in
  let d3 := fst (Elt.transform_data_types_in_db year ts' d2) in
  map content (filter (fun t => Sql.text_is (t_source_year t) year)
                      (itbi_transformed d3))
  = map content (filter (fun t => Sql.text_is (t_source_year t) year)
                        (itbi_transformed d1))
  /\ filter (fun t => negb (Sql.text_is (t_source_year t) year))
            (itbi_transformed d3)
     = filter (fun t => negb (Sql.text_is (t_source_year t) year))
              (itbi_transformed d)
  /\ snd (Elt.transform_data_types_in_db year ts' d2)
     = snd (Elt.transform_data_types_in_db year ts d)
  /\ itbi_raw d3 = itbi_raw d.
Proof.
  cbn [Elt.transform_data_types_in_db Elt.create_derived_metrics_in_db
         fst snd itbi_raw itbi_transformed transformed_seq].
  rewrite derive_other_years, (filter_app _ (filter _ (itbi_transformed d))).
  rewrite numbered_other_years, app_nil_r, filter_filter_negb.
  repeat split.
  - rewrite !filter_app, !filter_negb_none.
    rewrite !number_from_year by apply selected_rows.
    cbn [app]. apply content_number_from.
  - rewrite filter_app, numbered_other_years, app_nil_r.
    apply filter_filter_negb.
Qed.

(** X15.  [create_derived_metrics_in_db] is idempotent and local to the
    year: a second run changes nothing, the rows of the other years are
    left as they were, no row is added or removed, and the count it returns
    is the number of rows of the year. *)
Theorem create_derived_metrics_idempotent (year : string) (d : db) :
  let d1 := fst (Elt.create_derived_metrics_in_db year d) in
  itbi_transformed (fst (Elt.create_derived_metrics_in_db year d1))
  = itbi_transformed d1
  /\ filter (fun t => negb (Sql.text_is (t_source_year t) year))
            (itbi_transformed d1)
     = filter (fun t => negb (Sql.text_is (t_source_year t) year))
              (itbi_transformed d)
  /\ map t_id (itbi_transformed d1) = map t_id (itbi_transformed d)
  /\ snd (Elt.create_derived_metrics_in_db year d)
     = List.length (filter (fun t => Sql.text_is (t_source_year t) year)
                           (itbi_transformed d))
  /\ itbi_raw d1 = itbi_raw d.
Proof.
  cbn [Elt.create_derived_metrics_in_db fst snd itbi_raw itbi_transformed].
  repeat split.
  - rewrite map_map. apply map_ext. intros t.
    destruct (Sql.text_is (t_source_year t) year) eqn:E.
    + rewrite (derive_row_of_year year t E).
      rewrite derive_row_of_year by exact E.
      unfold derived. project_row.
      destruct (t_area_construida t) as [a|], (t_ano_construcao t);
        try destruct (Sql.gt0 (Some a)); reflexivity.
    + now rewrite !derive_row_other_year by (rewrite ?derive_row_other_year; assumption).
  - apply derive_other_years.
  - rewrite map_map. apply map_ext. intros t.
    destruct (Sql.text_is (t_source_year t) year) eqn:E.
    + now rewrite derive_row_of_year by assumption.
    + now rewrite derive_row_other_year.
  - induction (itbi_transformed d) as [|t l IH]; [reflexivity|].
    cbn [map filter]. rewrite derive_row_source_year.
    destruct (Sql.text_is (t_source_year t) year); cbn [List.length];
      now rewrite IH.
Qed.

End Rerun.

(** ** Failures and invariants of the raw load *)

Section RawLoadEdges.

Variable limit : nat.

Lemma unknown_not_raw (c : string) :
  ~ In (Str.lower c) itbi_raw_schema -> ~ In c Elt.raw_columns.
Proof.
  intros Hnot Hin. apply Hnot. cbn in Hin.
  repeat (destruct Hin as [<-|Hin]; [vm_compute; tauto|]). contradiction.
Qed.

Lemma find_first_unknown (df : frame) (c : string) :
  first_unknown_column df c ->
  find (fun k => negb (existsb (String.eqb k) Elt.raw_columns)) (columns df)
  = Some c.
Proof.
  intros (known & rest & -> & Hk & Hc & _). apply unknown_not_raw in Hc.
  induction Hk as [|k known Hin _ IH]; cbn [app find].
  - replace (existsb (String.eqb c) Elt.raw_columns) with false; [reflexivity|].
    symmetry. apply not_true_is_false. intros H. apply Hc. now apply in_eqb.
  - replace (existsb (String.eqb k) Elt.raw_columns) with true; [exact IH|].
    symmetry. now apply in_eqb.
Qed.

(** X16.  A dataset with at least one row and a column that [itbi_raw]
    lacks (such as [sfh] or [cidade]) cannot be loaded: [load_raw_dataset]
    raises the OperationalError that names the first such column, or "too
    many SQL variables" when the frame has more cells than one statement
    may bind; the message is recorded with zero records in
    [load_metadata], no row of the dataset is stored and
    [itbi_transformed] is left alone. *)
Theorem load_raw_unknown_column
        (df : frame) (year ts : string) (d : db) (c : string) :
  rows df <> [] ->
  first_unknown_column df c ->
  let message :=
    if (limit <? Frame.nrows df * List.length (columns df))%nat
    then "too many SQL variables"
    else "table itbi_raw has no column named " ++ c in
  snd (Elt.load_raw_dataset limit df year ts d)
  = Raise (OperationalError message)
  /\ load_metadata (fst (Elt.load_raw_dataset limit df year ts d))
     = (load_metadata d
        ++ [mkLoadMeta year 0 (Elt.file_source year) "ELT" "error"
              (Some message)])%list
  /\ (forall r, In r (itbi_raw (fst (Elt.load_raw_dataset limit df year ts d)))
                -> In r (itbi_raw d))
  /\ itbi_transformed (fst (Elt.load_raw_dataset limit df year ts d))
     = itbi_transformed d.
Proof.
  intros Hrows Hc message.
  assert (E : forall table seq,
             Elt.to_sql_raw limit (Elt.stringify df) ts table seq
             = Raise (OperationalError message)).
  { intros table seq. unfold Elt.to_sql_raw, Frame.nrows.
    cbn [Elt.stringify rows columns]. rewrite length_map.
    destruct (rows df) as [|r rs] eqn:Er; [congruence|]. cbn [map].
    subst message. unfold Frame.nrows. rewrite Er.
    destruct (_ <? _)%nat; [reflexivity|].
    now rewrite (find_first_unknown df c Hc). }
  unfold Elt.load_raw_dataset. rewrite E. cbn [fst snd load_metadata itbi_raw
                                                 itbi_transformed exn_message].
  repeat split. auto.
Qed.

Lemma key_eqb_eq (a b : string * string * string * string) :
  Elt.key_eqb a b = true <-> a = b.
Proof.
  destruct a as [[[a1 a2] a3] a4], b as [[[b1 b2] b3] b4]. cbn.
  rewrite !andb_true_iff, !String.eqb_eq. split.
  - intros [[[-> ->] ->] ->]. reflexivity.
  - intros H. injection H as -> -> -> ->. auto.
Qed.

Lemma keys_of_app (t1 t2 : list raw_row) :
  keys_of (t1 ++ t2) = (keys_of t1 ++ keys_of t2)%list.
Proof. apply flat_map_app. Qed.

Lemma no_conflict (table : list raw_row) (r : raw_row)
      (k : string * string * string * string) :
  Elt.conflicts table r = false -> Elt.unique_key r = Some k ->
  ~ In k (keys_of table).
Proof.
  unfold Elt.conflicts. intros Hc Hk. rewrite Hk in Hc.
  induction table as [|a table IH]; [auto|].
  cbn [existsb] in Hc. apply orb_false_iff in Hc as [Ha Ht].
  unfold keys_of. cbn [flat_map]. fold (keys_of table).
  intros Hin. apply in_app_or in Hin as [Hin|Hin]; [|now apply IH].
  destruct (Elt.unique_key a) as [k'|]; [|contradiction].
  destruct Hin as [<-|[]].
  assert (Elt.key_eqb k' k' = true) by now apply key_eqb_eq.
  congruence.
Qed.

Lemma insert_rows_unique (cols : list string) (ts : string)
      (new : list (list cell)) :
  forall table seq table' seq',
    Elt.insert_rows cols ts table seq new = Ok (table', seq') ->
    unique_record table -> unique_record table'.
Proof.
  induction new as [|r new IH]; intros table seq table' seq' H Hu.
  - cbn in H. now injection H as <- _.
  - cbn [Elt.insert_rows] in H.
    destruct (Elt.conflicts table (Elt.raw_of_row cols (seq + 1) ts r)) eqn:Ec;
      [discriminate|].
    apply IH in H; [assumption|].
    unfold unique_record. rewrite keys_of_app.
    unfold keys_of at 2. cbn [flat_map]. rewrite app_nil_r.
    destruct (Elt.unique_key (Elt.raw_of_row cols (seq + 1) ts r)) as [k|] eqn:Ek.
    + apply NoDup_app; [assumption | repeat constructor; auto |].
      intros a Ha [E|[]]. subst a. exact (no_conflict _ _ k Ec Ek Ha).
    + now rewrite app_nil_r.
Qed.

Lemma filter_unique (p : raw_row -> bool) (table : list raw_row) :
  unique_record table -> unique_record (filter p table).
Proof.
  unfold unique_record.
  assert (sub : forall l k, In k (keys_of (filter p l)) -> In k (keys_of l)).
  { induction l as [|a l IH]; intros k Hk; [assumption|].
    unfold keys_of. cbn [flat_map]. fold (keys_of l). apply in_or_app.
    cbn [filter] in Hk. destruct (p a); [|right; auto].
    unfold keys_of in Hk. cbn [flat_map] in Hk. fold (keys_of (filter p l)) in Hk.
    apply in_app_or in Hk as [Hk|Hk]; [now left | right; auto]. }
  induction table as [|a table IH]; intros Hu; [assumption|].
  unfold keys_of in Hu. cbn [flat_map] in Hu. fold (keys_of table) in Hu.
  cbn [filter]. destruct (p a).
  - unfold keys_of. cbn [flat_map]. fold (keys_of (filter p table)).
    destruct (Elt.unique_key a) as [k|]; cbn [app] in *; [|auto].
    inversion Hu as [|? ? Hk Hu']; subst. constructor; auto.
  - apply IH. destruct (Elt.unique_key a); cbn [app] in Hu; [|assumption].
    now inversion Hu.
Qed.

(** X17.  The UNIQUE constraint of [itbi_raw] is an invariant of the raw
    load: whether the load succeeds or raises, no two rows of the table
    share the key (valor_avaliacao, bairro, data_transacao,
    source_year). *)
Theorem load_raw_keeps_unique_record
        (df : frame) (year ts : string) (d : db) :
  unique_record (itbi_raw d) ->
  unique_record (itbi_raw (fst (Elt.load_raw_dataset limit df year ts d))).
Proof.
  intros Hu. unfold Elt.load_raw_dataset. rewrite table_after_delete.
  destruct (Elt.to_sql_raw limit (Elt.stringify df) ts _ (raw_seq d))
    as [[table' seq']|e] eqn:E; cbn [fst itbi_raw]; [|assumption].
  revert E. unfold Elt.to_sql_raw.
  destruct (rows (Elt.stringify df)) as [|r rs].
  - intros H. injection H as <- _. now apply filter_unique.
  - destruct (_ <? _)%nat; [discriminate|].
    destruct (find _ _); [discriminate|].
    intros H. eapply insert_rows_unique; [exact H|]. now apply filter_unique.
Qed.

End RawLoadEdges.

Lemma load_raw_unknown_column_sfh :
  snd (Elt.load_raw_dataset 999 example_row "2023" "now" empty_db)
  = Raise (OperationalError "table itbi_raw has no column named sfh")
  /\ load_metadata (fst (Elt.load_raw_dataset 999 example_row "2023" "now" empty_db))
     = (load_metadata empty_db
        ++ [mkLoadMeta "2023" 0 (Elt.file_source "2023") "ELT" "error"
              (Some "table itbi_raw has no column named sfh")])%list
  /\ (forall r,
         In r (itbi_raw (fst (Elt.load_raw_dataset 999 example_row "2023" "now" empty_db)))
         -> In r (itbi_raw empty_db))
  /\ itbi_transformed (fst (Elt.load_raw_dataset 999 example_row "2023" "now" empty_db))
     = itbi_transformed empty_db.
Proof.
  apply (load_raw_unknown_column 999 example_row "2023" "now" empty_db "sfh").
  - discriminate.
  - exists ["valor_avaliacao"; "area_construida"; "ano_construcao";
            "data_transacao"], [].
    split; [reflexivity|]. split; [|split].
    + repeat constructor; cbn; tauto.
    + vm_compute. intuition discriminate.
    + repeat constructor. discriminate.
Defined.

Lemma load_raw_keeps_unique_record_two_rows :
  unique_record
    (itbi_raw (fst (Elt.load_raw_dataset 999 two_rows "2023" "later"
                      (fst (Elt.load_raw_dataset 999 two_rows "2023" "now" empty_db))))).
Proof.
  apply (load_raw_keeps_unique_record 999 two_rows "2023" "later").
  vm_compute. repeat constructor; cbn; intuition discriminate.
Defined.

(** X18.  The rows of a year in [itbi_raw] are either counted as missing
    by the view [v_data_quality] or transformed: the count of the year is
    the missing count plus the number of rows the transform reports. *)
Theorem missing_or_transformed (year ts : string) (d : db) :
  List.length (rows_of_year year d)
  = (Elt.missing_valor year d
     + snd (Elt.transform_data_types_in_db year ts d))%nat.
Proof.
  unfold rows_of_year, Elt.missing_valor, of_year.
  cbn [Elt.transform_data_types_in_db snd].
  induction (itbi_raw d) as [|r l IH]; [reflexivity|].
  cbn [filter]. rewrite selected_not_missing.
  destruct (Sql.text_is (r_source_year r) year),
    (Elt.is_missing (r_valor_avaliacao r)); cbn [andb negb List.length];
    rewrite IH; lia.
Qed.

(** ** What the extractors hand over *)

Section AssignScalar.

Import Frame.

Lemma map_combine_repeat {A B C : Type} (f : A * B -> C) (l : list A) (v : B) :
  map f (combine l (repeat v (List.length l))) = map (fun r => f (r, v)) l.
Proof. induction l as [|a l IH]; cbn; [reflexivity | now rewrite IH]. Qed.

Lemma assign_scalar_rows (df : frame) (name : string) (v : cell) :
  rows (assign_scalar df name v)
  = map (fun r => if has_column df name
                  then apply_col (fun _ => v) name (columns df) r
                  else (r ++ [v])%list) (rows df).
Proof.
  unfold assign_scalar, assign, nrows.
  destruct (has_column df name); cbn [rows]; now rewrite map_combine_repeat.
Qed.

Lemma assign_scalar_columns (df : frame) (name : string) (v : cell) :
  columns (assign_scalar df name v)
  = if has_column df name then columns df else (columns df ++ [name])%list.
Proof. unfold assign_scalar, assign. now destruct (has_column df name). Qed.

Lemma cell_at_apply_col (n : string) (f : cell -> cell) (name : string)
      (cols : list string) :
  forall r,
    cell_at n cols (apply_col f name cols r)
    = option_map (fun x => if String.eqb n name then f x else x)
                 (cell_at n cols r).
Proof.
  induction cols as [|c cols IH]; intros [|x r]; try reflexivity.
  cbn [apply_col cell_at].
  destruct (String.eqb_spec c n) as [->|_]; [reflexivity | apply IH].
Qed.

Lemma cell_at_snoc (n name : string) (v : cell) (cols : list string) :
  forall r,
    List.length r = List.length cols ->
    cell_at n (cols ++ [name]) (r ++ [v])
    = match cell_at n cols r with
      | Some x => Some x
      | None => if String.eqb name n then Some v else None
      end.
Proof.
  induction cols as [|c cols IH]; intros [|x r] Hl; try discriminate.
  - reflexivity.
  - cbn [app cell_at]. destruct (String.eqb c n); [reflexivity|].
    apply IH. now injection Hl.
Qed.

Lemma assign_scalar_aligned (df : frame) (name : string) (v : cell) :
  aligned df -> aligned (assign_scalar df name v).
Proof.
  unfold aligned. rewrite assign_scalar_rows, assign_scalar_columns, Forall_map.
  apply Forall_impl. intros r Hr.
  destruct (has_column df name).
  - now rewrite apply_col_length.
  - rewrite !length_app. cbn. lia.
Qed.

Lemma assign_scalar_sets (df : frame) (name : string) (v : cell) :
  aligned df -> has_value name v (assign_scalar df name v).
Proof.
  unfold aligned, has_value.
  rewrite assign_scalar_rows, assign_scalar_columns, Forall_map.
  apply Forall_impl. intros r Hr.
  destruct (has_column df name) eqn:E.
  - rewrite cell_at_apply_col, String.eqb_refl.
    apply in_eqb in E. destruct (cell_at_some name _ r Hr E) as (x & ->).
    reflexivity.
  - rewrite cell_at_snoc by assumption.
    rewrite cell_at_none, String.eqb_refl; [reflexivity|].
    intros Hin. apply in_eqb in Hin. unfold has_column in E. congruence.
Qed.

Lemma assign_scalar_keeps (df : frame) (name name' : string) (v v' : cell) :
  name' <> name -> aligned df ->
  has_value name' v' df -> has_value name' v' (assign_scalar df name v).
Proof.
  unfold aligned, has_value. intros Hne Ha Hv.
  rewrite assign_scalar_rows, assign_scalar_columns, Forall_map.
  rewrite Forall_forall in *. intros r Hr.
  specialize (Ha r Hr). specialize (Hv r Hr).
  destruct (has_column df name).
  - rewrite cell_at_apply_col, Hv. cbn.
    destruct (String.eqb_spec name' name); [congruence | reflexivity].
  - now rewrite cell_at_snoc, Hv by assumption.
Qed.

End AssignScalar.

Section LoopInvariant.

Variable try : string -> string -> result frame.
Variable step : extract_state -> string * string -> extract_state.
Variable good : string -> frame -> Prop.

Hypothesis step_dict : forall st year url,
  datasets_dict (step st (year, url))
  = match try year url with
    | Ok df => Dict.set (datasets_dict st) year df
    | Raise _ => datasets_dict st
    end.

Hypothesis try_good : forall year url df, try year url = Ok df -> good year df.

Lemma set_good (d : datasets) (k : string) (v : frame) :
  Forall (fun p => good (fst p) (snd p)) d -> good k v ->
  Forall (fun p => good (fst p) (snd p)) (Dict.set d k v).
Proof.
  intros Hd Hv. induction d as [|[k' v'] d IH]; cbn [Dict.set].
  - repeat constructor. exact Hv.
  - inversion Hd as [|? ? Hp Hd']; subst.
    destruct (String.eqb k' k); constructor; auto.
Qed.

Lemma loop_good (l : list (string * string)) :
  forall st,
    Forall (fun p => good (fst p) (snd p)) (datasets_dict st) ->
    Forall (fun p => good (fst p) (snd p)) (datasets_dict (fold_left step l st)).
Proof.
  induction l as [|[y u] l IH]; intros st H; cbn [fold_left]; [assumption|].
  apply IH. rewrite step_dict.
  destruct (try y u) as [df|e] eqn:E; [|assumption].
  apply set_good; eauto.
Qed.

End LoopInvariant.

Section ExtractedFrames.

Variable read_csv : string -> result frame.
Variable now : cell.

Lemma try_extract_elt_inv (year url : string) (df : frame) :
  try_extract_elt read_csv now year url = Ok df ->
  exists df0,
    read_csv url = Ok df0
    /\ df = Frame.assign_scalar
              (Frame.assign_scalar
                 (Frame.assign_scalar df0 "source_year" (CStr year))
                 "extraction_timestamp" now)
              "pipeline_type" (CStr "ELT")
    /\ Frame.empty df = false.
Proof.
  unfold try_extract_elt. destruct (read_csv url) as [df0|e]; [|discriminate].
  cbn [bind]. destruct (Frame.empty _) eqn:E; [discriminate|].
  intros H. injection H as <-. eauto.
Qed.

Lemma try_extract_etl_inv (year url : string) (df : frame) :
  try_extract_etl read_csv now year url = Ok df ->
  exists df0,
    read_csv url = Ok df0
    /\ df = Frame.assign_scalar
              (Frame.assign_scalar
                 (Frame.assign_scalar df0 "source_year" (CStr year))
                 "extraction_date" now)
              "source_url" (CStr url)
    /\ Frame.empty df = false
    /\ (20 <= List.length (columns df))%nat.
Proof.
  unfold try_extract_etl. destruct (read_csv url) as [df0|e]; [|discriminate].
  cbn [bind]. destruct (Frame.empty _) eqn:E; [discriminate|].
  destruct (Nat.ltb_spec (List.length (columns
     (Frame.assign_scalar
        (Frame.assign_scalar
           (Frame.assign_scalar df0 "source_year" (CStr year))
           "extraction_date" now) "source_url" (CStr url)))) 20) as [|Hn];
    [discriminate|].
  intros H. injection H as <-. eauto 6.
Qed.

Hypothesis read_csv_aligned : forall url df, read_csv url = Ok df -> aligned df.

Lemma try_extract_elt_good (year url : string) (df : frame) :
  try_extract_elt read_csv now year url = Ok df ->
  Frame.empty df = false /\ tagged year df
  /\ has_value "pipeline_type" (CStr "ELT") df.
Proof.
  intros H. apply try_extract_elt_inv in H as (df0 & Hr & -> & He).
  apply read_csv_aligned in Hr.
  split; [assumption|]. split.
  - apply assign_scalar_keeps; [discriminate | auto using assign_scalar_aligned |].
    apply assign_scalar_keeps; [discriminate | auto using assign_scalar_aligned |].
    now apply assign_scalar_sets.
  - apply assign_scalar_sets. auto using assign_scalar_aligned.
Qed.

Lemma try_extract_etl_good (year url : string) (df : frame) :
  try_extract_etl read_csv now year url = Ok df ->
  Frame.empty df = false /\ (20 <= List.length (columns df))%nat
  /\ tagged year df.
Proof.
  intros H. apply try_extract_etl_inv in H as (df0 & Hr & -> & He & Hn).
  apply read_csv_aligned in Hr.
  split; [assumption|]. split; [assumption|].
  apply assign_scalar_keeps; [discriminate | auto using assign_scalar_aligned |].
  apply assign_scalar_keeps; [discriminate | auto using assign_scalar_aligned |].
  now apply assign_scalar_sets.
Qed.

End ExtractedFrames.

(** X19.  When the source delivers frames with one cell per column, every
    frame the ELT extractor returns is non-empty, carries its year in
    [source_year] in every row and ["ELT"] in [pipeline_type]; every frame
    the ETL extractor returns is non-empty, has at least twenty columns
    and carries its year in [source_year] in every row. *)
Theorem extracted_frames_tagged
        (read_csv : string -> result frame) (now : cell) (log0 : list log_entry) :
  (forall url df, read_csv url = Ok df -> aligned df) ->
  (forall year df,
      In (year, df) (datasets_dict (extract_itbi_data_elt read_csv now)) ->
      Frame.empty df = false /\ tagged year df
      /\ has_value "pipeline_type" (CStr "ELT") df)
  /\ (forall year df,
         In (year, df) (datasets_dict (extract_itbi_data read_csv now log0)) ->
         Frame.empty df = false /\ (20 <= List.length (columns df))%nat
         /\ tagged year df).
Proof.
  intros Hal. split; intros year df Hin.
  - pose proof (loop_good _ _ _ (step_elt_dict read_csv now)
                  (try_extract_elt_good read_csv now Hal)
                  datasets_urls (mkExtract [] 0 [] []) (Forall_nil _)) as H.
    rewrite Forall_forall in H. exact (H (year, df) Hin).
  - pose proof (loop_good _ _ _ (step_etl_dict read_csv now)
                  (try_extract_etl_good read_csv now Hal)
                  datasets_urls (mkExtract [] 0 [] log0) (Forall_nil _)) as H.
    rewrite Forall_forall in H. exact (H (year, df) Hin).
Qed.

Lemma extracted_frames_tagged_steady :
  (forall year df,
      In (year, df) (datasets_dict (extract_itbi_data_elt steady_source CNaT)) ->
      Frame.empty df = false /\ tagged year df
      /\ has_value "pipeline_type" (CStr "ELT") df)
  /\ (forall year df,
         In (year, df) (datasets_dict (extract_itbi_data steady_source CNaT [])) ->
         Frame.empty df = false /\ (20 <= List.length (columns df))%nat
         /\ tagged year df).
Proof.
  apply (extracted_frames_tagged steady_source CNaT []).
  intros url df H. injection H as <-. repeat constructor.
Defined.

(** ** Validation after extraction *)

Lemma validate_raw_data_nonempty (ds : datasets) :
  Forall (fun p => Frame.empty (snd p) = false) ds ->
  Pipeline.validate_raw_data ds
  = forallb (fun p => (10 <=? List.length (columns (snd p)))%nat) ds.
Proof.
  induction 1 as [|[y df] ds He _ IH]; [reflexivity|].
  cbn [Pipeline.validate_raw_data forallb snd] in *. rewrite He, IH.
  destruct (Nat.ltb_spec (List.length (columns df)) 10) as [Hl|Hl];
    destruct (Nat.leb_spec 10 (List.length (columns df))); try lia; reflexivity.
Qed.

Lemma validate_extracted_data_nonempty (ds : datasets) :
  Forall (fun p => Frame.empty (snd p) = false) ds ->
  Pipeline.validate_extracted_data ds
  = forallb (fun p => forallb (Frame.has_column (snd p))
                              Pipeline.required_columns) ds.
Proof.
  induction 1 as [|[y df] ds He _ IH]; [reflexivity|].
  cbn [Pipeline.validate_extracted_data forallb snd] in *. rewrite He, IH.
  unfold Pipeline.required_columns. cbn [filter forallb].
  destruct (Frame.has_column df "valor_avaliacao");
    destruct (Frame.has_column df "bairro");
    destruct (Frame.has_column df "tipo_imovel");
    destruct (Frame.has_column df "data_transacao"); reflexivity.
Qed.

(** X20.  On what the extractors return, validation never fails for an
    empty dataset: [validate_raw_data] is then exactly the test that every
    frame has ten columns or more, and [validate_extracted_data] exactly the
    test that every frame has the four required columns. *)
Theorem validation_after_extraction
        (read_csv : string -> result frame) (now : cell) (log0 : list log_entry) :
  Pipeline.validate_raw_data (datasets_dict (extract_itbi_data_elt read_csv now))
  = forallb (fun p => (10 <=? List.length (columns (snd p)))%nat)
            (datasets_dict (extract_itbi_data_elt read_csv now))
  /\ Pipeline.validate_extracted_data
       (datasets_dict (extract_itbi_data read_csv now log0))
     = forallb (fun p => forallb (Frame.has_column (snd p))
                                 Pipeline.required_columns)
               (datasets_dict (extract_itbi_data read_csv now log0)).
Proof.
  split.
  - apply validate_raw_data_nonempty.
    apply (loop_good _ _ (fun _ df => Frame.empty df = false)
             (step_elt_dict read_csv now)); [|constructor].
    intros y u df H. now apply try_extract_elt_inv in H as (? & _ & _ & ?).
  - apply validate_extracted_data_nonempty.
    apply (loop_good _ _ (fun _ df => Frame.empty df = false)
             (step_etl_dict read_csv now)); [|constructor].
    intros y u df H. now apply try_extract_etl_inv in H as (? & _ & _ & ? & _).
Qed.

(** ** The in-process transformation as a whole *)

Section TransformDataset.

Import Frame.

Lemma has_column_rename (old new n : string) (df : frame) :
  n <> old -> n <> new ->
  has_column (rename_col old new df) n = has_column df n.
Proof.
  intros Ho Hn. unfold has_column, rename_col. cbn [columns].
  induction (columns df) as [|c cols IH]; [reflexivity|].
  cbn [map existsb]. rewrite IH. f_equal.
  destruct (String.eqb_spec c old) as [->|_]; [|reflexivity].
  destruct (String.eqb_spec n new); destruct (String.eqb_spec n old);
    congruence.
Qed.

Lemma clean_column_names_raises (df : frame) :
  (cidade_without_uf df ->
   Etl.clean_column_names df = Raise (KeyError "not found in axis"))
  /\ (~ cidade_without_uf df -> exists out, Etl.clean_column_names df = Ok out).
Proof.
  unfold cidade_without_uf, Etl.clean_column_names, drop.
  cbn [forallb]. rewrite !has_column_rename by discriminate.
  destruct (has_column df "cidade"), (has_column df "uf"); cbn [andb];
    split; intros H; eauto; try (now destruct H); now destruct H.
Qed.

Lemma transform_dataset_clean (df : frame) :
  (forall e, Etl.clean_column_names df = Raise e ->
             Etl.transform_dataset df = Raise e)
  /\ (forall out, Etl.clean_column_names df = Ok out ->
                  exists out', Etl.transform_dataset df = Ok out').
Proof.
  unfold Etl.transform_dataset.
  destruct (Etl.clean_column_names df); split; intros ? H;
    inversion H; subst; cbn [bind]; eauto.
Qed.

Lemma transform_dataset_cases (df : frame) :
  (cidade_without_uf df ->
   Etl.transform_dataset df = Raise (KeyError "not found in axis"))
  /\ (~ cidade_without_uf df -> exists out, Etl.transform_dataset df = Ok out).
Proof.
  destruct (clean_column_names_raises df) as [Hr Ho].
  destruct (transform_dataset_clean df) as [Tr To].
  split; intros H.
  - apply Tr, Hr, H.
  - destruct (Ho H) as (out & E). exact (To out E).
Qed.

Lemma cidade_without_uf_dec (df : frame) :
  cidade_without_uf df \/ ~ cidade_without_uf df.
Proof.
  unfold cidade_without_uf.
  destruct (has_column df "cidade"), (has_column df "uf"); intuition congruence.
Qed.

End TransformDataset.

(** X21.  The in-process transformation of one frame raises exactly when
    the frame has a column [cidade] and no column [uf] (the KeyError of
    [drop]); on every other frame it returns a frame, whatever the cells
    hold. *)
Theorem transform_dataset_raises_iff (df : frame) :
  (Etl.transform_dataset df = Raise (KeyError "not found in axis")
   <-> cidade_without_uf df)
  /\ ((exists out, Etl.transform_dataset df = Ok out)
      <-> ~ cidade_without_uf df).
Proof.
  destruct (transform_dataset_cases df) as [Hr Ho].
  destruct (cidade_without_uf_dec df) as [H|H].
  - split; split; intros H'; auto; try contradiction.
    destruct H' as (out & E). rewrite (Hr H) in E. discriminate.
  - split; split; intros H'; auto; try contradiction.
    destruct (Ho H) as (out & E). rewrite E in H'. discriminate.
Qed.

Lemma transform_from_cases (ds : datasets) :
  forall acc,
    (Exists (fun p => cidade_without_uf (snd p)) ds ->
     Pipeline.transform_from acc ds = Raise (KeyError "not found in axis"))
    /\ (Forall (fun p => ~ cidade_without_uf (snd p)) ds ->
        exists out, Pipeline.transform_from acc ds = Ok out).
Proof.
  induction ds as [|[y df] ds IH]; intros acc.
  - split; [inversion 1 | intros _; now exists acc].
  - cbn [Pipeline.transform_from].
    destruct (transform_dataset_cases df) as [Hr Ho].
    destruct (cidade_without_uf_dec df) as [H|H].
    + rewrite (Hr H). cbn [bind]. split; [reflexivity|].
      intros HF. inversion HF; subst. contradiction.
    + destruct (Ho H) as (out & ->). cbn [bind].
      destruct (IH (Dict.set acc y out)) as [IHr IHo].
      split.
      * intros HE. inversion HE; subst; [contradiction | auto].
      * intros HF. inversion HF; subst. auto.
Qed.

(** X22.  [transform_all_datasets] has no handler around the call: a
    single frame with [cidade] and without [uf] makes the whole call raise
    and no year is returned; when no frame is of that kind the call
    returns. *)
Theorem transform_all_datasets_aborts (ds : datasets) :
  (Pipeline.transform_all_datasets ds = Raise (KeyError "not found in axis")
   <-> Exists (fun p => cidade_without_uf (snd p)) ds)
  /\ ((exists out, Pipeline.transform_all_datasets ds = Ok out)
      <-> Forall (fun p => ~ cidade_without_uf (snd p)) ds).
Proof.
  unfold Pipeline.transform_all_datasets.
  destruct (transform_from_cases ds []) as [Hr Ho].
  assert (D : Exists (fun p => cidade_without_uf (snd p)) ds
              \/ Forall (fun p => ~ cidade_without_uf (snd p)) ds).
  { clear. induction ds as [|[y df] ds [IH|IH]]; auto.
    destruct (cidade_without_uf_dec df); auto. }
  assert (N : Exists (fun p => cidade_without_uf (snd p)) ds ->
              Forall (fun p => ~ cidade_without_uf (snd p)) ds -> False).
  { clear. intros HE HF. rewrite Forall_forall in HF.
    apply Exists_exists in HE as (p & Hin & Hp). exact (HF p Hin Hp). }
  destruct D as [H|H].
  - split; split; intros H'; auto; try (now destruct (N H H')).
    destruct H' as (out & E). rewrite (Hr H) in E. discriminate.
  - split; split; intros H'; auto; try (now destruct (N H' H)).
    destruct (Ho H) as (out & E). rewrite E in H'. discriminate.
Qed.

Section RowCount.

Import Frame.

Lemma bind_ok {A B : Type} (r : result A) (k : A -> result B) (y : B) :
  bind r k = Ok y -> exists a, r = Ok a /\ k a = Ok y.
Proof. destruct r as [a|e]; [eauto | discriminate]. Qed.

Lemma mapM_length {A B : Type} (f : A -> result B) (l : list A) :
  forall out, mapM f l = Ok out -> List.length out = List.length l.
Proof.
  induction l as [|a l IH]; intros out H; cbn [mapM] in H.
  - now injection H as <-.
  - apply bind_ok in H as (b & _ & H). apply bind_ok in H as (bs & Hbs & H).
    injection H as <-. cbn. now rewrite (IH bs Hbs).
Qed.

Lemma column_length (df : frame) (name : string) (cells : list cell) :
  column df name = Ok cells -> List.length cells = nrows df.
Proof.
  unfold column. destruct (has_column df name); [|discriminate].
  intros H. injection H as <-. apply length_map.
Qed.

Lemma nrows_map_column (f : cell -> cell) (name : string) (df : frame) :
  nrows (map_column f name df) = nrows df.
Proof. apply length_map. Qed.

Lemma nrows_assign (df : frame) (name : string) (vals : list cell) :
  List.length vals = nrows df -> nrows (assign df name vals) = nrows df.
Proof.
  unfold assign, nrows. intros H.
  destruct (has_column df name); cbn [rows];
    rewrite length_map, length_combine; lia.
Qed.

Lemma nrows_try_assign (df : frame) (name : string) (r : result (list cell)) :
  (forall vals, r = Ok vals -> List.length vals = nrows df) ->
  nrows (Etl.try_assign df name r) = nrows df.
Proof.
  intros H. destruct r as [vals|e]; [|reflexivity].
  apply nrows_assign. now apply H.
Qed.

Lemma nrows_column_mapM (f : cell -> result cell) (df : frame) (name : string)
      (vals : list cell) :
  (cells <- column df name ;; mapM f cells) = Ok vals ->
  List.length vals = nrows df.
Proof.
  intros H. apply bind_ok in H as (cells & Hc & Hm).
  apply mapM_length in Hm. apply column_length in Hc. congruence.
Qed.

Lemma dt_field_length (f : date -> Z) (cells out : list cell) :
  Etl.dt_field f cells = Ok out -> List.length out = List.length cells.
Proof.
  unfold Etl.dt_field. destruct (forallb _ cells); [|discriminate].
  destruct (existsb _ cells); intros H; injection H as <-; apply length_map.
Qed.

Lemma col_sub_length (a b out : list cell) :
  Etl.col_sub a b = Ok out ->
  List.length out = Nat.min (List.length a) (List.length b).
Proof.
  unfold Etl.col_sub. destruct (_ && _); intros H;
    apply mapM_length in H; now rewrite length_combine in H.
Qed.

Lemma nrows_clean_column_names (df out : frame) :
  Etl.clean_column_names df = Ok out -> nrows out = nrows df.
Proof.
  unfold Etl.clean_column_names, drop.
  destruct (has_column _ "cidade"); [destruct (forallb _ _)|];
    intros H; inversion H; subst; [apply length_map | reflexivity].
Qed.

Lemma nrows_handle_missing_values (df : frame) :
  nrows (Etl.handle_missing_values df) = nrows df.
Proof.
  unfold Etl.handle_missing_values.
  destruct (has_column df "complemento"); [apply nrows_map_column | reflexivity].
Qed.

Lemma nrows_fold_left {A : Type} (f : frame -> A -> frame) (l : list A) :
  (forall d a, nrows (f d a) = nrows d) ->
  forall df, nrows (fold_left f l df) = nrows df.
Proof.
  intros Hf. induction l as [|a l IH]; intros df; cbn [fold_left];
    [reflexivity | now rewrite IH, Hf].
Qed.

Lemma nrows_fix_text_encoding (df : frame) :
  nrows (Etl.fix_text_encoding df) = nrows df.
Proof.
  unfold Etl.fix_text_encoding. apply nrows_fold_left.
  intros d a. apply nrows_map_column.
Qed.

Lemma nrows_fix_numeric_column (df : frame) (col : string) :
  nrows (Etl.fix_numeric_column df col) = nrows df.
Proof.
  unfold Etl.fix_numeric_column. destruct (has_column df col); [|reflexivity].
  destruct (bind _ _) as [vals|e] eqn:E; [|apply nrows_map_column].
  apply nrows_column_mapM in E.
  rewrite nrows_assign by assumption. apply nrows_map_column.
Qed.

Lemma nrows_fix_data_types (df : frame) :
  nrows (Etl.fix_data_types df) = nrows df.
Proof.
  unfold Etl.fix_data_types, Etl.fix_date_column.
  set (d := fold_left _ _ df).
  assert (Hd : nrows d = nrows df)
    by (apply nrows_fold_left; intros; apply nrows_fix_numeric_column).
  destruct (has_column d "data_transacao"); [|assumption].
  destruct (bind _ _) as [vals|e] eqn:E; [|assumption].
  apply nrows_column_mapM in E. now rewrite nrows_assign.
Qed.

Lemma nrows_temporal_components (df : frame) :
  nrows (Etl.temporal_components df) = nrows df.
Proof.
  unfold Etl.temporal_components.
  destruct (has_column df "data_transacao"); [|reflexivity].
  destruct (bind _ _) as [[[m q] y]|e] eqn:E; [|reflexivity].
  apply bind_ok in E as (d & Hd & E). apply bind_ok in E as (m' & Hm & E).
  apply bind_ok in E as (q' & Hq & E). apply bind_ok in E as (y' & Hy & E).
  injection E as <- <- <-.
  apply column_length in Hd.
  apply dt_field_length in Hm, Hq, Hy.
  assert (A1 : nrows (assign df "mes_transacao" m') = nrows df)
    by (apply nrows_assign; congruence).
  assert (A2 : nrows (assign (assign df "mes_transacao" m') "trimestre" q')
               = nrows df)
    by (rewrite nrows_assign; congruence).
  rewrite nrows_assign; congruence.
Qed.

Lemma nrows_create_derived_metrics (df : frame) :
  nrows (Etl.create_derived_metrics df) = nrows df.
Proof.
  unfold Etl.create_derived_metrics.
  set (d1 := Etl.try_assign df "valor_por_m2" _).
  assert (H1 : nrows d1 = nrows df).
  { apply nrows_try_assign. intros vals H. unfold Etl.valor_por_m2_column in H.
    apply bind_ok in H as (v & Hv & H). apply bind_ok in H as (a & Ha & H).
    apply mapM_length in H. rewrite length_combine in H.
    apply column_length in Hv, Ha. lia. }
  set (d2 := Etl.try_assign d1 "idade_imovel" _).
  assert (H2 : nrows d2 = nrows d1).
  { apply nrows_try_assign. intros vals H. unfold Etl.idade_imovel_column in H.
    apply bind_ok in H as (d & Hd & H). apply bind_ok in H as (y & Hy & H).
    apply bind_ok in H as (a & Ha & H).
    apply col_sub_length in H. apply dt_field_length in Hy.
    apply column_length in Hd, Ha. lia. }
  set (d3 := Etl.try_assign d2 "faixa_valor" _).
  assert (H3 : nrows d3 = nrows d2).
  { apply nrows_try_assign. intros vals H.
    exact (nrows_column_mapM _ _ _ _ H). }
  rewrite nrows_temporal_components.
  destruct (has_column d3 "valores_financiados_sfh").
  - rewrite nrows_try_assign; [congruence|].
    intros vals H. exact (nrows_column_mapM _ _ _ _ H).
  - congruence.
Qed.

End RowCount.

(** X23.  The in-process transformation never drops a row: whenever it
    returns, the frame it returns has as many rows as the frame it was
    given, also when cells fail to convert. *)
Theorem transform_dataset_keeps_rows (df out : frame) :
  Etl.transform_dataset df = Ok out ->
  Frame.nrows out = Frame.nrows df.
Proof.
  unfold Etl.transform_dataset. intros H.
  apply bind_ok in H as (d & Hd & H). injection H as <-.
  rewrite nrows_create_derived_metrics, nrows_fix_data_types,
    nrows_fix_text_encoding, nrows_handle_missing_values.
  now apply nrows_clean_column_names.
Qed.

Lemma transform_dataset_keeps_example_row :
  exists out,
    Etl.transform_dataset example_row = Ok out
    /\ Frame.nrows out = Frame.nrows example_row.
Proof.
  eexists. split.
  - vm_compute. reflexivity.
  - apply (transform_dataset_keeps_rows example_row).
    vm_compute. reflexivity.
Defined.

(** ** Loading every year *)

Section LoadAllYears.

Variable limit : nat.
Variable clock : string -> string.

Lemma set_result_keys (res : list (string * nat)) (k : string) (n : nat) :
  forall y, In y (map fst (Loader.set_result res k n))
            <-> y = k \/ In y (map fst res).
Proof.
  induction res as [|[k' v] res IH]; intros y; cbn [Loader.set_result map fst In].
  - intuition.
  - destruct (String.eqb_spec k' k) as [->|Hne]; cbn [map fst In].
    + intuition.
    + rewrite IH. intuition.
Qed.

Lemma load_raw_dataset_metadata (df : frame) (year ts : string) (d : db) :
  List.length (load_metadata (fst (Elt.load_raw_dataset limit df year ts d)))
  = S (List.length (load_metadata d))
  /\ itbi_transformed (fst (Elt.load_raw_dataset limit df year ts d))
     = itbi_transformed d.
Proof.
  unfold Elt.load_raw_dataset.
  destruct (Elt.to_sql_raw _ _ _ _ _) as [[table seq]|e];
    cbn [fst load_metadata itbi_transformed]; rewrite length_app; cbn; split;
    (lia || reflexivity).
Qed.

Lemma load_step_spec (st : db * list (string * nat)) (p : string * frame) :
  (forall y, In y (map fst (snd (Loader.load_step limit clock st p)))
             <-> y = fst p \/ In y (map fst (snd st)))
  /\ List.length (load_metadata (fst (Loader.load_step limit clock st p)))
     = S (List.length (load_metadata (fst st)))
  /\ itbi_transformed (fst (Loader.load_step limit clock st p))
     = itbi_transformed (fst st).
Proof.
  unfold Loader.load_step.
  destruct (load_raw_dataset_metadata (snd p) (fst p) (clock (fst p)) (fst st))
    as [Hm Ht].
  destruct (Elt.load_raw_dataset _ _ _ _ _) as [d [n|e]]; cbn [fst snd] in *;
    (split; [intros y; apply set_result_keys | split; assumption]).
Qed.

Lemma load_loop_spec (ds : datasets) :
  forall st,
    (forall y, In y (map fst (snd (fold_left (Loader.load_step limit clock) ds st)))
               <-> In y (Dict.keys ds) \/ In y (map fst (snd st)))
    /\ List.length
         (load_metadata (fst (fold_left (Loader.load_step limit clock) ds st)))
       = (List.length (load_metadata (fst st)) + List.length ds)%nat
    /\ itbi_transformed (fst (fold_left (Loader.load_step limit clock) ds st))
       = itbi_transformed (fst st).
Proof.
  induction ds as [|p ds IH]; intros st; cbn [fold_left].
  - cbn. split; [intuition | split; [lia | reflexivity]].
  - destruct (IH (Loader.load_step limit clock st p)) as (Hk & Hm & Ht).
    destruct (load_step_spec st p) as (Sk & Sm & St).
    split; [|split].
    + intros y. rewrite Hk, Sk. unfold Dict.keys. cbn [map In].
      intuition.
    + rewrite Hm, Sm. cbn [List.length]. lia.
    + now rewrite Ht, St.
Qed.

End LoadAllYears.

(** X24.  [load_all_raw_datasets] reports every year it was given and only
    those, whether the load of the year succeeded or raised; it records one
    row of load metadata per dataset and leaves the transformed table as it
    was. *)
Theorem load_all_reports_every_year
        (limit : nat) (clock : string -> string) (ds : datasets) (d : db) :
  (forall y,
      In y (map fst (snd (Loader.load_all_raw_datasets limit clock ds d)))
      <-> In y (Dict.keys ds))
  /\ List.length
       (load_metadata (fst (Loader.load_all_raw_datasets limit clock ds d)))
     = (List.length (load_metadata d) + List.length ds)%nat
  /\ itbi_transformed (fst (Loader.load_all_raw_datasets limit clock ds d))
     = itbi_transformed d.
Proof.
  unfold Loader.load_all_raw_datasets.
  destruct (load_loop_spec limit clock ds (d, [])) as (Hk & Hm & Ht).
  split; [|split; assumption].
  intros y. rewrite Hk. cbn. intuition.
Qed.

(** ** Assigning a column *)

Section Assign.

Import Frame.

Lemma has_column_assign (df : frame) (n : string) (vals : list cell) (m : string) :
  has_column (assign df n vals) m = has_column df m || String.eqb m n.
Proof.
  unfold assign, has_column.
  destruct (existsb (String.eqb n) (columns df)) eqn:E; cbn [columns].
  - destruct (String.eqb_spec m n) as [->|_];
      [now rewrite E | now rewrite orb_false_r].
  - rewrite existsb_app. cbn. now rewrite orb_false_r.
Qed.

Lemma rows_assign (df : frame) (n : string) (vals : list cell) :
  rows (assign df n vals)
  = map (fun rv => if has_column df n
                   then apply_col (fun _ => snd rv) n (columns df) (fst rv)
                   else (fst rv ++ [snd rv])%list)
        (combine (rows df) vals).
Proof. unfold assign. now destruct (has_column df n). Qed.

Lemma columns_assign (df : frame) (n : string) (vals : list cell) :
  columns (assign df n vals)
  = if has_column df n then columns df else (columns df ++ [n])%list.
Proof. unfold assign. now destruct (has_column df n). Qed.

Lemma map_snd_combine_eq {A B : Type} (l : list A) :
  forall l' : list B,
    List.length l' = List.length l -> map snd (combine l l') = l'.
Proof.
  induction l as [|a l IH]; intros [|b l'] H; try discriminate; [reflexivity|].
  cbn. f_equal. apply IH. now injection H.
Qed.

Lemma map_fst_combine_eq {A B : Type} (l : list A) :
  forall l' : list B,
    List.length l' = List.length l -> map fst (combine l l') = l.
Proof.
  induction l as [|a l IH]; intros [|b l'] H; try discriminate; [reflexivity|].
  cbn. f_equal. apply IH. now injection H.
Qed.

Lemma assign_aligned (df : frame) (n : string) (vals : list cell) :
  aligned df -> aligned (assign df n vals).
Proof.
  unfold aligned. rewrite rows_assign, columns_assign, Forall_map.
  intros Ha. apply Forall_forall. intros [r v] Hin.
  apply in_combine_l in Hin. rewrite Forall_forall in Ha.
  specialize (Ha r Hin). cbn [fst snd].
  destruct (has_column df n).
  - now rewrite apply_col_length.
  - rewrite !length_app. cbn. lia.
Qed.

Lemma column_assign_same (df : frame) (n : string) (vals : list cell) :
  aligned df -> List.length vals = nrows df ->
  column (assign df n vals) n = Ok vals.
Proof.
  intros Ha Hl. unfold column.
  rewrite has_column_assign, String.eqb_refl, orb_true_r. f_equal.
  rewrite rows_assign, columns_assign, map_map.
  rewrite <- (map_snd_combine_eq (rows df) vals Hl) at 2.
  apply map_ext_in. intros [r v] Hin. cbn [fst snd].
  apply in_combine_l in Hin. unfold aligned in Ha. rewrite Forall_forall in Ha.
  specialize (Ha r Hin). unfold cell_or_none.
  destruct (has_column df n) eqn:E.
  - rewrite cell_at_apply_col, String.eqb_refl.
    apply in_eqb in E. destruct (cell_at_some n _ r Ha E) as (x & ->).
    reflexivity.
  - rewrite cell_at_snoc by assumption.
    rewrite cell_at_none, String.eqb_refl; [reflexivity|].
    intros Hc. apply in_eqb in Hc. unfold has_column in E. congruence.
Qed.

Lemma column_assign_other (df : frame) (n m : string) (vals : list cell) :
  aligned df -> List.length vals = nrows df -> m <> n ->
  column (assign df n vals) m = column df m.
Proof.
  intros Ha Hl Hne. unfold column.
  rewrite has_column_assign.
  replace (String.eqb m n) with false
    by (symmetry; now apply String.eqb_neq).
  rewrite orb_false_r. destruct (has_column df m); [|reflexivity]. f_equal.
  rewrite rows_assign, columns_assign, map_map.
  rewrite <- (map_fst_combine_eq (rows df) vals Hl) at 2.
  rewrite map_map. apply map_ext_in. intros [r v] Hin. cbn [fst snd].
  apply in_combine_l in Hin. unfold aligned in Ha. rewrite Forall_forall in Ha.
  specialize (Ha r Hin). unfold cell_or_none.
  destruct (has_column df n).
  - rewrite cell_at_apply_col.
    replace (String.eqb m n) with false
      by (symmetry; now apply String.eqb_neq).
    now destruct (cell_at m (columns df) r).
  - rewrite cell_at_snoc by assumption.
    replace (String.eqb n m) with false
      by (symmetry; apply String.eqb_neq; congruence).
    now destruct (cell_at m (columns df) r).
Qed.

(** A guarded assignment either adds its column or leaves the frame as it
    is; the other columns stay. *)
Lemma try_assign_keeps (df : frame) (n : string) (r : result (list cell)) :
  aligned df ->
  (forall vals, r = Ok vals -> List.length vals = nrows df) ->
  aligned (Etl.try_assign df n r)
  /\ forall m, m <> n -> column (Etl.try_assign df n r) m = column df m.
Proof.
  intros Ha Hl. destruct r as [vals|e]; cbn [Etl.try_assign].
  - split; [now apply assign_aligned|].
    intros m Hm. apply column_assign_other; auto.
  - split; [assumption | reflexivity].
Qed.

Lemma valor_por_m2_column_length (df : frame) (vals : list cell) :
  Etl.valor_por_m2_column df = Ok vals -> List.length vals = nrows df.
Proof.
  unfold Etl.valor_por_m2_column. intros H.
  apply bind_ok in H as (v & Hv & H). apply bind_ok in H as (a & Ha & H).
  apply mapM_length in H. rewrite length_combine in H.
  apply column_length in Hv, Ha. lia.
Qed.

Lemma idade_imovel_column_length (df : frame) (vals : list cell) :
  Etl.idade_imovel_column df = Ok vals -> List.length vals = nrows df.
Proof.
  unfold Etl.idade_imovel_column. intros H.
  apply bind_ok in H as (d & Hd & H). apply bind_ok in H as (y & Hy & H).
  apply bind_ok in H as (a & Ha & H).
  apply col_sub_length in H. apply dt_field_length in Hy.
  apply column_length in Hd, Ha. lia.
Qed.

Lemma temporal_components_keeps (df : frame) :
  aligned df ->
  forall m,
    m <> "mes_transacao" -> m <> "trimestre" -> m <> "ano_transacao" ->
    column (Etl.temporal_components df) m = column df m.
Proof.
  intros Hal m H1 H2 H3. unfold Etl.temporal_components.
  destruct (has_column df "data_transacao"); [|reflexivity].
  destruct (bind _ _) as [[[mm q] y]|e] eqn:E; [|reflexivity].
  apply bind_ok in E as (d & Hd & E). apply bind_ok in E as (m' & Hm & E).
  apply bind_ok in E as (q' & Hq & E). apply bind_ok in E as (y' & Hy & E).
  injection E as <- <- <-.
  apply column_length in Hd. apply dt_field_length in Hm, Hq, Hy.
  assert (A1 : nrows (assign df "mes_transacao" m') = nrows df)
    by (apply nrows_assign; congruence).
  assert (A2 : nrows (assign (assign df "mes_transacao" m') "trimestre" q')
               = nrows df)
    by (rewrite nrows_assign; congruence).
  rewrite column_assign_other; auto using assign_aligned; try congruence.
  rewrite column_assign_other; auto using assign_aligned; try congruence.
  rewrite column_assign_other; auto; congruence.
Qed.

End Assign.

(** ** The value bucket of every record *)

Section Buckets.

Lemma in_band_case (v : Q) : in_band v (Elt.faixa_valor_case (Some v)).
Proof.
  destruct (faixa_valor_case_bands v) as (B1 & B2 & B3 & B4).
  unfold in_band.
  destruct (Qlt_le_dec (200000 # 1) v) as [H1|H1];
    [|left; split; [assumption | now apply B1]].
  destruct (Qlt_le_dec (500000 # 1) v) as [H2|H2];
    [|right; left; repeat split; try assumption; now apply B2].
  destruct (Qlt_le_dec (1000000 # 1) v) as [H3|H3];
    [|right; right; left; repeat split; try assumption; now apply B3].
  right; right; right. split; [assumption | now apply B4].
Qed.

Lemma classificar_valor_typed (vs : list cell) :
  Forall typed_value vs ->
  exists labels,
    mapM Etl.classificar_valor vs = Ok labels
    /\ Forall2 value_bucket vs labels.
Proof.
  induction 1 as [|c vs Hc _ (labels & E & F)].
  - exists []. split; [reflexivity | constructor].
  - cbn [mapM]. rewrite E.
    destruct Hc as [Hna|(v & ->)].
    + exists (CStr NOT_INFORMED :: labels). split.
      * unfold Etl.classificar_valor. rewrite Hna. reflexivity.
      * constructor; [left; auto | assumption].
    + exists (CStr (Elt.faixa_valor_case (Some v)) :: labels). split.
      * now rewrite classificar_valor_fin.
      * constructor; [|assumption]. right.
        exists v, (Elt.faixa_valor_case (Some v)).
        repeat split. apply in_band_case.
Qed.

Lemma faixa_valor_assigned (df : frame) (vs : list cell) :
  aligned df ->
  Frame.column df "valor_avaliacao" = Ok vs ->
  Forall typed_value vs ->
  exists labels,
    Frame.column (Etl.create_derived_metrics df) "faixa_valor" = Ok labels
    /\ Forall2 value_bucket vs labels
    /\ Frame.column (Etl.create_derived_metrics df) "valor_avaliacao" = Ok vs.
Proof.
  intros Hal Hv Ht. unfold Etl.create_derived_metrics.
  set (d1 := Etl.try_assign df "valor_por_m2" _).
  destruct (try_assign_keeps df "valor_por_m2" (Etl.valor_por_m2_column df) Hal
              (valor_por_m2_column_length df)) as [Al1 K1]. fold d1 in Al1, K1.
  set (d2 := Etl.try_assign d1 "idade_imovel" _).
  destruct (try_assign_keeps d1 "idade_imovel" (Etl.idade_imovel_column d1) Al1
              (idade_imovel_column_length d1)) as [Al2 K2]. fold d2 in Al2, K2.
  assert (V2 : Frame.column d2 "valor_avaliacao" = Ok vs).
  { rewrite K2, K1 by discriminate. exact Hv. }
  destruct (classificar_valor_typed vs Ht) as (labels & El & F).
  assert (R3 : Etl.faixa_valor_column d2 = Ok labels).
  { unfold Etl.faixa_valor_column. rewrite V2. exact El. }
  assert (L3 : List.length labels = Frame.nrows d2).
  { apply mapM_length in El. apply column_length in V2. congruence. }
  rewrite R3. cbn [Etl.try_assign].
  set (d3 := Frame.assign d2 "faixa_valor" labels).
  assert (Al3 : aligned d3) by now apply assign_aligned.
  assert (F3 : Frame.column d3 "faixa_valor" = Ok labels)
    by now apply column_assign_same.
  assert (V3 : Frame.column d3 "valor_avaliacao" = Ok vs).
  { unfold d3. rewrite column_assign_other by (auto; discriminate). exact V2. }
  set (d4 := if Frame.has_column d3 "valores_financiados_sfh" then _ else d3).
  assert (K4 : aligned d4
               /\ forall m, m <> "tem_financiamento" ->
                            Frame.column d4 m = Frame.column d3 m).
  { unfold d4. destruct (Frame.has_column d3 "valores_financiados_sfh");
      [|split; [assumption | reflexivity]].
    apply try_assign_keeps; [assumption|].
    intros vals H. exact (nrows_column_mapM _ _ _ _ H). }
  destruct K4 as [Al4 K4].
  exists labels. split; [|split; [assumption|]].
  - rewrite temporal_components_keeps by (auto; discriminate).
    rewrite K4 by discriminate. exact F3.
  - rewrite temporal_components_keeps by (auto; discriminate).
    rewrite K4 by discriminate. exact V3.
Qed.

Lemma faixa_valor_in_db (year : string) (d : db) (t : t_row) :
  In t (itbi_transformed (fst (Elt.create_derived_metrics_in_db year d))) ->
  Sql.text_is (t_source_year t) year = true ->
  t_faixa_valor t = Some (Elt.faixa_valor_case (t_valor_avaliacao t))
  /\ exists t0, In t0 (itbi_transformed d) /\ t = Elt.derive_row year t0
                /\ t_valor_avaliacao t = t_valor_avaliacao t0
                /\ Sql.text_is (t_source_year t0) year = true.
Proof.
  cbn [Elt.create_derived_metrics_in_db fst itbi_transformed].
  intros Hin Hy. apply in_map_iff in Hin as (t0 & <- & Hin).
  rewrite derive_row_source_year in Hy.
  rewrite (derive_row_of_year year t0 Hy). unfold derived.
  cbn [t_faixa_valor t_valor_avaliacao]. split; [reflexivity|].
  exists t0. repeat split; try reflexivity; try assumption.
  symmetry. now apply derive_row_of_year.
Qed.

End Buckets.

(** Three records, one of them without value, and their buckets. *)
Example faixa_valor_three_values :
  Frame.column (Etl.create_derived_metrics three_values) "faixa_valor"
  = Ok [CStr LOW; CStr NOT_INFORMED; CStr PREMIUM].
Proof. vm_compute. reflexivity. Qed.

(** C2.  For every record with a typed value the bucket is assigned by the
    four thresholds, in both variants.  In process: on a frame whose value
    column holds numbers and nulls, [create_derived_metrics] adds the
    column [faixa_valor], whose cell is, row by row, the band of the
    row's value, or "Não informado" for a null.  In the database: after
    [create_derived_metrics_in_db] every row of the year carries the band
    of its value, and the rows of a year that the transform has built all
    have a value.  The four bands are pairwise disjoint and cover every
    value; the two variants agree on every non-null value; the CASE of the
    in-database variant has no null branch: it never yields "Não
    informado" (a NULL falls through to ELSE), and the rows it is applied
    to never hold a NULL value. *)
Theorem faixa_valor_thresholds (v : Q) :
  (Etl.classificar_valor (CFloat (Fin v)) = Ok (CStr LOW)
     <-> (v <= 200000 # 1)%Q)
  /\ (Etl.classificar_valor (CFloat (Fin v)) = Ok (CStr MEDIUM)
      <-> (200000 # 1 < v)%Q /\ (v <= 500000 # 1)%Q)
  /\ (Etl.classificar_valor (CFloat (Fin v)) = Ok (CStr HIGH)
      <-> (500000 # 1 < v)%Q /\ (v <= 1000000 # 1)%Q)
  /\ (Etl.classificar_valor (CFloat (Fin v)) = Ok (CStr PREMIUM)
      <-> (1000000 # 1 < v)%Q)
  /\ ((v <= 200000 # 1)%Q
      \/ ((200000 # 1 < v)%Q /\ (v <= 500000 # 1)%Q)
      \/ ((500000 # 1 < v)%Q /\ (v <= 1000000 # 1)%Q)
      \/ (1000000 # 1 < v)%Q)
  /\ NoDup [LOW; MEDIUM; HIGH; PREMIUM; NOT_INFORMED]
  /\ Etl.classificar_valor (CFloat (Fin v))
     = Ok (CStr (Elt.faixa_valor_case (Some v)))
  /\ (forall c, Cell.isna c = true ->
                Etl.classificar_valor c = Ok (CStr NOT_INFORMED))
  /\ (forall x, Elt.faixa_valor_case x <> NOT_INFORMED)
  /\ Elt.faixa_valor_case None = PREMIUM
  /\ (forall year timestamp id r,
        Elt.selected year r = true ->
        t_valor_avaliacao (Elt.transform_row id timestamp r) <> None)
  /\ (forall df vs,
        aligned df ->
        Frame.column df "valor_avaliacao" = Ok vs ->
        Forall typed_value vs ->
        exists labels,
          Frame.column (Etl.create_derived_metrics df) "faixa_valor" = Ok labels
          /\ Forall2 value_bucket vs labels
          /\ Frame.column (Etl.create_derived_metrics df) "valor_avaliacao"
             = Ok vs)
  /\ (forall year d t x,
        In t (itbi_transformed (fst (Elt.create_derived_metrics_in_db year d))) ->
        Sql.text_is (t_source_year t) year = true ->
        t_valor_avaliacao t = Some x ->
        exists l, t_faixa_valor t = Some l /\ in_band x l)
  /\ (forall year timestamp d t,
        In t (transformed_year year timestamp d) ->
        Sql.text_is (t_source_year t) year = true ->
        exists x l,
          t_valor_avaliacao t = Some x
          /\ t_faixa_valor t = Some l /\ in_band x l).
Proof.
  destruct (faixa_valor_case_bands v) as (B1 & B2 & B3 & B4).
  rewrite classificar_valor_fin.
  assert (inj : forall l, Ok (CStr (Elt.faixa_valor_case (Some v))) = Ok (CStr l)
                          <-> Elt.faixa_valor_case (Some v) = l)
    by (intros l; split; [now inversion 1 | now intros ->]).
  rewrite !inj.
  assert (ND : NoDup [LOW; MEDIUM; HIGH; PREMIUM; NOT_INFORMED]).
  { repeat constructor; cbn [In]; intuition discriminate. }
  assert (DB : forall year d t x,
             In t (itbi_transformed (fst (Elt.create_derived_metrics_in_db year d))) ->
             Sql.text_is (t_source_year t) year = true ->
             t_valor_avaliacao t = Some x ->
             exists l, t_faixa_valor t = Some l /\ in_band x l).
  { intros year d t x Hin Hy Hx.
    destruct (faixa_valor_in_db year d t Hin Hy) as [E _].
    rewrite Hx in E. eexists. split; [exact E | apply in_band_case]. }
  split; [apply B1|]. split; [apply B2|]. split; [apply B3|]. split; [apply B4|].
  split.
  { destruct (Qlt_le_dec (200000 # 1) v); [|now left].
    destruct (Qlt_le_dec (500000 # 1) v); [|now right; left].
    destruct (Qlt_le_dec (1000000 # 1) v);
      [now right; right; right | now right; right; left]. }
  split; [exact ND|]. split; [reflexivity|].
  split.
  { intros c Hc. unfold Etl.classificar_valor. now rewrite Hc. }
  split.
  { intros x E. pose proof (faixa_valor_case_labels x) as L. rewrite E in L.
    cbn [In] in L. intuition discriminate. }
  split; [reflexivity|].
  split.
  { intros. eapply transformed_value_not_null; eassumption. }
  split; [exact faixa_valor_assigned|].
  split; [exact DB|].
  intros year timestamp d t Hin Hy. unfold transformed_year in Hin.
  destruct (faixa_valor_in_db year _ t Hin Hy) as [E (t0 & Hin0 & _ & Ev & Hy0)].
  assert (Hv : t_valor_avaliacao t0 <> None).
  { cbn [Elt.transform_data_types_in_db fst itbi_transformed] in Hin0.
    apply in_app_or in Hin0 as [Hk|Hn].
    - apply filter_In in Hk as [_ Hk]. rewrite Hy0 in Hk. discriminate.
    - apply number_from_in in Hn as (id & r & Hr & ->).
      apply filter_In in Hr as [_ Hr].
      eapply transformed_value_not_null; eassumption. }
  destruct (t_valor_avaliacao t) as [x|] eqn:Hx; [|congruence].
  exists x, (Elt.faixa_valor_case (Some x)).
  repeat split; [exact E | apply in_band_case].
Qed.
